(** * HTTP analytics dashboard: the monitoring agent and the sliding-window detector

    A shallow embedding of
    - the class [HTTPAnalyticsAgent] (endpoint monitoring, history ring,
      health rules with their cooldown, timer registry), and
    - the module-level detector [analyze] with [pruneOld], [mean], [std],
      together with its caller [MemStorage.addHttpLog],
    and the properties of the specification that concern them.

    Numbers.  JavaScript numbers are IEEE doubles.  Status codes, timestamps
    (milliseconds since the epoch) and probe durations are integers and are
    kept in [Z].  The latencies of the detector are doubles ([float]);
    [mean], [std] and the three-sigma comparison are computed on them
    operation by operation, as the source does, so that rounding shows.
    The bound the specification speaks of, in exact arithmetic, is kept
    apart ([exact_mean], [exact_std], with a computable test proved equal
    to the comparison that uses the real square root).  The quotients of
    two counts that are tested against a constant ([errorRate],
    [avgResponseTime]) are exact rationals in [Q]; for the error-rate test
    of the health rules (a count out of at most 10 against 0.3) the
    agreement of exact and double arithmetic is proved
    ([JsFacts.gt_div_double]).  Division by zero gives NaN in the source
    and 0 in [Q]; both make every [>] comparison used here false.

    Time.  [Date.now()] and [new Date()] read a clock that is part of the
    modelled world (agent) or an argument (detector); awaited calls to the
    text-generation service let it advance.  A timer callback awaits its
    probe: [tick] is the callback whose probe returns at once, and
    [happen] lets other calls run while a probe is in flight. *)

From Stdlib Require Import Floats Uint63.
From Stdlib Require Import ZArith QArith Qpower Qreals Reals Lra Lia List String Sorted.
From stdpp Require Import gmap strings list fin_maps.

Open Scope Z_scope.

(** ** JavaScript array and number helpers *)

Module Js.

(** [a.slice(-n)]: the last [n] elements (all of them when shorter). *)
Definition slice_last {A} (n : nat) (a : list A) : list A :=
  drop (length a - n) a.

(** [a.push(x)] followed by reading [a]. *)
Definition push {A} (a : list A) (x : A) : list A := a ++ [x].

(** [a.shift()] followed by reading [a]: drops the first element. *)
Definition shift {A} (a : list A) : list A := tail a.

(** [Array.from(new Set(a))]: distinct values in order of first occurrence. *)
Definition set_from (a : list Z) : list Z :=
  fold_left (fun acc x => if decide (x ∈ acc) then acc else acc ++ [x]) a [].

(** [x > y] on numbers. *)
Definition gt (x y : Q) : bool := negb (Qle_bool x y).

(** [n / d] for two integers. *)
Definition div (n d : Z) : Q := inject_Z n / inject_Z d.

(** The double for an integer (exact up to 2^53 in size). *)
Definition number (z : Z) : float :=
  if z <? 0 then PrimFloat.opp (PrimFloat.of_uint63 (Uint63.of_Z (- z)))
  else PrimFloat.of_uint63 (Uint63.of_Z z).

(** The quotient of two integers and [x > y] as the source computes them,
    on IEEE doubles; [double_03] is the double the literal [0.3] denotes. *)
Definition double_div (n d : Z) : float :=
  PrimFloat.div (PrimFloat.of_uint63 (Uint63.of_Z n))
                (PrimFloat.of_uint63 (Uint63.of_Z d)).

Definition double_gt (x y : float) : bool := PrimFloat.ltb y x.

Definition double_03 : float := 0x1.3333333333333p-2%float.

(** Exact and double arithmetic agree on "[k] out of [n] exceeds 0.3". *)
Definition agree_on (k n : nat) : bool :=
  Bool.eqb (double_gt (double_div (Z.of_nat k) (Z.of_nat n)) double_03)
           (gt (div (Z.of_nat k) (Z.of_nat n)) (3 # 10)).

End Js.

(** ** The monitoring agent ([HTTPAnalyticsAgent]) *)

Module Agent.

(** *** Data model *)

Record EndpointMonitorConfig := {
  cfg_url : string;
  interval : Z;
  expectedStatus : option (list Z);
  alertThreshold : option Q
}.

Record EndpointCheckResult := {
  url : string;
  status : Z;
  responseTime : Z;
  timestamp : Z;
  success : bool;
  headers : option (list (string * string));
  error : option string
}.

Inductive InsightType := anomaly | trend | alert | recommendation.

(** The payload [data] of an insight built by [generateInsight]. *)
Record InsightData := {
  d_url : string;
  d_rootCauses : list string;
  d_recommendations : list string;
  d_checks : list EndpointCheckResult
}.

(** [severity] is copied from the reply of the text-generation service
    without validation, so it is an arbitrary string here. *)
Record AnalyticsInsight := {
  i_timestamp : Z;
  i_type : InsightType;
  i_severity : string;
  i_message : string;
  i_data : InsightData
}.

(** What [generateInsight] sends out: the prompt is a fixed template
    filled with exactly these three values. *)
Record Request := {
  q_url : string;
  q_context : string;
  q_data : list EndpointCheckResult
}.

(** The parsed JSON object of a reply. *)
Record AIResponse := {
  analysis : string;
  rootCauses : list string;
  recommendations : list string;
  ai_severity : string
}.

(** One round trip to the service: [answer = None] stands for every way
    the [try] block can fail (transport error, reply that does not
    parse); [elapsed] is the time the awaited call took. *)
Record Reply := {
  answer : option AIResponse;
  elapsed : Z
}.

(** Events handed to [this.emit]. *)
Inductive Event :=
| CheckCompleted (r : EndpointCheckResult)
| InsightEvent (i : AnalyticsInsight)
| ErrorEvent (u : string).

(** The agent's four private fields, followed by the part of the runtime
    the agent acts on: the live [setInterval] timers (each with the
    config its callback closes over), the next timer handle, the wall
    clock, the requests sent to the service so far and the events
    emitted so far (both oldest first). *)
Record World := {
  monitoringIntervals : gmap string nat;
  endpointHistory : gmap string (list EndpointCheckResult);
  isRunning : bool;
  insightCache : gmap string Z;
  timers : gmap nat EndpointMonitorConfig;
  nextTimer : nat;
  clock : Z;
  requests : list Request;
  emitted : list Event
}.

(** [new HTTPAnalyticsAgent(apiKey)] in a runtime whose clock shows [t]. *)
Definition new_agent (t : Z) : World :=
  {| monitoringIntervals := ∅; endpointHistory := ∅; isRunning := false;
     insightCache := ∅; timers := ∅; nextTimer := 0; clock := t;
     requests := []; emitted := [] |}.

Definition with_monitoringIntervals (f : gmap string nat -> gmap string nat) (w : World) : World :=
  {| monitoringIntervals := f (monitoringIntervals w);
     endpointHistory := endpointHistory w; isRunning := isRunning w;
     insightCache := insightCache w; timers := timers w;
     nextTimer := nextTimer w; clock := clock w;
     requests := requests w; emitted := emitted w |}.

Definition with_endpointHistory
    (f : gmap string (list EndpointCheckResult) -> gmap string (list EndpointCheckResult))
    (w : World) : World :=
  {| monitoringIntervals := monitoringIntervals w;
     endpointHistory := f (endpointHistory w); isRunning := isRunning w;
     insightCache := insightCache w; timers := timers w;
     nextTimer := nextTimer w; clock := clock w;
     requests := requests w; emitted := emitted w |}.

Definition with_isRunning (b : bool) (w : World) : World :=
  {| monitoringIntervals := monitoringIntervals w;
     endpointHistory := endpointHistory w; isRunning := b;
     insightCache := insightCache w; timers := timers w;
     nextTimer := nextTimer w; clock := clock w;
     requests := requests w; emitted := emitted w |}.

Definition with_insightCache (f : gmap string Z -> gmap string Z) (w : World) : World :=
  {| monitoringIntervals := monitoringIntervals w;
     endpointHistory := endpointHistory w; isRunning := isRunning w;
     insightCache := f (insightCache w); timers := timers w;
     nextTimer := nextTimer w; clock := clock w;
     requests := requests w; emitted := emitted w |}.

Definition with_timers
    (f : gmap nat EndpointMonitorConfig -> gmap nat EndpointMonitorConfig)
    (n : nat) (w : World) : World :=
  {| monitoringIntervals := monitoringIntervals w;
     endpointHistory := endpointHistory w; isRunning := isRunning w;
     insightCache := insightCache w; timers := f (timers w);
     nextTimer := n; clock := clock w;
     requests := requests w; emitted := emitted w |}.

Definition with_clock (t : Z) (w : World) : World :=
  {| monitoringIntervals := monitoringIntervals w;
     endpointHistory := endpointHistory w; isRunning := isRunning w;
     insightCache := insightCache w; timers := timers w;
     nextTimer := nextTimer w; clock := t;
     requests := requests w; emitted := emitted w |}.

Definition with_requests (f : list Request -> list Request) (w : World) : World :=
  {| monitoringIntervals := monitoringIntervals w;
     endpointHistory := endpointHistory w; isRunning := isRunning w;
     insightCache := insightCache w; timers := timers w;
     nextTimer := nextTimer w; clock := clock w;
     requests := f (requests w); emitted := emitted w |}.

Definition with_emitted (f : list Event -> list Event) (w : World) : World :=
  {| monitoringIntervals := monitoringIntervals w;
     endpointHistory := endpointHistory w; isRunning := isRunning w;
     insightCache := insightCache w; timers := timers w;
     nextTimer := nextTimer w; clock := clock w;
     requests := requests w; emitted := f (emitted w) |}.

(** *** A state monad with exceptions *)

Inductive Outcome (A : Type) :=
| Returned (a : A)
| Thrown (message : string).
Arguments Returned {A} a.
Arguments Thrown {A} message.

Definition M (A : Type) : Type := World -> Outcome A * World.

Definition ret {A} (a : A) : M A := fun w => (Returned a, w).

Definition bind {A B} (m : M A) (k : A -> M B) : M B :=
  fun w =>
    match m w with
    | (Returned a, w') => k a w'
    | (Thrown e, w') => (Thrown e, w')
    end.

Definition throw {A} (message : string) : M A := fun w => (Thrown message, w).

Definition gets {A} (f : World -> A) : M A := fun w => (Returned (f w), w).

Definition modify (f : World -> World) : M unit := fun w => (Returned tt, f w).

Definition when (b : bool) (m : M unit) : M unit := if b then m else ret tt.

Fixpoint for_each {A} (l : list A) (body : A -> M unit) : M unit :=
  match l with
  | [] => ret tt
  | x :: l' => bind (body x) (fun _ => for_each l' body)
  end.

Declare Scope agent_scope.
Delimit Scope agent_scope with agent.
Notation "x <- m ;; k" := (bind m (fun x => k))
  (at level 100, m at next level, right associativity) : agent_scope.
Notation "m ;; k" := (bind m (fun _ => k))
  (at level 100, right associativity) : agent_scope.
Local Open Scope agent_scope.

(** The world an action leaves behind, and what it returned. *)
Definition exec {A} (m : M A) (w : World) : World := snd (m w).
Definition result {A} (m : M A) (w : World) : Outcome A := fst (m w).

(** *** The agent's methods *)

Section WithService.

(** The text-generation service: [service n] is its reply to the
    [n]-th request made since the start (counting from 0). *)
Variable service : nat -> Reply.

(** [Date.now()] and [new Date()]. *)
Definition dateNow : M Z := gets clock.

Definition emit (e : Event) : M unit :=
  modify (with_emitted (fun l => l ++ [e])).

Definition setInterval (config : EndpointMonitorConfig) : M nat :=
  fun w =>
    (Returned (nextTimer w),
     with_timers (insert (nextTimer w) config) (S (nextTimer w)) w).

Definition clearInterval (id : nat) : M unit :=
  modify (fun w => with_timers (delete id) (nextTimer w) w).

(** [await this.anthropic.messages.create(...)] and the parsing of the
    reply: records the request, lets the awaited time pass. *)
Definition askService (q : Request) : M (option AIResponse) :=
  fun w =>
    let r := service (length (requests w)) in
    (Returned (answer r),
     with_clock (clock w + elapsed r)
       (with_requests (fun l => l ++ [q]) w)).

Definition generateInsight
    (u : string) (data : list EndpointCheckResult) (context : string) : M unit :=
  aiResponse <- askService {| q_url := u; q_context := context; q_data := data |} ;;
  match aiResponse with
  | Some ai =>
      now <- dateNow ;;
      emit (InsightEvent
              {| i_timestamp := now;
                 i_type := alert;
                 i_severity := ai_severity ai;
                 i_message := analysis ai;
                 i_data := {| d_url := u;
                              d_rootCauses := rootCauses ai;
                              d_recommendations := recommendations ai;
                              d_checks := data |} |})
  | None => ret tt
  end.

Definition errorRate (recentChecks : list EndpointCheckResult) : Q :=
  Js.div
    (Z.of_nat (length (List.filter (fun c => negb (success c)) recentChecks)))
    (Z.of_nat (length recentChecks)).

Definition avgResponseTime (recentChecks : list EndpointCheckResult) : Q :=
  Js.div
    (fold_left (fun sum c => sum + responseTime c) recentChecks 0)
    (Z.of_nat (length recentChecks)).

(** [lastInsight && Date.now() - lastInsight.getTime() < 5 * 60 * 1000] *)
Definition cooldownActive (lastInsight : option Z) (now : Z) : bool :=
  match lastInsight with
  | Some t => now - t <? 5 * 60 * 1000
  | None => false
  end.

Definition setInsightCache (u : string) : M unit :=
  now <- dateNow ;;
  modify (with_insightCache (insert u now)).

Definition analyzeEndpointHealth
    (config : EndpointMonitorConfig) (history : list EndpointCheckResult) : M unit :=
  let recentChecks := Js.slice_last 10 history in
  let errorRate := errorRate recentChecks in
  let avgResponseTime := avgResponseTime recentChecks in
  let statusCodes := map status recentChecks in
  lastInsight <- gets (fun w => insightCache w !! cfg_url config) ;;
  now <- dateNow ;;
  if cooldownActive lastInsight now then ret tt
  else
    (when (Js.gt errorRate (3 # 10))
       (setInsightCache (cfg_url config) ;;
        generateInsight (cfg_url config) recentChecks "High error rate detected") ;;
     when (Js.gt avgResponseTime (5000 # 1))
       (setInsightCache (cfg_url config) ;;
        generateInsight (cfg_url config) recentChecks "Slow response time detected") ;;
     let uniqueStatuses := Js.set_from statusCodes in
     when (3 <? length uniqueStatuses)%nat
       (setInsightCache (cfg_url config) ;;
        generateInsight (cfg_url config) recentChecks "Unstable status codes detected")).

(** The [setInterval] callback of [monitorEndpoint] from the point where
    [await this.checkEndpoint(config.url)] has delivered [result].
    [isRunning] is not read here: the callback tests it once, before it
    starts the probe.  None of the steps below throws, so the [catch]
    branch (the "error" event) is never taken. *)
Definition probeReturns
    (config : EndpointMonitorConfig) (result : EndpointCheckResult) : M unit :=
  history <- gets (fun w => default [] (endpointHistory w !! cfg_url config)) ;;
  let history := Js.push history result in
  let history :=
    if (100 <? length history)%nat then Js.shift history else history in
  modify (with_endpointHistory (insert (cfg_url config) history)) ;;
  emit (CheckCompleted result) ;;
  analyzeEndpointHealth config history.

(** The whole callback when its probe returns before anything else
    happens to the agent: the test of [isRunning] at the start of the
    callback, then, the world being the same, the rest.  (For a probe
    that is still in flight when other calls run, see [happen] below.) *)
Definition tick (config : EndpointMonitorConfig) (result : EndpointCheckResult) : M unit :=
  running <- gets isRunning ;;
  if negb running then ret tt
  else probeReturns config result.

Definition monitorEndpoint (config : EndpointMonitorConfig) : M unit :=
  intervalId <- setInterval config ;;
  modify (with_monitoringIntervals (insert (cfg_url config) intervalId)).

Definition startMonitoring (configs : list EndpointMonitorConfig) : M unit :=
  modify (with_isRunning true) ;;
  for_each configs monitorEndpoint.

Definition stopMonitoring : M unit :=
  modify (with_isRunning false) ;;
  entries <- gets (fun w => map_to_list (monitoringIntervals w)) ;;
  for_each entries (fun e => clearInterval (snd e)) ;;
  modify (with_monitoringIntervals (fun _ => ∅)).

Definition addEndpoint (config : EndpointMonitorConfig) : M unit :=
  running <- gets isRunning ;;
  if negb running then throw "Agent is not running. Start monitoring first."
  else monitorEndpoint config.

Definition removeEndpoint (u : string) : M unit :=
  intervalId <- gets (fun w => monitoringIntervals w !! u) ;;
  match intervalId with
  | Some id =>
      clearInterval id ;;
      modify (with_monitoringIntervals (delete u))
  | None => ret tt
  end.

(** The object returned by [getEndpointStats].  [successRate] and
    [avgResponseTime] are the numbers handed to [toFixed]. *)
Record EndpointStats := {
  s_url : string;
  totalChecks : nat;
  successRate : Q;
  s_avgResponseTime : Q;
  statusCodes : list Z;
  lastCheck : option EndpointCheckResult;
  recentChecks : list EndpointCheckResult
}.

Definition getEndpointStats (u : string) (w : World) : option EndpointStats :=
  let history := default [] (endpointHistory w !! u) in
  if (length history =? 0)%nat then None
  else
    Some {| s_url := u;
            totalChecks := length history;
            successRate :=
              (Js.div (Z.of_nat (length (List.filter success history)))
                      (Z.of_nat (length history)) * (100 # 1))%Q;
            s_avgResponseTime := avgResponseTime history;
            statusCodes := Js.set_from (map status history);
            lastCheck := history !! (length history - 1)%nat;
            recentChecks := Js.slice_last 10 history |}.

(** *** What can happen to an agent *)

Inductive Op :=
| StartMonitoring (configs : list EndpointMonitorConfig)
| StopMonitoring
| AddEndpoint (config : EndpointMonitorConfig)
| RemoveEndpoint (u : string)
| Tick (id : nat) (result : EndpointCheckResult)
| Elapse (dt : Z).

Definition step (op : Op) : M unit :=
  match op with
  | StartMonitoring configs => startMonitoring configs
  | StopMonitoring => stopMonitoring
  | AddEndpoint config => addEndpoint config
  | RemoveEndpoint u => removeEndpoint u
  | Tick id result =>
      live <- gets (fun w => timers w !! id) ;;
      match live with
      | Some config => tick config result
      | None => ret tt
      end
  | Elapse dt => modify (fun w => with_clock (clock w + dt) w)
  end.

(** A thrown error ends the call that raised it, not the agent. *)
Definition run (ops : list Op) (w : World) : World :=
  fold_left (fun w op => exec (step op) w) ops w.

(** *** Observations on a run *)

(** The insights about target [u] among the emitted events. *)
Definition insightsFor (u : string) (events : list Event) : list AnalyticsInsight :=
  omap (fun e =>
          match e with
          | InsightEvent i =>
              if decide (d_url (i_data i) = u) then Some i else None
          | _ => None
          end) events.

(** What was sent, respectively emitted, between world [w] and the
    later world [w']. *)
Definition new_requests (w w' : World) : list Request :=
  drop (length (requests w)) (requests w').

Definition new_events (w w' : World) : list Event :=
  drop (length (emitted w)) (emitted w').

(** The request [generateInsight] sends and the insight it emits when
    the service answers [ai] and the clock then shows [now]. *)
Definition the_request (u : string) (recentChecks : list EndpointCheckResult)
    (context : string) : Request :=
  {| q_url := u; q_context := context; q_data := recentChecks |}.

Definition the_insight (u : string) (recentChecks : list EndpointCheckResult)
    (ai : AIResponse) (now : Z) : AnalyticsInsight :=
  {| i_timestamp := now;
     i_type := alert;
     i_severity := ai_severity ai;
     i_message := analysis ai;
     i_data := {| d_url := u;
                  d_rootCauses := rootCauses ai;
                  d_recommendations := recommendations ai;
                  d_checks := recentChecks |} |}.

(** One rule firing: the two statements inside each of the three [if]s
    of [analyzeEndpointHealth]. *)
Definition fire (u : string) (recentChecks : list EndpointCheckResult)
    (context : string) : M unit :=
  setInsightCache u ;;
  generateInsight u recentChecks context.

(** The contexts of the rules that hold on a sample, in source order. *)
Definition fired (recentChecks : list EndpointCheckResult) : list string :=
  (if Js.gt (errorRate recentChecks) (3 # 10)
   then ["High error rate detected"%string] else [])
  ++ (if Js.gt (avgResponseTime recentChecks) (5000 # 1)
      then ["Slow response time detected"%string] else [])
  ++ (if (3 <? length (Js.set_from (map status recentChecks)))%nat
      then ["Unstable status codes detected"%string] else []).

(** [push] and the conditional [shift] of the timer callback. *)
Definition recorded (history : list EndpointCheckResult) (r : EndpointCheckResult)
  : list EndpointCheckResult :=
  if (100 <? length (Js.push history r))%nat
  then Js.shift (Js.push history r) else Js.push history r.

Definition history_bounded (w : World) : Prop :=
  forall u h, endpointHistory w !! u = Some h -> (length h <= 100)%nat.

(** An action [m] leaves the observation [f] of the world unchanged. *)
Definition keeps {A B} (f : World -> B) (m : M A) : Prop :=
  forall w, f (exec m w) = f w.

(** The world one firing leaves behind. *)
Definition fire_world (u : string) (recentChecks : list EndpointCheckResult)
    (context : string) (w : World) : World :=
  let r := service (length (requests w)) in
  {| monitoringIntervals := monitoringIntervals w;
     endpointHistory := endpointHistory w;
     isRunning := isRunning w;
     insightCache := <[u := clock w]> (insightCache w);
     timers := timers w;
     nextTimer := nextTimer w;
     clock := clock w + elapsed r;
     requests := requests w ++ [the_request u recentChecks context];
     emitted :=
       emitted w ++
       match answer r with
       | Some ai => [InsightEvent (the_insight u recentChecks ai (clock w + elapsed r))]
       | None => []
       end |}.

(** The world after the firings [l], one after the other. *)
Definition pass_world (u : string) (recentChecks : list EndpointCheckResult)
    (l : list string) (w : World) : World :=
  fold_left (fun w c => fire_world u recentChecks c w) l w.

End WithService.

(** At most one insight per target in any five minutes: two insights
    about [u] are at least five minutes apart. *)
Definition throttled (u : string) (events : list Event) : Prop :=
  forall (i j : nat) (a b : AnalyticsInsight),
    (i < j)%nat ->
    insightsFor u events !! i = Some a ->
    insightsFor u events !! j = Some b ->
    5 * 60 * 1000 <= i_timestamp b - i_timestamp a.

(** Everything the agent holds about target [u] is gone. *)
Definition target_state_destroyed (u : string) (w : World) : Prop :=
  monitoringIntervals w !! u = None /\
  endpointHistory w !! u = None /\
  insightCache w !! u = None.

(** *** Probes in flight

    Between the test of [isRunning] and the recording of the result the
    callback awaits [checkEndpoint], and other calls can run in between.
    [inflight] holds the configs of the callbacks that have started their
    probe and are waiting for its result, oldest first. *)
Record Live := {
  agent : World;
  inflight : list EndpointMonitorConfig
}.

Inductive Happening :=
| Call (op : Op)
| TimerFires (id : nat)
| ProbeReturns (k : nat) (result : EndpointCheckResult).

(** [Call op] is an operation that runs to its end at once.  [TimerFires
    id] is the start of the callback of the live timer [id]:
    [if (!this.isRunning) return;] and then the call of [checkEndpoint].
    [ProbeReturns k result] resumes the [k]-th waiting callback with the
    result of its probe. *)
Definition happen (service : nat -> Reply) (h : Happening) (s : Live) : Live :=
  match h with
  | Call op => {| agent := exec (step service op) (agent s); inflight := inflight s |}
  | TimerFires id =>
      match timers (agent s) !! id with
      | Some config =>
          if negb (isRunning (agent s)) then s
          else {| agent := agent s; inflight := inflight s ++ [config] |}
      | None => s
      end
  | ProbeReturns k result =>
      match inflight s !! k with
      | Some config =>
          {| agent := exec (probeReturns service config result) (agent s);
             inflight := delete k (inflight s) |}
      | None => s
      end
  end.

Definition happenings (service : nat -> Reply) (hs : list Happening) (s : Live) : Live :=
  fold_left (fun s h => happen service h s) hs s.

(** *** Sample data *)

Definition sample_url : string := "http://localhost:5000/api/health".

Definition sample_config : EndpointMonitorConfig :=
  {| cfg_url := sample_url; interval := 60000;
     expectedStatus := Some [200]; alertThreshold := None |}.

(** A probe that came back slowly with an error status. *)
Definition failed_check (st t : Z) : EndpointCheckResult :=
  {| url := sample_url; status := st; responseTime := 6000; timestamp := t;
     success := false; headers := None; error := None |}.

Definition ok_check (t : Z) : EndpointCheckResult :=
  {| url := sample_url; status := 200; responseTime := 120; timestamp := t;
     success := true; headers := None; error := None |}.

(** A service that answers every request at once. *)
Definition answering : nat -> Reply :=
  fun _ => {| answer := Some {| analysis := "endpoint failing";
                                rootCauses := ["backend down"%string];
                                recommendations := ["restart"%string];
                                ai_severity := "high" |};
              elapsed := 0 |}.

(** Four slow failures with four different status codes: all three rules
    hold on this history. *)
Definition burst_history : list EndpointCheckResult :=
  [failed_check 500 1000; failed_check 502 2000;
   failed_check 503 3000; failed_check 504 4000].

(** [k] failures followed by [10 - k] successes. *)
Definition ten_checks (k : nat) : list EndpointCheckResult :=
  replicate k (failed_check 500 1000) ++ replicate (10 - k) (ok_check 2000).

(** One minute after the start a first probe fails slowly; two more
    failures follow a minute apart; five minutes later comes a fourth,
    with yet another status code. *)
Definition burst_run : list Op :=
  [StartMonitoring [sample_config];
   Elapse 60000; Tick 0%nat (failed_check 500 60000);
   Elapse 60000; Tick 0%nat (failed_check 502 120000);
   Elapse 60000; Tick 0%nat (failed_check 503 180000);
   Elapse 300000; Tick 0%nat (failed_check 504 480000)].

(** A running agent that monitors [sample_url] and has recorded [n]
    successful probes of it. *)
Definition after_probes (n : nat) : World :=
  run answering
    (StartMonitoring [sample_config] :: replicate n (Tick 0%nat (ok_check 2000)))
    (new_agent 5000).

(** *** Further observations *)

(** The set of status codes seen in a sample. *)
Definition distinct_statuses (recentChecks : list EndpointCheckResult) : gset Z :=
  list_to_set (map status recentChecks).

(** The sum [reduce] computes for [avgResponseTime]. *)
Definition totalResponseTime (recentChecks : list EndpointCheckResult) : Z :=
  fold_left (fun sum c => sum + responseTime c) recentChecks 0.

(** The timer registry and the runtime agree: every registered handle is
    a live timer whose callback probes the URL it is registered under,
    and handles are never reused. *)
Definition registry_consistent (w : World) : Prop :=
  (forall u id, monitoringIntervals w !! u = Some id ->
     exists config, timers w !! id = Some config /\ cfg_url config = u) /\
  (forall id config, timers w !! id = Some config -> (id < nextTimer w)%nat).

(** A second target. *)
Definition other_url : string := "https://api.github.com".

Definition other_config : EndpointMonitorConfig :=
  {| cfg_url := other_url; interval := 120000;
     expectedStatus := Some [200]; alertThreshold := None |}.

(** A running agent that monitors [sample_url] and has recorded [n]
    failed probes of it. *)
Definition after_failures (n : nat) : World :=
  run answering
    (StartMonitoring [sample_config] :: replicate n (Tick 0%nat (failed_check 500 1000)))
    (new_agent 5000).

(** A service none of whose replies can be used: the call is rejected or
    the text does not parse. *)
Definition silent : nat -> Reply :=
  fun _ => {| answer := None; elapsed := 0 |}.

(** The callbacks of one timer, run one after the other on the results
    of their probes. *)
Definition ticks (service : nat -> Reply) (config : EndpointMonitorConfig)
    (results : list EndpointCheckResult) (w : World) : World :=
  fold_left (fun w r => exec (tick service config r) w) results w.

(** The number of insights, and of completed probes, among events. *)
Definition insight_count (events : list Event) : nat :=
  length (List.filter (fun e => match e with InsightEvent _ => true | _ => false end)
            events).

Definition check_count (events : list Event) : nat :=
  length (List.filter (fun e => match e with CheckCompleted _ => true | _ => false end)
            events).

(** An agent whose last alert about [sample_url] is exactly five minutes
    old. *)
Definition cooled_agent : World :=
  with_clock (5000 + 5 * 60 * 1000)
    (with_insightCache (insert sample_url 5000) (new_agent 5000)).

(** A probe of [sample_url] starts on a running agent, and the agent is
    stopped before it returns. *)
Definition stopped_in_flight : Live :=
  happenings answering [TimerFires 0; Call StopMonitoring]
    {| agent := after_probes 0; inflight := [] |}.

End Agent.

(** ** The sliding-window detector ([analyze] and its helpers) *)

Module Detector.

(** [responseTime] is a JavaScript number: an IEEE double. *)
Record Metric := {
  statusCode : Z;
  responseTime : option float;
  timestamp : Z
}.

Definition WINDOW_MS : Z := 60000.
Definition MIN_SAMPLES : nat := 10.

(** The [while] loop of [pruneOld]: shift while the first entry is older
    than the cutoff. *)
Fixpoint pruneOld_loop (cutoff : Z) (metricsWindow : list Metric) : list Metric :=
  match metricsWindow with
  | m :: rest =>
      if timestamp m <? cutoff then pruneOld_loop cutoff rest else metricsWindow
  | [] => []
  end.

(** [now] is the value [Date.now()] returns inside [pruneOld]. *)
Definition pruneOld (now : Z) (metricsWindow : list Metric) : list Metric :=
  let cutoff := now - WINDOW_MS in
  pruneOld_loop cutoff metricsWindow.

(** [values.length] as a number. *)
Definition count (values : list float) : float :=
  PrimFloat.of_uint63 (Uint63.of_Z (Z.of_nat (length values))).

(** The sum is folded from the left, starting at 0, each addition rounded
    to a double; so is the division. *)
Definition mean (values : list float) : float :=
  (fold_left (fun a b => a + b) values 0 / count values)%float.

(** The quantity under the square root in [std].  [Math.pow(d, 2)] is the
    rounded product [d * d]. *)
Definition variance (values : list float) (avg : float) : float :=
  (fold_left (fun sum v => sum + (v - avg) * (v - avg)) values 0
     / count values)%float.

Definition std (values : list float) (avg : float) : float :=
  PrimFloat.sqrt (variance values avg).

Inductive AnomalyType := HIGH_ERROR_RATE | RESPONSE_TIME_SPIKE.
Inductive Severity := critical | warning.

(** A number carried by a signal.  The error rate is kept as the exact
    quotient of the two counts; a latency and the mean of the latencies
    are doubles. *)
Inductive Number :=
| Exact (q : Q)
| Double (x : float).

Coercion Exact : Q >-> Number.

(** The object [analyze] returns, without its [message] (a rendering of
    the same numbers as text). *)
Record Anomaly := {
  a_type : AnomalyType;
  a_severity : Severity;
  value : Number;
  baseline : option Number
}.

(** Truthiness of [metric.responseTime]: present, not zero (of either
    sign) and not NaN. *)
Definition truthy (x : option float) : bool :=
  match x with
  | Some x => negb (PrimFloat.is_zero x || PrimFloat.is_nan x)
  | None => false
  end.

(** [x > avg + 3 * deviation], on doubles. *)
Definition exceeds (x avg deviation : float) : bool :=
  Js.double_gt x (avg + 3 * deviation)%float.

(** [analyze(metric)] on the module-level [metricsWindow]; returns the
    signal ([None] for [null]) and the window it leaves behind.  Inside
    the guarded block [metric.responseTime] is a number; the [match] reads
    it. *)
Definition analyze (now : Z) (metric : Metric) (metricsWindow : list Metric)
  : option Anomaly * list Metric :=
  let metricsWindow := pruneOld now (Js.push metricsWindow metric) in
  if (length metricsWindow <? MIN_SAMPLES)%nat then (None, metricsWindow)
  else
    let errors := length (List.filter (fun m => 500 <=? statusCode m) metricsWindow) in
    let errorRate := Js.div (Z.of_nat errors) (Z.of_nat (length metricsWindow)) in
    if Js.gt errorRate (3 # 10) then
      (Some {| a_type := HIGH_ERROR_RATE; a_severity := critical;
               value := Exact errorRate; baseline := None |},
       metricsWindow)
    else
      let responseTimes := omap responseTime metricsWindow in
      if (MIN_SAMPLES <=? length responseTimes)%nat && truthy (responseTime metric) then
        let avg := mean responseTimes in
        let deviation := std responseTimes avg in
        match responseTime metric with
        | Some rt =>
            if exceeds rt avg deviation then
              (Some {| a_type := RESPONSE_TIME_SPIKE; a_severity := warning;
                       value := Double rt; baseline := Some (Double avg) |},
               metricsWindow)
            else (None, metricsWindow)
        | None => (None, metricsWindow)
        end
      else (None, metricsWindow).

(** *** The bound in exact arithmetic

    The specification speaks of the mean and the population standard
    deviation of the latencies.  These are those quantities, computed
    without rounding, for the rationals that the doubles stand for. *)

(** The rational a finite double stands for, in lowest terms (0 for the
    others). *)
Definition exact_value (x : float) : Q :=
  match Prim2SF x with
  | S754_finite s m e =>
      Qred ((if s then -1 else 1) * inject_Z (Z.pos m) * Qpower 2 e)%Q
  | _ => 0%Q
  end.

Definition exact_mean (values : list Q) : Q :=
  (fold_left (fun a b => a + b) values 0 / inject_Z (Z.of_nat (length values)))%Q.

Definition exact_variance (values : list Q) (avg : Q) : Q :=
  (fold_left (fun sum v => sum + Qpower (v - avg) 2) values 0
     / inject_Z (Z.of_nat (length values)))%Q.

Definition exact_std (values : list Q) (avg : Q) : R :=
  sqrt (Q2R (exact_variance values avg)).

(** [x] is above the mean of [values] plus three standard deviations. *)
Definition above_three_sigma (values : list Q) (x : Q) : Prop :=
  (Q2R (exact_mean values) + 3 * exact_std values (exact_mean values) < Q2R x)%R.

(** The same without the square root: [x > avg + 3 * sqrt v] holds
    exactly when [x > avg] and [(x - avg)^2 > 9 * v]; this form is
    computable. *)
Definition above_three_sigmab (values : list Q) (x : Q) : bool :=
  let avg := exact_mean values in
  Js.gt x avg && Js.gt (Qpower (x - avg) 2) (9 * exact_variance values avg)%Q.

(** *** Observations on the window *)

(** Older than the trailing window at time [now]. *)
Definition stale (now : Z) (m : Metric) : Prop := timestamp m < now - WINDOW_MS.

(** Appended in order of time: timestamps never decrease along the window. *)
Definition chronological (metricsWindow : list Metric) : Prop :=
  StronglySorted (fun a b => timestamp a <= timestamp b) metricsWindow.

(** No entry of the window is older than the trailing 60 seconds. *)
Definition no_stale_left (now : Z) (metricsWindow : list Metric) : Prop :=
  Forall (fun m => ~ stale now m) metricsWindow.

(** The 5xx fraction of a window. *)
Definition errorRate (metricsWindow : list Metric) : Q :=
  Js.div (Z.of_nat (length (List.filter (fun m => 500 <=? statusCode m) metricsWindow)))
         (Z.of_nat (length metricsWindow)).

(** The latencies present in a window. *)
Definition responseTimes (metricsWindow : list Metric) : list float :=
  omap responseTime metricsWindow.

(** The result of [analyze] is a response-time spike signal. *)
Definition is_spike (r : option Anomaly) : Prop :=
  exists a, r = Some a /\ a_type a = RESPONSE_TIME_SPIKE.

(** The three conditions under which the specification expects a spike
    signal: ten latencies in the window, a latency on the current sample,
    and that latency above mean plus three standard deviations. *)
Definition spike_condition (metric : Metric) (metricsWindow : list Metric) : Prop :=
  let values := responseTimes metricsWindow in
  (10 <= length values)%nat /\
  exists rt, responseTime metric = Some rt /\
    above_three_sigma (map exact_value values) (exact_value rt).

(** The spike rule as the specification states it. *)
Definition spike_rule_as_stated (now : Z) (metric : Metric) (metricsWindow : list Metric) : Prop :=
  let window := pruneOld now (metricsWindow ++ [metric]) in
  (10 <= length window)%nat ->
  (errorRate window <= 3 # 10)%Q ->
  (is_spike (fst (analyze now metric metricsWindow)) <-> spike_condition metric window).

(** *** Sample data *)

(** A sample with a latency of [rt] whole milliseconds. *)
Definition sample (st : Z) (rt : Z) (t : Z) : Metric :=
  {| statusCode := st; responseTime := Some (Js.number rt); timestamp := t |}.

(** *** Further observations *)

(** The result of [analyze] is a high-error-rate signal. *)
Definition is_high_error_rate (r : option Anomaly) : Prop :=
  exists a, r = Some a /\ a_type a = HIGH_ERROR_RATE.

(** The number of 5xx samples in a window. *)
Definition errors (metricsWindow : list Metric) : nat :=
  length (List.filter (fun m => 500 <=? statusCode m) metricsWindow).

(** A sequence of calls [analyze(metric)], each with the clock reading of
    its [pruneOld]: the signals in order, and the final window. *)
Fixpoint analyze_all (calls : list (Z * Metric)) (metricsWindow : list Metric)
  : list (option Anomaly) * list Metric :=
  match calls with
  | [] => ([], metricsWindow)
  | (now, metric) :: rest =>
      let '(signal, window) := analyze now metric metricsWindow in
      let '(signals, final) := analyze_all rest window in
      (signal :: signals, final)
  end.

(** The sum of a list of reals. *)
Definition Rsum (l : list R) : R := fold_right Rplus 0%R l.

End Detector.

(** ** Log storage ([MemStorage.addHttpLog]) *)

Module Storage.

Section WithSchema.

(** The type [InsertHttpLog] is declared in the shared schema, which is
    not among the sources; [addHttpLog] reads one field of it. *)
Variable InsertHttpLog : Type.
Variable statusCode : InsertHttpLog -> Z.

(** [{ ...log, id, timestamp }] *)
Record HttpLog := {
  fields : InsertHttpLog;
  id : Z;
  timestamp : Z
}.

(** The argument of [broadcastUpdate]: the anomaly's fields, the event
    name ["AI_ALERT"] and the log's timestamp. *)
Record Alert := {
  anomaly : Detector.Anomaly;
  at_time : Z
}.

(** The storage object with the two pieces of module state its method
    reaches: the detector's window and the alerts broadcast so far.
    [onNewLog] tells whether a listener is installed, [delivered] what
    it has been called with. *)
Record MemStorage := {
  httpLogs : gmap Z HttpLog;
  currentLogId : Z;
  onNewLog : bool;
  delivered : list HttpLog;
  metricsWindow : list Detector.Metric;
  broadcast : list Alert
}.

(** The metric [addHttpLog] hands to [analyze]. *)
Definition metric_of (httpLog : HttpLog) : Detector.Metric :=
  {| Detector.statusCode := statusCode (fields httpLog);
     Detector.timestamp := timestamp httpLog;
     Detector.responseTime := Some 0%float |}.

(** [t] is the value of [new Date()], [now] the later reading of
    [Date.now()] inside [pruneOld]. *)
Definition addHttpLog (t now : Z) (log : InsertHttpLog) (s : MemStorage)
  : HttpLog * MemStorage :=
  let id := currentLogId s in
  let httpLog := {| fields := log; id := id; timestamp := t |} in
  let '(anomaly, window) := Detector.analyze now (metric_of httpLog) (metricsWindow s) in
  (httpLog,
   {| httpLogs := <[id := httpLog]> (httpLogs s);
      currentLogId := id + 1;
      onNewLog := onNewLog s;
      delivered := if onNewLog s then delivered s ++ [httpLog] else delivered s;
      metricsWindow := window;
      broadcast :=
        match anomaly with
        | Some a => broadcast s ++ [{| anomaly := a; at_time := t |}]
        | None => broadcast s
        end |}).

End WithSchema.

Arguments fields {InsertHttpLog} _.
Arguments id {InsertHttpLog} _.
Arguments timestamp {InsertHttpLog} _.
Arguments httpLogs {InsertHttpLog} _.
Arguments currentLogId {InsertHttpLog} _.
Arguments onNewLog {InsertHttpLog} _.
Arguments delivered {InsertHttpLog} _.
Arguments metricsWindow {InsertHttpLog} _.
Arguments broadcast {InsertHttpLog} _.
Arguments metric_of {InsertHttpLog} statusCode httpLog.
Arguments addHttpLog {InsertHttpLog} statusCode t now log s.

(** *** Observations on the storage *)

(** Every log is stored under its own id, and ids not yet handed out are
    free. *)
Definition ids_fresh {InsertHttpLog : Type} (s : MemStorage InsertHttpLog) : Prop :=
  forall k log, httpLogs s !! k = Some log -> id log = k /\ k < currentLogId s.

(** The window is in time order and holds nothing stamped after [c]. *)
Definition window_ordered {InsertHttpLog : Type}
    (c : Z) (s : MemStorage InsertHttpLog) : Prop :=
  Detector.chronological (metricsWindow s) /\
  Forall (fun m => Detector.timestamp m <= c) (metricsWindow s).

(** A sequence of calls of [addHttpLog], each with its two clock
    readings. *)
Definition addHttpLogs {InsertHttpLog : Type} (statusCode : InsertHttpLog -> Z)
    (calls : list (Z * Z * InsertHttpLog)) (s : MemStorage InsertHttpLog)
  : MemStorage InsertHttpLog :=
  fold_left (fun s '(t, now, log) => snd (addHttpLog statusCode t now log s)) calls s.

(** The clock never goes back: starting at [c], every reading is at least
    the one before. *)
Fixpoint clock_never_back {InsertHttpLog : Type}
    (c : Z) (calls : list (Z * Z * InsertHttpLog)) : Prop :=
  match calls with
  | [] => True
  | (t, now, _) :: rest => c <= t /\ t <= now /\ clock_never_back now rest
  end.

(** The last clock reading of a sequence of calls that started at [c]. *)
Definition final_clock {InsertHttpLog : Type}
    (c : Z) (calls : list (Z * Z * InsertHttpLog)) : Z :=
  fold_left (fun _ '(_, now, _) => now) calls c.

(** *** Sample data *)

(** Logs as the storage's own callers build them: a status code and a
    message. *)
Record SampleLog := {
  s_statusCode : Z;
  s_message : string
}.

Definition server_error : SampleLog :=
  {| s_statusCode := 500; s_message := "Internal Server Error" |}.

(** A storage that holds no log yet and has a listener installed. *)
Definition new_storage : MemStorage SampleLog :=
  {| httpLogs := ∅; currentLogId := 1; onNewLog := true; delivered := [];
     metricsWindow := []; broadcast := [] |}.

(** A storage whose detector has seen nine server errors at time 1000. *)
Definition failing_storage : MemStorage SampleLog :=
  {| httpLogs := ∅; currentLogId := 1; onNewLog := true; delivered := [];
     metricsWindow := replicate 9 (Detector.sample 500 0 1000); broadcast := [] |}.

End Storage.

(** ** Alert rules ([setupAlertRules]) *)

Module Scheduler.
Import Agent.

(** The "check-completed" listener: [true] when it logs "ENDPOINT DOWN"
    for the probed URL.  [emit] calls the listener at once, so it sees the
    world in which the result has just been recorded. *)
Definition endpointDown (result : EndpointCheckResult) (w : World) : bool :=
  match getEndpointStats (url result) w with
  | Some stats =>
      let recentChecks := Js.slice_last 5 (recentChecks stats) in
      let allFailed := forallb (fun check => negb (success check)) recentChecks in
      allFailed && (length recentChecks =? 5)%nat
  | None => false
  end.

(** The "insight" listener: [true] when it logs "CRITICAL ALERT". *)
Definition criticalAlert (insight : AnalyticsInsight) : bool :=
  String.eqb (i_severity insight) "critical" || String.eqb (i_severity insight) "high".

End Scheduler.

(** ** Route handlers of the agent API ([registerRoutes]) *)

Module Routes.
Import Agent.
Local Open Scope agent_scope.

Inductive Body :=
| ErrorBody (error : string)
| SuccessBody (message : string)
| StatsBody (stats : EndpointStats).

(** [res.status(code).json(body)]; [res.json] alone answers with 200. *)
Record Response := {
  code : Z;
  body : Body
}.

(** [try { ... } catch (error) { ... }] around a handler body. *)
Definition try_catch {A} (m : M A) (handler : string -> M A) : M A :=
  fun w =>
    match m w with
    | (Returned a, w') => (Returned a, w')
    | (Thrown e, w') => handler e w'
    end.

(** The fields the handler of POST /api/ai-agent/monitor reads from
    [req.body], for a body in which those present have the expected JSON
    types. *)
Record MonitorBody := {
  b_url : option string;
  b_interval : option Z;
  b_expectedStatus : option (list Z)
}.

(** Truthiness of an optional string and of an optional number. *)
Definition truthy_string (x : option string) : bool :=
  match x with
  | Some s => negb (String.eqb s "")
  | None => false
  end.

Definition truthy_number (x : option Z) : bool :=
  match x with
  | Some n => negb (n =? 0)
  | None => false
  end.

Definition postMonitor (b : MonitorBody) : M Response :=
  try_catch
    (if negb (truthy_string (b_url b)) then
       ret {| code := 400; body := ErrorBody "URL is required" |}
     else
       let u := default ""%string (b_url b) in
       addEndpoint
         {| cfg_url := u;
            interval := if truthy_number (b_interval b)
                        then default 0 (b_interval b) else 60000;
            expectedStatus := Some (default [200] (b_expectedStatus b));
            alertThreshold := None |} ;;
       ret {| code := 200; body := SuccessBody ("Started monitoring " ++ u) |})
    (fun message => ret {| code := 500; body := ErrorBody message |}).

(** DELETE /api/ai-agent/monitor/:url, with the decoded parameter. *)
Definition deleteMonitor (u : string) : M Response :=
  try_catch
    (removeEndpoint u ;;
     ret {| code := 200; body := SuccessBody ("Stopped monitoring " ++ u) |})
    (fun message => ret {| code := 500; body := ErrorBody message |}).

(** GET /api/ai-agent/endpoint/:url, with the decoded parameter. *)
Definition getEndpoint (u : string) : M Response :=
  try_catch
    (stats <- gets (getEndpointStats u) ;;
     match stats with
     | None => ret {| code := 404; body := ErrorBody "Endpoint not found" |}
     | Some st => ret {| code := 200; body := StatsBody st |}
     end)
    (fun message => ret {| code := 500; body := ErrorBody message |}).

(** POST /api/ai-agent/stop *)
Definition postStop : M Response :=
  try_catch
    (stopMonitoring ;;
     ret {| code := 200; body := SuccessBody "All monitoring stopped" |})
    (fun message => ret {| code := 500; body := ErrorBody message |}).

(** POST /api/ai-agent/restart; [endpoints] is [None] when the body has no
    [endpoints] or it is not an array. *)
Definition postRestart (endpoints : option (list EndpointMonitorConfig)) : M Response :=
  try_catch
    (match endpoints with
     | None => ret {| code := 400; body := ErrorBody "endpoints array is required" |}
     | Some configs =>
         stopMonitoring ;;
         startMonitoring configs ;;
         ret {| code := 200; body := SuccessBody "Monitoring restarted" |}
     end)
    (fun message => ret {| code := 500; body := ErrorBody message |}).

(** *** Sample data *)

(** A body that names the URL and nothing else. *)
Definition sample_body : MonitorBody :=
  {| b_url := Some sample_url; b_interval := None; b_expectedStatus := None |}.

End Routes.

(** ** Cleaning the service's reply ([generateInsight]) *)

Module Fence.
Local Open Scope N_scope.

(** A JavaScript string is a sequence of UTF-16 code units. *)
Definition backtick : N := 96.
Definition newline : N := 10.

(** The literal parts of the two patterns: three backticks followed by
    [json], and three backticks. *)
Definition json_fence : list N := [96; 96; 96; 106; 115; 111; 110].
Definition fence : list N := [96; 96; 96].

(** What is left of [s] after the prefix [p], when [s] starts with [p]. *)
Fixpoint starts_with (p s : list N) : option (list N) :=
  match p, s with
  | [], _ => Some s
  | a :: p', b :: s' => if a =? b then starts_with p' s' else None
  | _ :: _, [] => None
  end.

(** The optional [\n] that ends both patterns. *)
Definition skip_newline (s : list N) : list N :=
  match s with
  | c :: s' => if c =? newline then s' else s
  | [] => []
  end.

(** [s.replace(/p\n?/g, "")]: at every position from left to right, a
    match of [p] and of the line feed after it, if any, is dropped and the
    scan goes on behind it; a code unit that starts no match is kept.
    Every step consumes a code unit, so [length s] steps are enough. *)
Fixpoint replace_loop (fuel : nat) (p s : list N) : list N :=
  match fuel with
  | O => []
  | S fuel =>
      match s with
      | [] => []
      | c :: s' =>
          match starts_with p s with
          | Some rest => replace_loop fuel p (skip_newline rest)
          | None => c :: replace_loop fuel p s'
          end
      end
  end.

Definition replace_all (p s : list N) : list N := replace_loop (length s) p s.

(** White space and line terminators, as [trim] takes them. *)
Definition is_space (c : N) : bool :=
  (c =? 9) || (c =? 10) || (c =? 11) || (c =? 12) || (c =? 13) || (c =? 32)
  || (c =? 160) || (c =? 5760) || ((8192 <=? c) && (c <=? 8202))
  || (c =? 8232) || (c =? 8233) || (c =? 8239) || (c =? 8287)
  || (c =? 12288) || (c =? 65279).

Fixpoint trim_start (s : list N) : list N :=
  match s with
  | c :: s' => if is_space c then trim_start s' else s
  | [] => []
  end.

Definition trim_end (s : list N) : list N := reverse (trim_start (reverse s)).

Definition trim (s : list N) : list N := trim_end (trim_start s).

(** The text handed to [JSON.parse]. *)
Definition cleanedResponse (responseText : list N) : list N :=
  trim (replace_all fence (replace_all json_fence responseText)).

(** *** Sample data *)

(** The code units of [{"severity":"low"}]. *)
Definition sample_json : list N :=
  [123; 34; 115; 101; 118; 101; 114; 105; 116; 121; 34; 58; 34; 108; 111; 119; 34; 125].

End Fence.

(** * Properties *)

Module JsFacts.
Import Js.

Lemma gt_spec (x y : Q) : gt x y = true <-> (y < x)%Q.
Proof.
  unfold gt. rewrite negb_true_iff, <- not_true_iff_false, Qle_bool_iff.
  split; [apply Qnot_le_lt | apply Qlt_not_le].
Qed.

Lemma length_slice_last {A} (n : nat) (a : list A) :
  length (slice_last n a) = (length a `min` n)%nat.
Proof. unfold slice_last. rewrite length_drop. lia. Qed.

Lemma slice_last_short {A} (n : nat) (a : list A) :
  (length a <= n)%nat -> slice_last n a = a.
Proof.
  intros H. unfold slice_last.
  replace (length a - n)%nat with 0%nat by lia. reflexivity.
Qed.

Lemma slice_last_suffix {A} (n : nat) (a : list A) :
  take (length a - n) a ++ slice_last n a = a.
Proof. apply take_drop. Qed.

(** A count [k] out of [n > 0] exceeds the fraction [p/q] exactly when
    [p * n < q * k]. *)
Lemma gt_div (k n p : Z) (q : positive) :
  0 < n -> gt (div k n) (p # q) = true <-> p * n < Z.pos q * k.
Proof.
  intros Hn. rewrite gt_spec.
  destruct n as [|n|n]; try lia.
  unfold div, Qdiv, Qinv, Qmult, Qlt, inject_Z; simpl.
  rewrite ?Pos2Z.inj_mul, ?Z.mul_1_r. split; nia.
Qed.

Lemma last_slice_last {A} (n : nat) (a : list A) :
  (0 < n)%nat -> last (slice_last n a) = last a.
Proof.
  intros Hn. unfold slice_last.
  destruct (decide (a = [])) as [->|Hne]; [reflexivity|].
  assert (0 < length a)%nat by (destruct a; [contradiction | simpl; lia]).
  rewrite !last_lookup, lookup_drop, length_drop. f_equal. lia.
Qed.

(** For the sample sizes the health rule sees (1 to 10 records) the
    error-rate test on doubles is the exact one. *)
Lemma gt_div_double (k n : nat) :
  (0 < n <= 10)%nat -> (k <= n)%nat ->
  double_gt (double_div (Z.of_nat k) (Z.of_nat n)) double_03
  = gt (div (Z.of_nat k) (Z.of_nat n)) (3 # 10).
Proof.
  intros Hn Hk.
  assert (All : forallb (fun n => forallb (fun k => agree_on k n) (seq 0 (S n)))
                  (seq 1 10) = true) by (vm_compute; reflexivity).
  rewrite forallb_forall in All.
  assert (Hin : In n (seq 1 10)) by (apply in_seq; lia).
  specialize (All n Hin). rewrite forallb_forall in All.
  assert (Hin' : In k (seq 0 (S n))) by (apply in_seq; lia).
  specialize (All k Hin'). unfold agree_on in All.
  apply Bool.eqb_prop in All. exact All.
Qed.

End JsFacts.

Module AgentFacts.
Import Agent.
Local Open Scope agent_scope.

(** *** Frame reasoning: which fields an action leaves alone *)

Lemma exec_bind {A B} (m : M A) (k : A -> M B) (w : World) :
  exec (bind m k) w =
  match result m w with
  | Returned a => exec (k a) (exec m w)
  | Thrown _ => exec m w
  end.
Proof.
  unfold exec, result, bind. destruct (m w) as [[a|e] w']; reflexivity.
Qed.

Lemma keeps_ret {A B} (f : World -> B) (a : A) : keeps f (ret a).
Proof. intros w. reflexivity. Qed.

Lemma keeps_throw {A B} (f : World -> B) (e : string) : keeps f (@throw A e).
Proof. intros w. reflexivity. Qed.

Lemma keeps_gets {A B} (f : World -> B) (g : World -> A) : keeps f (gets g).
Proof. intros w. reflexivity. Qed.

Lemma keeps_bind {A B C} (f : World -> C) (m : M A) (k : A -> M B) :
  keeps f m -> (forall a, keeps f (k a)) -> keeps f (bind m k).
Proof.
  intros Hm Hk w. rewrite exec_bind.
  destruct (result m w); [rewrite Hk|]; apply Hm.
Qed.

Lemma keeps_modify {B} (f : World -> B) (g : World -> World) :
  (forall w, f (g w) = f w) -> keeps f (modify g).
Proof. intros H w. apply H. Qed.

Lemma keeps_when {B} (f : World -> B) (b : bool) (m : M unit) :
  keeps f m -> keeps f (when b m).
Proof. destruct b; [trivial | intros _; apply keeps_ret]. Qed.

Lemma keeps_for_each {A B} (f : World -> B) (l : list A) (body : A -> M unit) :
  (forall x, keeps f (body x)) -> keeps f (for_each l body).
Proof.
  intros H. induction l as [|x l IH]; simpl.
  - apply keeps_ret.
  - apply keeps_bind; [apply H | intros _; exact IH].
Qed.

Lemma keeps_if {A B} (f : World -> B) (b : bool) (m1 m2 : M A) :
  keeps f m1 -> keeps f m2 -> keeps f (if b then m1 else m2).
Proof. destruct b; trivial. Qed.

Ltac frame :=
  repeat first
    [ apply keeps_bind; [|intros ?]
    | apply keeps_when
    | apply keeps_if
    | apply keeps_for_each; intros ?
    | apply keeps_ret
    | apply keeps_throw
    | apply keeps_gets
    | solve [intros ?; reflexivity]
    | match goal with |- keeps _ (match ?x with _ => _ end) => destruct x end ].

Section WithService.
Variable service : nat -> Reply.

Lemma generateInsight_keeps {B} (f : World -> B) u data context :
  (forall w t, f (with_clock t w) = f w) ->
  (forall w g, f (with_requests g w) = f w) ->
  (forall w g, f (with_emitted g w) = f w) ->
  keeps f (generateInsight service u data context).
Proof.
  intros Hc Hr He. unfold generateInsight. apply keeps_bind.
  - intros w. unfold exec, askService. simpl. rewrite Hc. apply Hr.
  - intros [ai|]; [|apply keeps_ret].
    apply keeps_bind; [apply keeps_gets|]. intros now.
    apply keeps_modify. intros w. apply He.
Qed.

Lemma analyzeEndpointHealth_keeps {B} (f : World -> B) config history :
  (forall w t, f (with_clock t w) = f w) ->
  (forall w g, f (with_requests g w) = f w) ->
  (forall w g, f (with_emitted g w) = f w) ->
  (forall w g, f (with_insightCache g w) = f w) ->
  keeps f (analyzeEndpointHealth service config history).
Proof.
  intros Hc Hr He Hi.
  assert (Hfire : forall u d c,
             keeps f (setInsightCache u ;; generateInsight service u d c)).
  { intros u d c. apply keeps_bind.
    - unfold setInsightCache. apply keeps_bind; [apply keeps_gets|].
      intros now. apply keeps_modify. intros w. apply Hi.
    - intros _. apply generateInsight_keeps; assumption. }
  unfold analyzeEndpointHealth.
  apply keeps_bind; [apply keeps_gets | intros lastInsight].
  apply keeps_bind; [apply keeps_gets | intros now].
  apply keeps_if; [apply keeps_ret|].
  repeat (apply keeps_bind; [apply keeps_when, Hfire | intros _]).
  apply keeps_when, Hfire.
Qed.

(** *** The history ring *)

Lemma recorded_length history r :
  (length history <= 100)%nat -> (length (recorded history r) <= 100)%nat.
Proof.
  intros H. unfold recorded, Js.push, Js.shift.
  destruct (100 <? length (history ++ [r]))%nat eqn:E.
  - destruct history; simpl in *; rewrite ?length_app in *; simpl in *; lia.
  - apply Nat.ltb_ge in E. exact E.
Qed.

Lemma recorded_full history r :
  length history = 100%nat -> recorded history r = drop 1 history ++ [r].
Proof.
  intros H. unfold recorded, Js.push, Js.shift.
  rewrite length_app, H. simpl.
  destruct history; [discriminate | reflexivity].
Qed.

Lemma recorded_room history r :
  (length history < 100)%nat -> recorded history r = history ++ [r].
Proof.
  intros H. unfold recorded, Js.push.
  rewrite length_app. simpl.
  destruct (100 <? length history + 1)%nat eqn:E; [|reflexivity].
  apply Nat.ltb_lt in E. lia.
Qed.

Lemma tick_history config r w :
  endpointHistory (exec (tick service config r) w) =
  if isRunning w
  then <[cfg_url config :=
           recorded (default [] (endpointHistory w !! cfg_url config)) r]>
         (endpointHistory w)
  else endpointHistory w.
Proof.
  unfold tick, probeReturns. rewrite exec_bind. simpl.
  destruct (isRunning w) eqn:Hrun; simpl; [|reflexivity].
  repeat (rewrite exec_bind; simpl).
  rewrite analyzeEndpointHealth_keeps by reflexivity.
  reflexivity.
Qed.

Lemma step_history op w :
  endpointHistory (exec (step service op) w) =
  match op with
  | Tick id r =>
      match timers w !! id with
      | Some config => endpointHistory (exec (tick service config r) w)
      | None => endpointHistory w
      end
  | _ => endpointHistory w
  end.
Proof.
  destruct op as [configs| |config|u|id r|dt]; simpl.
  - revert w. change (keeps endpointHistory (startMonitoring configs)).
    unfold startMonitoring, monitorEndpoint. frame.
  - revert w. change (keeps endpointHistory stopMonitoring).
    unfold stopMonitoring. frame.
  - revert w. change (keeps endpointHistory (addEndpoint config)).
    unfold addEndpoint, monitorEndpoint. frame.
  - revert w. change (keeps endpointHistory (removeEndpoint u)).
    unfold removeEndpoint. frame.
  - rewrite exec_bind. simpl. destruct (timers w !! id); reflexivity.
  - reflexivity.
Qed.

Lemma step_bounded op w :
  history_bounded w -> history_bounded (exec (step service op) w).
Proof.
  intros Hw u h. rewrite step_history.
  destruct op as [configs| |config|u'|id r|dt]; try apply Hw.
  destruct (timers w !! id) as [config|]; [|apply Hw].
  rewrite tick_history. destruct (isRunning w); [|apply Hw].
  destruct (decide (cfg_url config = u)) as [->|Hne].
  - rewrite lookup_insert_eq. intros [= <-].
    apply recorded_length.
    destruct (endpointHistory w !! u) as [h0|] eqn:E; simpl; [|lia].
    exact (Hw u h0 E).
  - rewrite lookup_insert_ne by exact Hne. apply Hw.
Qed.

Lemma run_bounded ops w :
  history_bounded w -> history_bounded (run service ops w).
Proof.
  revert w. induction ops as [|op ops IH]; intros w Hw; simpl.
  - exact Hw.
  - apply IH, step_bounded, Hw.
Qed.

Lemma new_agent_bounded t : history_bounded (new_agent t).
Proof. intros u h. simpl. rewrite lookup_empty. discriminate. Qed.

(** C3.  Whatever happens to a fresh agent, every target's history holds
    at most 100 results; a probe recorded into a history of exactly 100
    results drops the first (oldest) entry and appends the new one, the
    other 99 keeping their order; below 100 nothing is dropped. *)
Theorem history_ring_capacity :
  (forall t ops, history_bounded (run service ops (new_agent t))) /\
  (forall w config r h,
      isRunning w = true ->
      endpointHistory w !! cfg_url config = Some h ->
      length h = 100%nat ->
      endpointHistory (exec (tick service config r) w) !! cfg_url config
      = Some (drop 1 h ++ [r])) /\
  (forall w config r h,
      isRunning w = true ->
      endpointHistory w !! cfg_url config = Some h ->
      (length h < 100)%nat ->
      endpointHistory (exec (tick service config r) w) !! cfg_url config
      = Some (h ++ [r])).
Proof.
  split; [|split].
  - intros t ops. apply run_bounded, new_agent_bounded.
  - intros w config r h Hrun Hh Hlen.
    rewrite tick_history, Hrun, lookup_insert_eq, Hh. simpl.
    rewrite recorded_full by exact Hlen. reflexivity.
  - intros w config r h Hrun Hh Hlen.
    rewrite tick_history, Hrun, lookup_insert_eq, Hh. simpl.
    rewrite recorded_room by exact Hlen. reflexivity.
Qed.

(** *** The health rules and their cooldown *)

Lemma bind_assoc {A B C} (m : M A) (k : A -> M B) (k' : B -> M C) w :
  bind (bind m k) k' w = bind m (fun a => bind (k a) k') w.
Proof. unfold bind. destruct (m w) as [[a|e] w']; reflexivity. Qed.

Lemma bind_ret_r (m : M unit) w : bind m (fun _ => ret tt) w = m w.
Proof. unfold bind, ret. destruct (m w) as [[[]|e] w']; reflexivity. Qed.

Lemma bind_ext {A B} (m : M A) (k k' : A -> M B) w :
  (forall a w', k a w' = k' a w') -> bind m k w = bind m k' w.
Proof. intros H. unfold bind. destruct (m w) as [[a|e] w']; [apply H | reflexivity]. Qed.

Lemma for_each_app {A} (l1 l2 : list A) (body : A -> M unit) w :
  for_each (l1 ++ l2) body w =
  bind (for_each l1 body) (fun _ => for_each l2 body) w.
Proof.
  revert w. induction l1 as [|x l1 IH]; intros w; simpl.
  - reflexivity.
  - rewrite bind_assoc. apply bind_ext. intros _ w'. apply IH.
Qed.

Lemma bind_cong {A B} (m m' : M A) (k k' : A -> M B) w :
  m w = m' w -> (forall a w', k a w' = k' a w') -> bind m k w = bind m' k' w.
Proof.
  intros Hm Hk. unfold bind. rewrite Hm.
  destruct (m' w) as [[a|e] w']; [apply Hk | reflexivity].
Qed.

Lemma when_singleton {A} (b : bool) (x : A) (body : A -> M unit) w :
  when b (body x) w = for_each (if b then [x] else []) body w.
Proof. destruct b; simpl; [symmetry; apply bind_ret_r | reflexivity]. Qed.

Lemma three_whens {A} (b1 b2 b3 : bool) (x1 x2 x3 : A) (body : A -> M unit) w :
  bind (when b1 (body x1))
    (fun _ => bind (when b2 (body x2)) (fun _ => when b3 (body x3))) w
  = for_each ((if b1 then [x1] else []) ++ (if b2 then [x2] else [])
              ++ (if b3 then [x3] else [])) body w.
Proof.
  rewrite for_each_app.
  apply bind_cong; [apply when_singleton | intros _ w1].
  rewrite for_each_app.
  apply bind_cong; [apply when_singleton | intros _ w2].
  apply when_singleton.
Qed.

(** With the cooldown running the pass is over before any rule is looked
    at: nothing is sent, emitted or written. *)
Lemma analyzeEndpointHealth_cooldown config history w :
  cooldownActive (insightCache w !! cfg_url config) (clock w) = true ->
  analyzeEndpointHealth service config history w = (Returned tt, w).
Proof.
  intros H. unfold analyzeEndpointHealth, bind, gets, dateNow. simpl.
  rewrite H. reflexivity.
Qed.

(** With the cooldown over, the pass is the sequence of firings of the
    rules that hold, and the cooldown is not consulted again. *)
Lemma analyzeEndpointHealth_expired config history w :
  cooldownActive (insightCache w !! cfg_url config) (clock w) = false ->
  analyzeEndpointHealth service config history w =
  for_each (fired (Js.slice_last 10 history))
    (fire service (cfg_url config) (Js.slice_last 10 history)) w.
Proof.
  intros H. unfold analyzeEndpointHealth.
  unfold bind at 1 2, gets, dateNow. simpl. rewrite H.
  exact (three_whens _ _ _ _ _ _
           (fire service (cfg_url config) (Js.slice_last 10 history)) w).
Qed.

Lemma fire_spec u recentChecks context w :
  fire service u recentChecks context w
  = (Returned tt, fire_world service u recentChecks context w).
Proof.
  unfold fire, setInsightCache, generateInsight, askService, bind, gets,
    dateNow, modify, emit, fire_world. simpl.
  destruct (answer (service (length (requests w)))); simpl.
  - reflexivity.
  - unfold ret. f_equal. destruct w; unfold with_clock, with_requests; simpl.
    rewrite app_nil_r. reflexivity.
Qed.

Lemma pass_world_cons u recentChecks c l w :
  pass_world service u recentChecks (c :: l) w
  = pass_world service u recentChecks l (fire_world service u recentChecks c w).
Proof. reflexivity. Qed.

Lemma for_each_fire u recentChecks l w :
  for_each l (fire service u recentChecks) w
  = (Returned tt, pass_world service u recentChecks l w).
Proof.
  revert w. induction l as [|c l IH]; intros w; simpl.
  - reflexivity.
  - unfold bind. rewrite fire_spec. apply IH.
Qed.

Lemma pass_world_requests u recentChecks l w :
  requests (pass_world service u recentChecks l w)
  = requests w ++ map (the_request u recentChecks) l.
Proof.
  revert w. induction l as [|c l IH]; intros w.
  - simpl. rewrite app_nil_r. reflexivity.
  - rewrite pass_world_cons, IH. simpl. rewrite <- app_assoc. reflexivity.
Qed.

Lemma pass_world_emitted u recentChecks l w :
  exists evs,
    emitted (pass_world service u recentChecks l w) = emitted w ++ evs /\
    (length evs <= length l)%nat /\
    ((forall n, is_Some (answer (service n))) -> length evs = length l) /\
    insightsFor u evs
    = omap (fun e => match e with InsightEvent i => Some i | _ => None end) evs.
Proof.
  revert w. induction l as [|c l IH]; intros w.
  - exists []. simpl. rewrite app_nil_r. repeat split; auto.
  - destruct (IH (fire_world service u recentChecks c w)) as (evs & He & Hle & Hall & Hins).
    rewrite pass_world_cons, He. simpl.
    destruct (answer (service (length (requests w)))) as [ai|] eqn:Ea.
    + eexists (_ :: evs). rewrite <- app_assoc. simpl. split; [reflexivity|].
      split; [lia|]. split; [intros Hs; rewrite (Hall Hs); reflexivity|].
      unfold insightsFor in *. simpl.
      destruct (decide (u = u)); [|congruence]. simpl. f_equal. exact Hins.
    + exists evs. rewrite app_nil_r. split; [reflexivity|].
      split; [lia|]. split; [|exact Hins].
      intros Hs. destruct (Hs (length (requests w))) as [ai Hai]. congruence.
Qed.

Lemma new_requests_app w w' l :
  requests w' = requests w ++ l -> new_requests w w' = l.
Proof. intros H. unfold new_requests. rewrite H. apply drop_app_length. Qed.

Lemma new_events_app w w' l :
  emitted w' = emitted w ++ l -> new_events w w' = l.
Proof. intros H. unfold new_events. rewrite H. apply drop_app_length. Qed.

Lemma fired_length recentChecks : (length (fired recentChecks) <= 3)%nat.
Proof.
  unfold fired. rewrite !length_app.
  repeat match goal with |- context [if ?b then _ else _] => destruct b end;
    simpl; lia.
Qed.

Lemma high_error_rate_fired recentChecks :
  In "High error rate detected"%string (fired recentChecks)
  <-> Js.gt (errorRate recentChecks) (3 # 10) = true.
Proof.
  unfold fired. rewrite !in_app_iff.
  repeat match goal with |- context [if ?b then _ else _] => destruct b end;
    simpl; split; intros H; try reflexivity; try discriminate; auto;
    repeat destruct H as [H|H]; try discriminate; try contradiction.
Qed.

Lemma errorRate_gt recentChecks :
  Js.gt (errorRate recentChecks) (3 # 10) = true
  <-> 3 * Z.of_nat (length recentChecks)
      < 10 * Z.of_nat (length (List.filter (fun c => negb (success c)) recentChecks)).
Proof.
  unfold errorRate. destruct recentChecks as [|c l].
  - simpl. split; [discriminate | lia].
  - apply JsFacts.gt_div. simpl length. lia.
Qed.

(** *** Timers: adding, removing, stopping *)

Lemma clear_all_timers (entries : list (string * nat)) w id :
  timers (exec (for_each entries (fun e => clearInterval (snd e))) w) !! id
  = if decide (id ∈ map snd entries) then None else timers w !! id.
Proof.
  revert w. induction entries as [|[u i] entries IH]; intros w.
  - simpl. destruct (decide (id ∈ [])) as [H|_]; [|reflexivity].
    apply elem_of_nil in H. contradiction.
  - simpl for_each. rewrite exec_bind.
    change (result (clearInterval i) w) with (@Returned unit tt).
    cbv beta iota. rewrite IH. simpl map.
    destruct (decide (id ∈ map snd entries)) as [Hin|Hnin].
    + rewrite decide_True by (right; exact Hin). reflexivity.
    + destruct (decide (id = i)) as [->|Hne].
      * rewrite decide_True by left. simpl. apply lookup_delete_eq.
      * rewrite decide_False.
        -- simpl. apply lookup_delete_ne. congruence.
        -- intros H. apply elem_of_cons in H. destruct H; contradiction.
Qed.

Lemma clear_all_returns (entries : list (string * nat)) w :
  result (for_each entries (fun e => clearInterval (snd e))) w = Returned tt.
Proof.
  revert w. induction entries as [|e entries IH]; intros w.
  - reflexivity.
  - simpl for_each. unfold result, bind. simpl. apply IH.
Qed.

Lemma clear_all_keeps {B} (f : World -> B) (entries : list (string * nat)) :
  (forall w g n, f (with_timers g n w) = f w) ->
  keeps f (for_each entries (fun e => clearInterval (snd e))).
Proof.
  intros H. apply keeps_for_each. intros e w. apply H.
Qed.

Lemma stopMonitoring_world w :
  let w' := exec stopMonitoring w in
  isRunning w' = false /\
  monitoringIntervals w' = ∅ /\
  endpointHistory w' = endpointHistory w /\
  insightCache w' = insightCache w /\
  (forall u id, monitoringIntervals w !! u = Some id -> timers w' !! id = None) /\
  (forall id,
      (forall u, monitoringIntervals w !! u <> Some id) ->
      timers w' !! id = timers w !! id).
Proof.
  unfold stopMonitoring. simpl.
  repeat (rewrite exec_bind; simpl).
  change (exec (gets (fun w => map_to_list (monitoringIntervals w)))
            (exec (modify (with_isRunning false)) w))
    with (exec (modify (with_isRunning false)) w).
  rewrite clear_all_returns. simpl.
  set (entries := map_to_list (monitoringIntervals w)).
  set (w1 := exec (modify (with_isRunning false)) w).
  assert (K : forall {B} (f : World -> B),
             (forall w g n, f (with_timers g n w) = f w) ->
             f (exec (for_each entries (fun e => clearInterval (snd e))) w1) = f w1).
  { intros B f Hf. apply clear_all_keeps, Hf. }
  split; [apply (K _ isRunning); reflexivity|].
  split; [reflexivity|].
  split; [apply (K _ endpointHistory); reflexivity|].
  split; [apply (K _ insightCache); reflexivity|].
  assert (E : forall id,
             id ∈ map snd entries <-> exists u, monitoringIntervals w !! u = Some id).
  { intros id. rewrite list_elem_of_fmap. subst entries. split.
    - intros [[u i] [-> H]]. exists u. apply elem_of_map_to_list in H. exact H.
    - intros [u H]. exists (u, id). split; [reflexivity|].
      apply elem_of_map_to_list. exact H. }
  split.
  - intros u id Hu. rewrite clear_all_timers.
    rewrite decide_True by (apply E; exists u; exact Hu). reflexivity.
  - intros id Hid. rewrite clear_all_timers.
    rewrite decide_False; [reflexivity|].
    rewrite E. intros [u Hu]. exact (Hid u Hu).
Qed.

Lemma removeEndpoint_world u w :
  let w' := exec (removeEndpoint u) w in
  isRunning w' = isRunning w /\
  endpointHistory w' = endpointHistory w /\
  insightCache w' = insightCache w /\
  monitoringIntervals w' = delete u (monitoringIntervals w) /\
  timers w' =
  match monitoringIntervals w !! u with
  | Some id => delete id (timers w)
  | None => timers w
  end.
Proof.
  unfold removeEndpoint. simpl. rewrite exec_bind. simpl.
  destruct (monitoringIntervals w !! u) as [id|] eqn:E.
  - repeat (rewrite exec_bind; simpl). repeat split; reflexivity.
  - repeat split; try reflexivity.
    unfold exec, ret. simpl. symmetry. apply delete_id. exact E.
Qed.

Lemma addEndpoint_stopped config w :
  isRunning w = false ->
  addEndpoint config w
  = (Thrown "Agent is not running. Start monitoring first.", w).
Proof.
  intros H. unfold addEndpoint, bind, gets. simpl. rewrite H. reflexivity.
Qed.

Lemma addEndpoint_running config w :
  isRunning w = true ->
  result (addEndpoint config) w = Returned tt /\
  timers (exec (addEndpoint config) w) !! nextTimer w = Some config /\
  monitoringIntervals (exec (addEndpoint config) w) !! cfg_url config
  = Some (nextTimer w).
Proof.
  intros H. unfold addEndpoint, monitorEndpoint, setInterval, result, exec,
    bind, gets, modify. simpl. rewrite H. simpl.
  split; [reflexivity|]. split; apply lookup_insert_eq.
Qed.

End WithService.

(** *** The specification's statements about the health evaluator *)

(** The pass over [burst_history] on a fresh agent whose clock shows 5000,
    with a service that answers at once. *)
Lemma burst_pass_insights :
  map i_timestamp
    (insightsFor sample_url
       (emitted (exec (analyzeEndpointHealth answering sample_config burst_history)
                   (new_agent 5000))))
  = [5000; 5000; 5000].
Proof. vm_compute. reflexivity. Qed.

(** C1.  The comment in the source promises at most one insight per
    endpoint per five minutes.  On [burst_run] the first tick alone emits
    two insights about the target (error rate and slow response) at the
    same instant, the next two ticks fall into the cooldown, and the tick
    after it emits three more at once. *)
Theorem throttle_broken_within_one_tick :
  let w := run answering burst_run (new_agent 0) in
  map i_timestamp (insightsFor sample_url (emitted w))
  = [60000; 60000; 480000; 480000; 480000] /\
  ~ throttled sample_url (emitted w).
Proof.
  cbv zeta.
  assert (H : map i_timestamp
                (insightsFor sample_url (emitted (run answering burst_run (new_agent 0))))
              = [60000; 60000; 480000; 480000; 480000])
    by (vm_compute; reflexivity).
  split; [exact H|].
  unfold throttled.
  remember (insightsFor sample_url _) as ins eqn:Eins. clear Eins.
  intros T.
  destruct ins as [|a [|b rest]]; try discriminate.
  injection H as Ha Hb _.
  specialize (T 0%nat 1%nat a b ltac:(lia) eq_refl eq_refl).
  lia.
Qed.

(** C2.  The cooldown is looked at once, at the start of the pass.  While
    the last alert for the target is less than five minutes old the pass
    returns at once and changes nothing.  When there has been no alert
    for the target, or the last one is five minutes old or older, the
    pass is exactly: for each rule that holds, in source order, write the
    current time into the cooldown entry and ask for an insight, which is
    emitted when the service answers.  So a pass emits at most three
    insights, and three when all rules hold and the service answers, on a
    new agent as well as one whose last alert is exactly five minutes
    old. *)
Theorem cooldown_checked_once_per_pass :
  (forall service config history w t,
      insightCache w !! cfg_url config = Some t ->
      clock w - t < 5 * 60 * 1000 ->
      analyzeEndpointHealth service config history w = (Returned tt, w)) /\
  (forall service config history w,
      (insightCache w !! cfg_url config = None \/
       exists t, insightCache w !! cfg_url config = Some t /\
                 5 * 60 * 1000 <= clock w - t) ->
      analyzeEndpointHealth service config history w
      = for_each (fired (Js.slice_last 10 history))
          (fire service (cfg_url config) (Js.slice_last 10 history)) w) /\
  (forall service u recentChecks context w,
      let w' := exec (fire service u recentChecks context) w in
      insightCache w' !! u = Some (clock w) /\
      new_requests w w' = [the_request u recentChecks context] /\
      new_events w w'
      = match answer (service (length (requests w))) with
        | Some ai => [InsightEvent (the_insight u recentChecks ai (clock w'))]
        | None => []
        end) /\
  (forall service config history w,
      (length (new_events w (exec (analyzeEndpointHealth service config history) w))
       <= 3)%nat) /\
  (exists service config history w,
      length (insightsFor (cfg_url config)
                (new_events w (exec (analyzeEndpointHealth service config history) w)))
      = 3%nat) /\
  (exists service config history w t,
      insightCache w !! cfg_url config = Some t /\
      clock w - t = 5 * 60 * 1000 /\
      length (insightsFor (cfg_url config)
                (new_events w (exec (analyzeEndpointHealth service config history) w)))
      = 3%nat).
Proof.
  split; [|split; [|split; [|split; [|split]]]].
  - intros service config history w t Ht Hlt.
    apply analyzeEndpointHealth_cooldown. rewrite Ht. simpl.
    apply Z.ltb_lt. exact Hlt.
  - intros service config history w H.
    apply analyzeEndpointHealth_expired.
    destruct H as [->|(t & -> & Ht)]; [reflexivity|].
    simpl. apply Z.ltb_ge. exact Ht.
  - intros service u rc c w. simpl. unfold exec. rewrite fire_spec. simpl.
    split; [apply lookup_insert_eq|].
    split; [apply new_requests_app; reflexivity|].
    apply new_events_app. simpl.
    destruct (answer (service (length (requests w)))); reflexivity.
  - intros service config history w.
    destruct (cooldownActive (insightCache w !! cfg_url config) (clock w)) eqn:E.
    + unfold exec. rewrite (analyzeEndpointHealth_cooldown _ _ _ _ E). simpl.
      unfold new_events. rewrite length_drop. lia.
    + unfold exec. rewrite (analyzeEndpointHealth_expired _ _ _ _ E), for_each_fire.
      simpl.
      destruct (pass_world_emitted service (cfg_url config) (Js.slice_last 10 history)
                  (fired (Js.slice_last 10 history)) w) as (evs & He & Hle & _).
      rewrite (new_events_app _ _ _ He).
      pose proof (fired_length (Js.slice_last 10 history)). lia.
  - exists answering, sample_config, burst_history, (new_agent 5000).
    change (length
              (insightsFor sample_url
                 (emitted
                    (exec (analyzeEndpointHealth answering sample_config burst_history)
                       (new_agent 5000)))) = 3%nat).
    rewrite <- (length_map i_timestamp), burst_pass_insights. reflexivity.
  - exists answering, sample_config, burst_history, cooled_agent, 5000.
    split; [vm_compute; reflexivity|]. split; [reflexivity|].
    vm_compute. reflexivity.
Qed.

(** C4.  With the cooldown over, the request for a "High error rate
    detected" insight goes out exactly when more than three tenths of the
    last [min 10 (length history)] results have [success = false]: not for
    3 failures among 10, and for 4 or more among 10.  The same test
    computed on doubles, as the source does, gives the same answer. *)
Theorem high_error_rate_rule service config history w :
  cooldownActive (insightCache w !! cfg_url config) (clock w) = false ->
  let recentChecks := Js.slice_last 10 history in
  let n := length recentChecks in
  let failures := length (List.filter (fun c => negb (success c)) recentChecks) in
  let fires :=
    In (the_request (cfg_url config) recentChecks "High error rate detected")
      (new_requests w (exec (analyzeEndpointHealth service config history) w)) in
  n = (length history `min` 10)%nat /\
  (fires <-> 3 * Z.of_nat n < 10 * Z.of_nat failures) /\
  (n = 10%nat -> failures = 3%nat -> ~ fires) /\
  (n = 10%nat -> (4 <= failures)%nat -> fires) /\
  ((0 < n)%nat ->
   (fires <->
    Js.double_gt (Js.double_div (Z.of_nat failures) (Z.of_nat n)) Js.double_03 = true)).
Proof.
  intros E rc n failures fires.
  assert (Hiff : fires <-> 3 * Z.of_nat n < 10 * Z.of_nat failures).
  { unfold fires, exec.
    rewrite (analyzeEndpointHealth_expired _ _ _ _ E), for_each_fire. simpl.
    rewrite (new_requests_app _ _ _ (pass_world_requests _ _ _ _ _)).
    fold rc. unfold n, failures.
    rewrite <- errorRate_gt, <- high_error_rate_fired.
    rewrite in_map_iff. split.
    - intros [c [Hc Hin]]. injection Hc as ->. exact Hin.
    - intros Hin. eexists. split; [reflexivity | exact Hin]. }
  assert (Hn : n = (length history `min` 10)%nat)
    by apply JsFacts.length_slice_last.
  split; [exact Hn|].
  split; [exact Hiff|].
  split; [intros Hn' Hf; rewrite Hiff, Hn', Hf; lia|].
  split; [intros Hn' Hf; apply Hiff; rewrite Hn'; lia|].
  intros Hpos.
  rewrite JsFacts.gt_div_double;
    [|lia | unfold failures, n; apply List.filter_length_le].
  rewrite Hiff. symmetry. apply JsFacts.gt_div. lia.
Qed.

(** C7 as stated fails: after [removeEndpoint], and after
    [stopMonitoring], the target's history and cooldown entry are still
    there. *)
Lemma removal_keeps_history_and_cooldown :
  let w := run answering
             [StartMonitoring [sample_config]; Tick 0%nat (failed_check 500 1000)]
             (new_agent 5000) in
  ~ target_state_destroyed sample_url (exec (removeEndpoint sample_url) w) /\
  ~ target_state_destroyed sample_url (exec stopMonitoring w).
Proof.
  split; intros (_ & H & _); vm_compute in H; discriminate.
Qed.

(** C7, amended.  [removeEndpoint] cancels the target's timer and drops it
    from the timer registry; [stopMonitoring] clears the running flag,
    cancels every registered timer and empties the registry.  Both leave
    every recorded history and every cooldown entry as they were. *)
Theorem removal_cancels_timer_only service :
  (forall u w,
      let w' := exec (removeEndpoint u) w in
      monitoringIntervals w' !! u = None /\
      (forall id, monitoringIntervals w !! u = Some id -> timers w' !! id = None) /\
      endpointHistory w' = endpointHistory w /\
      insightCache w' = insightCache w) /\
  (forall w,
      let w' := exec stopMonitoring w in
      isRunning w' = false /\
      monitoringIntervals w' = ∅ /\
      (forall u id, monitoringIntervals w !! u = Some id -> timers w' !! id = None) /\
      endpointHistory w' = endpointHistory w /\
      insightCache w' = insightCache w) /\
  (forall ops w u,
      (forall op, In op ops -> op = StopMonitoring \/ exists u', op = RemoveEndpoint u') ->
      endpointHistory (run service ops w) !! u = endpointHistory w !! u /\
      insightCache (run service ops w) !! u = insightCache w !! u).
Proof.
  split; [|split].
  - intros u w.
    destruct (removeEndpoint_world u w) as (_ & Hh & Hc & Hm & Ht).
    simpl. rewrite Hm, Ht, Hh, Hc.
    split; [apply lookup_delete_eq|].
    split; [|split; reflexivity].
    intros id Hid. rewrite Hid. apply lookup_delete_eq.
  - intros w.
    destruct (stopMonitoring_world w) as (Hr & Hm & Hh & Hc & Ht & _).
    simpl. repeat split; assumption.
  - intros ops. induction ops as [|op ops IH]; intros w u Hops; simpl.
    + split; reflexivity.
    + destruct (IH (exec (step service op) w) u) as [Hh Hc].
      { intros op' Hin. apply Hops. right. exact Hin. }
      rewrite Hh, Hc.
      destruct (Hops op (or_introl eq_refl)) as [->|[u' ->]]; simpl.
      * destruct (stopMonitoring_world w) as (_ & _ & Hh' & Hc' & _).
        simpl in Hh', Hc'. rewrite Hh', Hc'. split; reflexivity.
      * destruct (removeEndpoint_world u' w) as (_ & Hh' & Hc' & _).
        simpl in Hh', Hc'. rewrite Hh', Hc'. split; reflexivity.
Qed.

(** C8.  On an agent that is not running, [addEndpoint] throws, with the
    world (timers and registry included) exactly as before. *)
Theorem addEndpoint_rejected_when_stopped config w :
  isRunning w = false ->
  result (addEndpoint config) w
  = Thrown "Agent is not running. Start monitoring first." /\
  exec (addEndpoint config) w = w /\
  timers (exec (addEndpoint config) w) = timers w /\
  monitoringIntervals (exec (addEndpoint config) w) = monitoringIntervals w.
Proof.
  intros H. unfold result, exec. rewrite (addEndpoint_stopped config w H).
  repeat split; reflexivity.
Qed.

(** C10.  [getEndpointStats] answers [null] exactly for a target without
    history (no entry, or an empty one).  Otherwise [recentChecks] is the
    suffix of the history of length [min 10 (length history)] and
    [lastCheck] is its last entry. *)
Theorem getEndpointStats_null_iff_no_history u w :
  (getEndpointStats u w = None
   <-> endpointHistory w !! u = None \/ endpointHistory w !! u = Some []) /\
  (forall h, endpointHistory w !! u = Some h -> h <> [] ->
     exists st, getEndpointStats u w = Some st /\
       recentChecks st = drop (length h - 10) h /\
       length (recentChecks st) = (length h `min` 10)%nat /\
       (exists older, h = older ++ recentChecks st) /\
       lastCheck st = last h /\
       is_Some (lastCheck st) /\
       last (recentChecks st) = lastCheck st).
Proof.
  unfold getEndpointStats. split.
  - destruct (endpointHistory w !! u) as [[|r h]|]; simpl; split;
      intros H; try reflexivity; try discriminate; auto;
      destruct H as [H|H]; discriminate.
  - intros h Hh Hne. rewrite Hh. simpl default.
    destruct (length h =? 0)%nat eqn:E.
    { apply Nat.eqb_eq in E. destruct h; [contradiction | discriminate]. }
    eexists. split; [reflexivity|]. cbn [recentChecks lastCheck].
    split; [reflexivity|].
    split; [apply JsFacts.length_slice_last|].
    split; [exists (take (length h - 10) h); symmetry; apply take_drop|].
    assert (Hlast : h !! (length h - 1)%nat = last h).
    { rewrite last_lookup. f_equal. lia. }
    split; [exact Hlast|].
    split.
    + rewrite Hlast. apply last_is_Some. exact Hne.
    + rewrite Hlast. apply JsFacts.last_slice_last. lia.
Qed.

(** *** The statements at sample inputs *)

Lemma cooldown_checked_once_per_pass_witness :
  let w := with_insightCache (insert sample_url 4000) (new_agent 5000) in
  insightCache w !! sample_url = Some 4000 /\
  clock w - 4000 < 5 * 60 * 1000 /\
  analyzeEndpointHealth answering sample_config burst_history w = (Returned tt, w) /\
  insightCache cooled_agent !! cfg_url sample_config = Some 5000 /\
  5 * 60 * 1000 <= clock cooled_agent - 5000 /\
  analyzeEndpointHealth answering sample_config burst_history cooled_agent
  = for_each (fired (Js.slice_last 10 burst_history))
      (fire answering sample_url (Js.slice_last 10 burst_history)) cooled_agent.
Proof.
  assert (H1 : insightCache (with_insightCache (insert sample_url 4000) (new_agent 5000))
               !! sample_url = Some 4000) by (vm_compute; reflexivity).
  assert (H2 : clock (with_insightCache (insert sample_url 4000) (new_agent 5000)) - 4000
               < 5 * 60 * 1000) by (simpl; lia).
  assert (H3 : insightCache cooled_agent !! cfg_url sample_config = Some 5000)
    by (vm_compute; reflexivity).
  assert (H4 : 5 * 60 * 1000 <= clock cooled_agent - 5000) by (simpl; lia).
  cbv zeta. split; [exact H1|]. split; [exact H2|].
  split.
  - exact (proj1 cooldown_checked_once_per_pass answering sample_config burst_history
             _ 4000 H1 H2).
  - split; [exact H3|]. split; [exact H4|].
    exact (proj1 (proj2 cooldown_checked_once_per_pass) answering sample_config
             burst_history cooled_agent
             (or_intror (ex_intro _ 5000 (conj H3 H4)))).
Defined.

Lemma history_ring_capacity_witness :
  let h := replicate 100 (ok_check 2000) in
  isRunning (after_probes 100) = true /\
  endpointHistory (after_probes 100) !! cfg_url sample_config = Some h /\
  length h = 100%nat /\
  endpointHistory (exec (tick answering sample_config (failed_check 500 3000))
                     (after_probes 100)) !! cfg_url sample_config
  = Some (drop 1 h ++ [failed_check 500 3000]).
Proof.
  assert (H1 : isRunning (after_probes 100) = true) by (vm_compute; reflexivity).
  assert (H2 : endpointHistory (after_probes 100) !! cfg_url sample_config
               = Some (replicate 100 (ok_check 2000))) by (vm_compute; reflexivity).
  assert (H3 : length (replicate 100 (ok_check 2000)) = 100%nat)
    by (vm_compute; reflexivity).
  cbv zeta. split; [exact H1|]. split; [exact H2|]. split; [exact H3|].
  exact (proj1 (proj2 (history_ring_capacity answering)) (after_probes 100)
           sample_config (failed_check 500 3000) _ H1 H2 H3).
Defined.

Lemma high_error_rate_rule_witness :
  cooldownActive (insightCache (new_agent 5000) !! cfg_url sample_config)
    (clock (new_agent 5000)) = false /\
  ~ In (the_request sample_url (ten_checks 3) "High error rate detected")
      (new_requests (new_agent 5000)
         (exec (analyzeEndpointHealth answering sample_config (ten_checks 3))
            (new_agent 5000))) /\
  In (the_request sample_url (ten_checks 4) "High error rate detected")
    (new_requests (new_agent 5000)
       (exec (analyzeEndpointHealth answering sample_config (ten_checks 4))
          (new_agent 5000))).
Proof.
  assert (H : cooldownActive (insightCache (new_agent 5000) !! cfg_url sample_config)
                (clock (new_agent 5000)) = false) by (vm_compute; reflexivity).
  split; [exact H|]. split.
  - exact (proj1 (proj2 (proj2 (high_error_rate_rule answering sample_config
                                  (ten_checks 3) (new_agent 5000) H)))
             eq_refl eq_refl).
  - apply (proj1 (proj2 (proj2 (proj2 (high_error_rate_rule answering sample_config
                                         (ten_checks 4) (new_agent 5000) H))))).
    + reflexivity.
    + vm_compute. lia.
Defined.

Lemma removal_cancels_timer_only_witness :
  let w := after_probes 3 in
  monitoringIntervals w !! sample_url = Some 0%nat /\
  timers (exec (removeEndpoint sample_url) w) !! 0%nat = None /\
  timers (exec stopMonitoring w) !! 0%nat = None /\
  endpointHistory (run answering [RemoveEndpoint sample_url; StopMonitoring] w)
    !! sample_url
  = endpointHistory w !! sample_url.
Proof.
  assert (H : monitoringIntervals (after_probes 3) !! sample_url = Some 0%nat)
    by (vm_compute; reflexivity).
  cbv zeta. split; [exact H|]. split; [|split].
  - exact (proj1 (proj2 (proj1 (removal_cancels_timer_only answering)
                           sample_url (after_probes 3))) 0%nat H).
  - exact (proj1 (proj2 (proj2 (proj1 (proj2 (removal_cancels_timer_only answering))
                                  (after_probes 3)))) sample_url 0%nat H).
  - apply (proj2 (proj2 (removal_cancels_timer_only answering))).
    intros op [<-|[<-|[]]]; [right; eexists; reflexivity | left; reflexivity].
Defined.

Lemma addEndpoint_rejected_when_stopped_witness :
  isRunning (new_agent 5000) = false /\
  result (addEndpoint sample_config) (new_agent 5000)
  = Thrown "Agent is not running. Start monitoring first." /\
  timers (exec (addEndpoint sample_config) (new_agent 5000)) = ∅.
Proof.
  split; [reflexivity|].
  destruct (addEndpoint_rejected_when_stopped sample_config (new_agent 5000) eq_refl)
    as (Hr & _ & Ht & _).
  split; [exact Hr | exact Ht].
Defined.

Lemma getEndpointStats_null_iff_no_history_witness :
  endpointHistory (after_probes 3) !! sample_url
  = Some (replicate 3 (ok_check 2000)) /\
  replicate 3 (ok_check 2000) <> [] /\
  (exists st, getEndpointStats sample_url (after_probes 3) = Some st /\
     recentChecks st = replicate 3 (ok_check 2000) /\
     lastCheck st = Some (ok_check 2000)) /\
  getEndpointStats sample_url (new_agent 5000) = None.
Proof.
  assert (H1 : endpointHistory (after_probes 3) !! sample_url
               = Some (replicate 3 (ok_check 2000))) by (vm_compute; reflexivity).
  assert (H2 : replicate 3 (ok_check 2000) <> []) by discriminate.
  split; [exact H1|]. split; [exact H2|]. split.
  - destruct (proj2 (getEndpointStats_null_iff_no_history sample_url (after_probes 3))
                _ H1 H2) as (st & Hst & Hrc & _ & _ & Hl & _).
    exists st. split; [exact Hst|]. split; [exact Hrc | exact Hl].
  - apply (proj1 (getEndpointStats_null_iff_no_history sample_url (new_agent 5000))).
    left. vm_compute. reflexivity.
Defined.

End AgentFacts.

Module DetectorFacts.
Import Detector.

(** *** Pruning *)

Lemma pruneOld_loop_drop cutoff w :
  exists k,
    pruneOld_loop cutoff w = drop k w /\
    Forall (fun m => timestamp m < cutoff) (take k w).
Proof.
  induction w as [|m w IH]; simpl.
  - exists 0%nat. split; [reflexivity | constructor].
  - destruct (timestamp m <? cutoff) eqn:E.
    + destruct IH as (k & Hk & Hold). exists (S k). simpl.
      split; [exact Hk|]. constructor; [apply Z.ltb_lt, E | exact Hold].
    + exists 0%nat. split; [reflexivity | constructor].
Qed.

Lemma pruneOld_loop_head cutoff w m :
  head (pruneOld_loop cutoff w) = Some m -> cutoff <= timestamp m.
Proof.
  induction w as [|m' w IH]; simpl; [discriminate|].
  destruct (timestamp m' <? cutoff) eqn:E; [exact IH|].
  simpl. intros [= <-]. apply Z.ltb_ge, E.
Qed.

Lemma pruneOld_loop_chronological cutoff w :
  chronological w ->
  Forall (fun m => cutoff <= timestamp m) (pruneOld_loop cutoff w) /\
  pruneOld_loop cutoff w
  = List.filter (fun m => negb (timestamp m <? cutoff)) w.
Proof.
  unfold chronological. induction 1 as [|m w Hs IH Hm]; simpl.
  - split; [constructor | reflexivity].
  - destruct (timestamp m <? cutoff) eqn:E; simpl; [exact IH|].
    apply Z.ltb_ge in E.
    assert (Hall : Forall (fun m' => cutoff <= timestamp m') w).
    { eapply Forall_impl; [exact Hm|]. simpl. intros m' H'. lia. }
    split; [constructor; assumption|].
    f_equal. clear -Hall. induction Hall as [|m' w H _ IH]; simpl; [reflexivity|].
    apply Z.ltb_ge in H. rewrite H. simpl. f_equal. exact IH.
Qed.

(** Whatever [analyze] answers, the window it leaves is the pruned one. *)
Lemma analyze_window now metric w :
  snd (analyze now metric w) = pruneOld now (Js.push w metric).
Proof.
  unfold analyze.
  repeat match goal with
         | |- context [if ?b then _ else _] => destruct b
         | |- context [match ?x with Some _ => _ | None => _ end] => destruct x
         end; reflexivity.
Qed.

Lemma analyze_warm_up now metric w :
  (length (pruneOld now (Js.push w metric)) < MIN_SAMPLES)%nat ->
  fst (analyze now metric w) = None.
Proof.
  intros H. unfold analyze. apply Nat.ltb_lt in H. rewrite H. reflexivity.
Qed.

(** C6 as stated fails: a sample that arrives with an old timestamp
    stays behind the newer entry in front of it, and is still in the
    window, 100 seconds old, after the next call.  (All three samples have
    status 200 and latency 0.) *)
Lemma stale_entry_behind_fresh_one :
  let w1 := snd (analyze 100000 (sample 200 0 100000) []) in
  let w2 := snd (analyze 100000 (sample 200 0 0) w1) in
  ~ no_stale_left 100001 (snd (analyze 100001 (sample 200 0 100001) w2)).
Proof.
  cbv zeta. rewrite !analyze_window. unfold no_stale_left. intros H.
  vm_compute in H.
  inversion H as [|m0 l0 _ H1]; subst.
  inversion H1 as [|m1 l1 H2 _]; subst.
  apply H2. reflexivity.
Qed.

(** C6, amended.  [analyze] appends the sample and then removes entries
    that are more than 60 seconds old from the front of the window, until
    the first entry is not that old; a front entry that is 61 seconds old
    is removed.  In a window whose timestamps never decrease this leaves
    no entry older than 60 seconds.  When fewer than 10 entries remain the
    answer is [null], whatever they are. *)
Theorem window_pruned_then_warm_up now metric w :
  let w' := snd (analyze now metric w) in
  w' = pruneOld now (w ++ [metric]) /\
  (exists k, w' = drop k (w ++ [metric]) /\ Forall (stale now) (take k (w ++ [metric]))) /\
  (forall m, head w' = Some m -> ~ stale now m) /\
  (chronological (w ++ [metric]) ->
     no_stale_left now w' /\
     w' = List.filter (fun m => negb (timestamp m <? now - 60000)) (w ++ [metric])) /\
  (forall s rest,
     w = s :: rest -> timestamp s = now - 61000 ->
     w' = pruneOld now (rest ++ [metric])) /\
  ((length w' < 10)%nat -> fst (analyze now metric w) = None).
Proof.
  simpl. rewrite analyze_window.
  unfold Js.push, pruneOld, no_stale_left, stale, WINDOW_MS.
  split; [reflexivity|].
  split; [apply pruneOld_loop_drop|].
  split.
  { intros m Hm. apply pruneOld_loop_head in Hm. lia. }
  split.
  { intros Hc. destruct (pruneOld_loop_chronological (now - 60000) _ Hc) as [Hall Hf].
    split; [|exact Hf].
    eapply Forall_impl; [exact Hall|]. simpl. intros m' H'. lia. }
  split.
  { intros s rest -> Hs. simpl.
    replace (timestamp s <? now - 60000) with true; [reflexivity|].
    symmetry. apply Z.ltb_lt. lia. }
  intros H. apply analyze_warm_up. exact H.
Qed.

(** *** The persisted-log path *)

Lemma analyze_falsy_latency now metric w :
  truthy (responseTime metric) = false ->
  fst (analyze now metric w) = None \/
  exists a, fst (analyze now metric w) = Some a /\ a_type a = HIGH_ERROR_RATE.
Proof.
  intros H. unfold analyze. rewrite H, andb_false_r.
  repeat match goal with
         | |- context [if ?b then _ else _] => destruct b
         | |- context [match ?x with Some _ => _ | None => _ end] => destruct x
         end; simpl; eauto.
Qed.

(** C9.  [addHttpLog] hands [analyze] a metric whose [responseTime] is 0,
    which is falsy, so the signal for a persisted log is [null] or a
    HIGH_ERROR_RATE signal, and only such signals are broadcast. *)
Theorem persisted_logs_never_spike
    (InsertHttpLog : Type) (statusCode : InsertHttpLog -> Z)
    (t now : Z) (log : InsertHttpLog) (s : Storage.MemStorage InsertHttpLog) :
  let httpLog := fst (Storage.addHttpLog statusCode t now log s) in
  let s' := snd (Storage.addHttpLog statusCode t now log s) in
  let metric := Storage.metric_of statusCode httpLog in
  let signal := fst (analyze now metric (Storage.metricsWindow s)) in
  responseTime metric = Some 0%float /\
  Storage.metricsWindow s' = snd (analyze now metric (Storage.metricsWindow s)) /\
  (signal = None \/ exists a, signal = Some a /\ a_type a = HIGH_ERROR_RATE) /\
  ~ is_spike signal /\
  Storage.broadcast s'
  = Storage.broadcast s ++
    match signal with
    | Some a => [{| Storage.anomaly := a; Storage.at_time := t |}]
    | None => []
    end.
Proof.
  unfold Storage.addHttpLog.
  set (httpLog := {| Storage.fields := log; Storage.id := Storage.currentLogId s;
                     Storage.timestamp := t |}).
  destruct (analyze now (Storage.metric_of statusCode httpLog) (Storage.metricsWindow s))
    as [signal window] eqn:E.
  simpl. rewrite E. simpl.
  split; [reflexivity|]. split; [reflexivity|].
  assert (H : signal = None \/ exists a, signal = Some a /\ a_type a = HIGH_ERROR_RATE).
  { pose proof (analyze_falsy_latency now (Storage.metric_of statusCode httpLog)
                  (Storage.metricsWindow s) eq_refl) as H.
    rewrite E in H. exact H. }
  split; [exact H|].
  split.
  - intros (a & Ha & Hs). destruct H as [H|(a' & H & Ht)]; congruence.
  - destruct signal; [reflexivity | symmetry; apply app_nil_r].
Qed.

(** *** The three-sigma test in exact arithmetic *)

Lemma Qdiv_length_nonneg (a : Q) (n : nat) :
  (0 <= a)%Q -> (0 <= a / inject_Z (Z.of_nat n))%Q.
Proof.
  intros Ha. unfold Qdiv. apply Qmult_le_0_compat; [exact Ha|].
  apply Qinv_le_0_compat. unfold Qle. simpl. lia.
Qed.

Lemma squares_nonneg (values : list Q) (avg acc : Q) :
  (0 <= acc)%Q ->
  (0 <= fold_left (fun sum v => sum + Qpower (v - avg) 2) values acc)%Q.
Proof.
  revert acc. induction values as [|v values IH]; intros acc Ha; simpl fold_left.
  - exact Ha.
  - apply IH.
    exact (Qplus_le_compat 0 acc 0 _ Ha (Qsqr_nonneg (v - avg))).
Qed.

Lemma variance_nonneg (values : list Q) (avg : Q) : (0 <= exact_variance values avg)%Q.
Proof.
  unfold exact_variance. apply Qdiv_length_nonneg, squares_nonneg, Qle_refl.
Qed.

Lemma three_sigma (a v : R) :
  (0 <= v)%R -> (3 * sqrt v < a <-> 0 < a /\ 9 * v < a * a)%R.
Proof.
  intros Hv. pose proof (sqrt_pos v) as Hs. pose proof (sqrt_sqrt v Hv) as Hq.
  split.
  - intros H. split; [lra|]. rewrite <- Hq. nra.
  - intros [Ha H]. destruct (Rlt_dec (3 * sqrt v) a) as [Hlt|Hge]; [exact Hlt|].
    exfalso. apply Rnot_lt_le in Hge. rewrite <- Hq in H. nra.
Qed.

(** The computable test decides the comparison with the square root. *)
Lemma above_three_sigma_spec (values : list Q) (x : Q) :
  above_three_sigmab values x = true <-> above_three_sigma values x.
Proof.
  unfold above_three_sigmab, above_three_sigma, exact_std. cbv zeta.
  set (avg := exact_mean values). set (v := exact_variance values avg).
  rewrite andb_true_iff, !JsFacts.gt_spec.
  change (Qpower (x - avg) 2) with ((x - avg) * (x - avg))%Q.
  assert (Hv' : (0 <= Q2R v)%R).
  { replace 0%R with (Q2R 0) by (unfold Q2R; simpl; lra).
    apply Qle_Rle, variance_nonneg. }
  assert (H9 : Q2R 9 = 9%R) by (unfold Q2R; simpl; lra).
  pose proof (three_sigma (Q2R x - Q2R avg) (Q2R v) Hv') as T.
  split.
  - intros [H1 H2]. apply Qlt_Rlt in H1, H2.
    rewrite !Q2R_mult, Q2R_minus, H9 in H2.
    assert (H' : (3 * sqrt (Q2R v) < Q2R x - Q2R avg)%R) by (apply T; split; lra).
    lra.
  - intros H. assert (H' : (3 * sqrt (Q2R v) < Q2R x - Q2R avg)%R) by lra.
    apply T in H'. destruct H' as [H1 H2]. split.
    + apply Rlt_Qlt. lra.
    + apply Rlt_Qlt. rewrite !Q2R_mult, Q2R_minus, H9. exact H2.
Qed.

(** *** Comparisons of doubles *)

Lemma SFeqb_refl_of_lt (y x : spec_float) : SFltb y x = true -> SFeqb x x = true.
Proof.
  unfold SFltb, SFeqb.
  destruct x as [s|s| |s m e]; destruct y; simpl; try discriminate; intros _;
    try reflexivity; try (destruct s; reflexivity).
  all: destruct s; rewrite Z.compare_refl, ?Pos.compare_cont_refl; reflexivity.
Qed.

(** [x > y] is false when [x] is NaN. *)
Lemma double_gt_not_nan (x y : float) :
  Js.double_gt x y = true -> PrimFloat.is_nan x = false.
Proof.
  unfold Js.double_gt, PrimFloat.is_nan.
  rewrite FloatAxioms.ltb_spec, FloatAxioms.eqb_spec.
  intros H. rewrite (SFeqb_refl_of_lt _ _ H). reflexivity.
Qed.

(** *** The spike rule *)

Lemma analyze_past_error_rate now metric w :
  let w' := pruneOld now (w ++ [metric]) in
  let values := responseTimes w' in
  (10 <= length w')%nat ->
  (errorRate w' <= 3 # 10)%Q ->
  fst (analyze now metric w) =
  match responseTime metric with
  | Some rt =>
      if (MIN_SAMPLES <=? length values)%nat && truthy (Some rt)
         && exceeds rt (mean values) (std values (mean values))
      then Some {| a_type := RESPONSE_TIME_SPIKE; a_severity := warning;
                   value := Double rt; baseline := Some (Double (mean values)) |}
      else None
  | None => None
  end.
Proof.
  intros w' values Hlen Herr.
  assert (H1 : (length w' <? MIN_SAMPLES)%nat = false).
  { apply Nat.ltb_ge. exact Hlen. }
  assert (H2 : Js.gt (errorRate w') (3 # 10) = false).
  { unfold Js.gt. apply negb_false_iff, Qle_bool_iff, Herr. }
  unfold errorRate in H2. unfold analyze, Js.push. cbv zeta.
  fold w'. rewrite H1, H2.
  destruct (responseTime metric) as [rt|];
    [|simpl truthy; rewrite andb_false_r; reflexivity].
  fold (responseTimes w'). fold values.
  destruct (MIN_SAMPLES <=? length values)%nat; [|reflexivity].
  destruct (truthy (Some rt)); [|reflexivity].
  cbn [andb]. destruct (exceeds _ _ _); reflexivity.
Qed.



(** *** The statements at sample inputs *)


Lemma window_pruned_then_warm_up_witness :
  let w := [sample 500 0 0] in
  let metric := sample 500 0 61000 in
  chronological (w ++ [metric]) /\
  timestamp (sample 500 0 0) = 61000 - 61000 /\
  snd (analyze 61000 metric w) = [metric] /\
  no_stale_left 61000 (snd (analyze 61000 metric w)) /\
  fst (analyze 61000 metric w) = None.
Proof.
  cbv zeta.
  destruct (window_pruned_then_warm_up 61000 (sample 500 0 61000) [sample 500 0 0])
    as (_ & _ & _ & Hc & Hfront & Hwarm).
  assert (C : chronological ([sample 500 0 0] ++ [sample 500 0 61000])).
  { unfold chronological. simpl. repeat constructor. simpl. lia. }
  assert (E : snd (analyze 61000 (sample 500 0 61000) [sample 500 0 0])
              = [sample 500 0 61000]).
  { rewrite (Hfront _ _ eq_refl eq_refl). reflexivity. }
  split; [exact C|]. split; [reflexivity|]. split; [exact E|].
  split; [exact (proj1 (Hc C))|].
  apply Hwarm. rewrite E. simpl. lia.
Defined.

End DetectorFacts.

(** * Further properties of the agent *)

Module AgentMore.
Import Agent AgentFacts.
Local Open Scope agent_scope.

(** *** [Array.from(new Set(...))] *)

Lemma set_from_acc (l acc : list Z) :
  NoDup acc ->
  NoDup (fold_left (fun acc x => if decide (x ∈ acc) then acc else acc ++ [x]) l acc) /\
  (forall x,
      x ∈ fold_left (fun acc x => if decide (x ∈ acc) then acc else acc ++ [x]) l acc
      <-> x ∈ acc \/ x ∈ l).
Proof.
  revert acc. induction l as [|y l IH]; intros acc Hacc; simpl.
  - split; [exact Hacc|]. intros x. rewrite elem_of_nil. tauto.
  - destruct (decide (y ∈ acc)) as [Hin|Hnin].
    + destruct (IH acc Hacc) as [Hn Hm]. split; [exact Hn|].
      intros x. rewrite Hm, elem_of_cons. split; [tauto|].
      intros [H|[->|H]]; auto.
    + assert (Hacc' : NoDup (acc ++ [y])).
      { apply NoDup_app. split; [exact Hacc|]. split.
        - intros x Hx Hy. apply list_elem_of_singleton in Hy. subst. contradiction.
        - apply NoDup_singleton. }
      destruct (IH _ Hacc') as [Hn Hm]. split; [exact Hn|].
      intros x. rewrite Hm, elem_of_app, list_elem_of_singleton, elem_of_cons. tauto.
Qed.

Lemma set_from_NoDup (l : list Z) : NoDup (Js.set_from l).
Proof. apply set_from_acc. constructor. Qed.

Lemma set_from_elem_of (l : list Z) (x : Z) : x ∈ Js.set_from l <-> x ∈ l.
Proof.
  unfold Js.set_from. rewrite (proj2 (set_from_acc l [] (NoDup_nil_2))).
  rewrite elem_of_nil. tauto.
Qed.

Lemma set_from_length (l : list Z) :
  length (Js.set_from l) = size (list_to_set l : gset Z).
Proof.
  rewrite <- (size_list_to_set (C := gset Z) (Js.set_from l)) by apply set_from_NoDup.
  f_equal. apply set_eq. intros x.
  rewrite !elem_of_list_to_set. apply set_from_elem_of.
Qed.

(** *** The other two health rules *)

Lemma pass_new_requests service config history w :
  cooldownActive (insightCache w !! cfg_url config) (clock w) = false ->
  new_requests w (exec (analyzeEndpointHealth service config history) w)
  = map (the_request (cfg_url config) (Js.slice_last 10 history))
      (fired (Js.slice_last 10 history)).
Proof.
  intros E. unfold exec.
  rewrite (analyzeEndpointHealth_expired _ _ _ _ E), for_each_fire. simpl.
  apply new_requests_app, pass_world_requests.
Qed.

Lemma in_the_requests u recentChecks (l : list string) (c : string) :
  In (the_request u recentChecks c) (map (the_request u recentChecks) l) <-> In c l.
Proof.
  rewrite in_map_iff. split.
  - intros [c' [Hc Hin]]. injection Hc as ->. exact Hin.
  - intros Hin. exists c. split; [reflexivity | exact Hin].
Qed.

Lemma slow_response_fired recentChecks :
  In "Slow response time detected"%string (fired recentChecks)
  <-> Js.gt (avgResponseTime recentChecks) (5000 # 1) = true.
Proof.
  unfold fired. rewrite !in_app_iff.
  repeat match goal with |- context [if ?b then _ else _] => destruct b end;
    simpl; split; intros H; try reflexivity; try discriminate; auto;
    repeat destruct H as [H|H]; try discriminate; try contradiction.
Qed.

Lemma unstable_status_fired recentChecks :
  In "Unstable status codes detected"%string (fired recentChecks)
  <-> (3 <? length (Js.set_from (map status recentChecks)))%nat = true.
Proof.
  unfold fired. rewrite !in_app_iff.
  repeat match goal with |- context [if ?b then _ else _] => destruct b end;
    simpl; split; intros H; try reflexivity; try discriminate; auto;
    repeat destruct H as [H|H]; try discriminate; try contradiction.
Qed.

Lemma avgResponseTime_gt recentChecks :
  Js.gt (avgResponseTime recentChecks) (5000 # 1) = true
  <-> 5000 * Z.of_nat (length recentChecks) < totalResponseTime recentChecks.
Proof.
  unfold avgResponseTime, totalResponseTime. destruct recentChecks as [|c l].
  - simpl. split; [discriminate | lia].
  - rewrite JsFacts.gt_div by (simpl length; lia). lia.
Qed.

(** X1.  With the cooldown over, the request for a "Slow response time
    detected" insight goes out exactly when the response times of the
    last [min 10 (length history)] results add up to more than 5000 times
    their number: a mean of exactly 5000 ms does not fire. *)
Theorem slow_response_rule service config history w :
  cooldownActive (insightCache w !! cfg_url config) (clock w) = false ->
  let recentChecks := Js.slice_last 10 history in
  let n := Z.of_nat (length recentChecks) in
  let fires :=
    In (the_request (cfg_url config) recentChecks "Slow response time detected")
      (new_requests w (exec (analyzeEndpointHealth service config history) w)) in
  (fires <-> 5000 * n < totalResponseTime recentChecks) /\
  (totalResponseTime recentChecks = 5000 * n -> ~ fires).
Proof.
  intros E rc n fires.
  assert (Hiff : fires <-> 5000 * n < totalResponseTime rc).
  { unfold fires. rewrite (pass_new_requests _ _ _ _ E). fold rc.
    rewrite in_the_requests, slow_response_fired. apply avgResponseTime_gt. }
  split; [exact Hiff|]. intros Heq. rewrite Hiff. lia.
Qed.

(** X2.  With the cooldown over, the request for an "Unstable status codes
    detected" insight goes out exactly when the last
    [min 10 (length history)] results show more than three different
    status codes. *)
Theorem unstable_status_rule service config history w :
  cooldownActive (insightCache w !! cfg_url config) (clock w) = false ->
  let recentChecks := Js.slice_last 10 history in
  In (the_request (cfg_url config) recentChecks "Unstable status codes detected")
    (new_requests w (exec (analyzeEndpointHealth service config history) w))
  <-> (3 < size (distinct_statuses recentChecks))%nat.
Proof.
  intros E rc. rewrite (pass_new_requests _ _ _ _ E). fold rc.
  rewrite in_the_requests, unstable_status_fired, Nat.ltb_lt.
  unfold distinct_statuses. rewrite set_from_length. reflexivity.
Qed.

(** *** The cooldown between passes *)

Section Passes.
Variable service : nat -> Reply.
Variable u : string.
Variable recentChecks : list EndpointCheckResult.

Lemma pass_world_snoc l c w :
  pass_world service u recentChecks (l ++ [c]) w
  = fire_world service u recentChecks c (pass_world service u recentChecks l w).
Proof. unfold pass_world. rewrite fold_left_app. reflexivity. Qed.

Lemma pass_world_cache_other l w u' :
  u' <> u ->
  insightCache (pass_world service u recentChecks l w) !! u' = insightCache w !! u'.
Proof.
  intros Hne. revert w. induction l as [|c l IH]; intros w; [reflexivity|].
  rewrite pass_world_cons, IH. simpl. apply lookup_insert_ne. congruence.
Qed.

Lemma pass_world_clock l w :
  (forall n, 0 <= elapsed (service n)) ->
  clock w <= clock (pass_world service u recentChecks l w).
Proof.
  intros Hpos. revert w. induction l as [|c l IH]; intros w; [simpl; lia|].
  rewrite pass_world_cons. specialize (IH (fire_world service u recentChecks c w)).
  simpl in IH. specialize (Hpos (length (requests w))). lia.
Qed.

Lemma pass_world_cache l w :
  (forall n, 0 <= elapsed (service n)) ->
  l <> [] ->
  exists t,
    insightCache (pass_world service u recentChecks l w) !! u = Some t /\
    clock w <= t <= clock (pass_world service u recentChecks l w).
Proof.
  intros Hpos Hne.
  destruct (exists_last Hne) as (l' & c & ->).
  rewrite pass_world_snoc.
  exists (clock (pass_world service u recentChecks l' w)). simpl.
  split; [apply lookup_insert_eq|].
  pose proof (pass_world_clock l' w Hpos).
  specialize (Hpos (length (requests (pass_world service u recentChecks l' w)))).
  lia.
Qed.

Lemma pass_world_insights l w :
  exists insights,
    emitted (pass_world service u recentChecks l w)
    = emitted w ++ map InsightEvent insights /\
    (length insights <= length l)%nat /\
    Forall (fun i => i_type i = alert /\ d_url (i_data i) = u /\
                     d_checks (i_data i) = recentChecks) insights.
Proof.
  revert w. induction l as [|c l IH]; intros w.
  - exists []. simpl. rewrite app_nil_r. repeat split; [lia | constructor].
  - destruct (IH (fire_world service u recentChecks c w)) as (ins & He & Hle & Hall).
    rewrite pass_world_cons, He. simpl.
    destruct (answer (service (length (requests w)))) as [ai|].
    + eexists (_ :: ins). rewrite <- app_assoc. simpl.
      split; [reflexivity|]. split; [lia|].
      constructor; [repeat split | exact Hall].
    + exists ins. rewrite app_nil_r. split; [reflexivity|]. split; [lia | exact Hall].
Qed.

End Passes.

(** X3.  A pass in which no rule holds leaves the cooldown untouched.  A
    pass in which some rule holds leaves, under the target's URL, the time
    of its last reset; that time lies within the pass.  Later passes for
    the target do nothing until five minutes after that time, and are
    evaluated again from then on.  The cooldown entries of other targets
    are not touched. *)
Theorem cooldown_after_alert service config history w :
  (forall n, 0 <= elapsed (service n)) ->
  cooldownActive (insightCache w !! cfg_url config) (clock w) = false ->
  let w' := exec (analyzeEndpointHealth service config history) w in
  (fired (Js.slice_last 10 history) = [] -> w' = w) /\
  (fired (Js.slice_last 10 history) <> [] ->
   exists t,
     insightCache w' !! cfg_url config = Some t /\
     clock w <= t <= clock w' /\
     forall dt history2,
       let w2 := exec (step service (Elapse dt)) w' in
       (clock w2 - t < 5 * 60 * 1000 ->
        analyzeEndpointHealth service config history2 w2 = (Returned tt, w2)) /\
       (5 * 60 * 1000 <= clock w2 - t ->
        analyzeEndpointHealth service config history2 w2
        = for_each (fired (Js.slice_last 10 history2))
            (fire service (cfg_url config) (Js.slice_last 10 history2)) w2)) /\
  (forall u', u' <> cfg_url config -> insightCache w' !! u' = insightCache w !! u').
Proof.
  intros Hpos E. cbv zeta.
  assert (Hw' : exec (analyzeEndpointHealth service config history) w
                = pass_world service (cfg_url config) (Js.slice_last 10 history)
                    (fired (Js.slice_last 10 history)) w).
  { unfold exec. rewrite (analyzeEndpointHealth_expired _ _ _ _ E), for_each_fire.
    reflexivity. }
  rewrite Hw'. clear Hw'.
  split; [|split].
  - intros ->. reflexivity.
  - intros Hne.
    destruct (pass_world_cache service (cfg_url config) (Js.slice_last 10 history)
                _ w Hpos Hne) as (t & Ht & Hb).
    exists t. split; [exact Ht|]. split; [exact Hb|].
    intros dt history2.
    set (w1 := pass_world _ _ _ _ _) in *.
    change (exec (step service (Elapse dt)) w1) with (with_clock (clock w1 + dt) w1).
    assert (Hc2 : insightCache (with_clock (clock w1 + dt) w1) !! cfg_url config = Some t)
      by exact Ht.
    split; intros Hc.
    + apply analyzeEndpointHealth_cooldown. rewrite Hc2. simpl.
      apply Z.ltb_lt. exact Hc.
    + apply analyzeEndpointHealth_expired. rewrite Hc2. simpl.
      apply Z.ltb_ge. exact Hc.
  - intros u' Hne. apply pass_world_cache_other. exact Hne.
Qed.

(** *** What a tick emits, and what a stopped agent does *)

Lemma recorded_snoc history r : exists h', recorded history r = h' ++ [r].
Proof.
  unfold recorded, Js.push, Js.shift. rewrite length_app. simpl.
  destruct (100 <? length history + 1)%nat eqn:E.
  - destruct history as [|x l]; [simpl in E; discriminate|].
    exists l. reflexivity.
  - exists history. reflexivity.
Qed.

Lemma tick_running service config r w :
  isRunning w = true ->
  exec (tick service config r) w
  = exec (analyzeEndpointHealth service config
            (recorded (default [] (endpointHistory w !! cfg_url config)) r))
      (with_emitted (fun l => l ++ [CheckCompleted r])
         (with_endpointHistory
            (insert (cfg_url config)
               (recorded (default [] (endpointHistory w !! cfg_url config)) r)) w)).
Proof.
  intros Hrun. unfold tick, probeReturns. rewrite exec_bind. simpl. rewrite Hrun. simpl.
  repeat (rewrite exec_bind; simpl). reflexivity.
Qed.

Lemma tick_stopped service config r w :
  isRunning w = false -> tick service config r w = (Returned tt, w).
Proof.
  intros H. unfold tick, probeReturns, bind, gets. simpl. rewrite H. reflexivity.
Qed.

(** X4.  On a running agent a tick emits the "check-completed" event for
    its probe first and exactly once, followed by at most three insights,
    all of type alert, about the tick's target and carrying the last (at
    most 10) results of its history, the new one included. *)
Theorem tick_events service config r w :
  isRunning w = true ->
  let history := recorded (default [] (endpointHistory w !! cfg_url config)) r in
  exists insights,
    new_events w (exec (tick service config r) w)
    = CheckCompleted r :: map InsightEvent insights /\
    (length insights <= 3)%nat /\
    Forall (fun i => i_type i = alert /\ d_url (i_data i) = cfg_url config /\
                     d_checks (i_data i) = Js.slice_last 10 history) insights /\
    last (Js.slice_last 10 history) = Some r.
Proof.
  intros Hrun history. rewrite (tick_running _ _ _ _ Hrun). fold history.
  set (w1 := with_emitted _ _).
  assert (Hlast : last (Js.slice_last 10 history) = Some r).
  { rewrite JsFacts.last_slice_last by lia.
    destruct (recorded_snoc (default [] (endpointHistory w !! cfg_url config)) r)
      as [h' Hh'].
    unfold history. rewrite Hh'. apply last_snoc. }
  destruct (cooldownActive (insightCache w1 !! cfg_url config) (clock w1)) eqn:E.
  - exists []. unfold exec. rewrite (analyzeEndpointHealth_cooldown _ _ _ _ E).
    split; [apply new_events_app; reflexivity|].
    split; [simpl; lia|]. split; [constructor | exact Hlast].
  - unfold exec. rewrite (analyzeEndpointHealth_expired _ _ _ _ E), for_each_fire.
    destruct (pass_world_insights service (cfg_url config) (Js.slice_last 10 history)
                (fired (Js.slice_last 10 history)) w1) as (ins & He & Hle & Hall).
    exists ins. simpl snd. split.
    + apply new_events_app. rewrite He. simpl. rewrite <- app_assoc. reflexivity.
    + pose proof (fired_length (Js.slice_last 10 history)).
      split; [lia|]. split; [exact Hall | exact Hlast].
Qed.

Lemma stopMonitoring_timers w id :
  timers (exec stopMonitoring w) !! id
  = if decide (id ∈ map snd (map_to_list (monitoringIntervals w)))
    then None else timers w !! id.
Proof.
  unfold stopMonitoring. simpl.
  repeat (rewrite exec_bind; simpl).
  change (exec (gets (fun w => map_to_list (monitoringIntervals w)))
            (exec (modify (with_isRunning false)) w))
    with (exec (modify (with_isRunning false)) w).
  rewrite clear_all_returns. simpl.
  rewrite clear_all_timers. reflexivity.
Qed.

Lemma step_stopped service op w :
  isRunning w = false ->
  (forall configs, op <> StartMonitoring configs) ->
  let w' := exec (step service op) w in
  isRunning w' = false /\
  endpointHistory w' = endpointHistory w /\
  insightCache w' = insightCache w /\
  emitted w' = emitted w /\
  requests w' = requests w /\
  (forall id config, timers w' !! id = Some config -> timers w !! id = Some config).
Proof.
  intros Hrun Hop.
  destruct op as [configs| |config|u|id r|dt]; simpl.
  - exfalso. exact (Hop configs eq_refl).
  - destruct (stopMonitoring_world w) as (H1 & _ & H3 & H4 & Hreg & Hother).
    simpl in *. split; [exact H1|]. split; [exact H3|]. split; [exact H4|].
    assert (Ke : keeps emitted stopMonitoring) by (unfold stopMonitoring; frame).
    assert (Kr : keeps requests stopMonitoring) by (unfold stopMonitoring; frame).
    split; [apply Ke|]. split; [apply Kr|].
    intros id config Hid. rewrite stopMonitoring_timers in Hid.
    destruct (decide _); [discriminate | exact Hid].
  - unfold exec. rewrite (addEndpoint_stopped config w Hrun). simpl.
    repeat split; auto.
  - destruct (removeEndpoint_world u w) as (H1 & H2 & H3 & _ & Ht).
    simpl in *. rewrite H1, H2, H3.
    assert (Ke : keeps emitted (removeEndpoint u)) by (unfold removeEndpoint; frame).
    assert (Kr : keeps requests (removeEndpoint u)) by (unfold removeEndpoint; frame).
    split; [exact Hrun|]. split; [reflexivity|]. split; [reflexivity|].
    split; [apply Ke|]. split; [apply Kr|].
    intros id config. rewrite Ht.
    destruct (monitoringIntervals w !! u) as [id'|]; [|auto].
    intros H. apply lookup_delete_Some in H. tauto.
  - rewrite exec_bind. simpl. destruct (timers w !! id) as [config|].
    + unfold exec. rewrite (tick_stopped _ _ _ _ Hrun). simpl. repeat split; auto.
    + repeat split; auto.
  - repeat split; auto.
Qed.


(** *** The timer registry *)

Lemma tick_keeps {B} (f : World -> B) service config r :
  (forall w g, f (with_endpointHistory g w) = f w) ->
  (forall w t, f (with_clock t w) = f w) ->
  (forall w g, f (with_requests g w) = f w) ->
  (forall w g, f (with_emitted g w) = f w) ->
  (forall w g, f (with_insightCache g w) = f w) ->
  keeps f (tick service config r).
Proof.
  intros Hh Hc Hr He Hi. unfold tick, probeReturns.
  apply keeps_bind; [apply keeps_gets | intros running].
  apply keeps_if; [apply keeps_ret|].
  apply keeps_bind; [apply keeps_gets | intros history].
  apply keeps_bind; [apply keeps_modify; intros w; apply Hh | intros _].
  apply keeps_bind; [apply keeps_modify; intros w; apply He | intros _].
  apply analyzeEndpointHealth_keeps; assumption.
Qed.

Lemma monitorEndpoint_consistent config w :
  registry_consistent w -> registry_consistent (exec (monitorEndpoint config) w).
Proof.
  intros [Hreg Hfresh].
  unfold monitorEndpoint, setInterval, exec, bind, modify. simpl. split; simpl.
  - intros u id Hu.
    destruct (decide (cfg_url config = u)) as [<-|Hne].
    + rewrite lookup_insert_eq in Hu. injection Hu as <-.
      exists config. split; [apply lookup_insert_eq | reflexivity].
    + rewrite lookup_insert_ne in Hu by exact Hne.
      destruct (Hreg u id Hu) as (c & Hc & Hcu).
      exists c. split; [|exact Hcu].
      rewrite lookup_insert_ne; [exact Hc|].
      specialize (Hfresh id c Hc). lia.
  - intros id c Hc.
    destruct (decide (nextTimer w = id)) as [<-|Hne]; [lia|].
    rewrite lookup_insert_ne in Hc by exact Hne.
    specialize (Hfresh id c Hc). lia.
Qed.

Lemma monitor_all_consistent configs w :
  registry_consistent w ->
  registry_consistent (exec (for_each configs monitorEndpoint) w).
Proof.
  revert w. induction configs as [|c configs IH]; intros w Hw; [exact Hw|].
  simpl for_each. rewrite exec_bind.
  change (result (monitorEndpoint c) w) with (@Returned unit tt). cbv beta iota.
  apply IH, monitorEndpoint_consistent, Hw.
Qed.

Lemma removeEndpoint_consistent u w :
  registry_consistent w -> registry_consistent (exec (removeEndpoint u) w).
Proof.
  intros [Hreg Hfresh].
  destruct (removeEndpoint_world u w) as (_ & _ & _ & Hm & Ht).
  assert (Hn : nextTimer (exec (removeEndpoint u) w) = nextTimer w).
  { assert (K : keeps nextTimer (removeEndpoint u)) by (unfold removeEndpoint; frame).
    apply K. }
  simpl in Hm, Ht. split.
  - intros u' id' Hu'. rewrite Hm in Hu'.
    apply lookup_delete_Some in Hu'. destruct Hu' as [Hne Hu'].
    destruct (Hreg u' id' Hu') as (c' & Hc' & Hcu').
    exists c'. split; [|exact Hcu']. rewrite Ht.
    destruct (monitoringIntervals w !! u) as [id|] eqn:Eu; [|exact Hc'].
    rewrite lookup_delete_ne; [exact Hc'|].
    intros ->. destruct (Hreg u id' Eu) as (c & Hc & Hcu). congruence.
  - intros id c. rewrite Ht, Hn.
    destruct (monitoringIntervals w !! u) as [id0|]; [|apply Hfresh].
    intros H. apply lookup_delete_Some in H. apply (Hfresh id c), H.
Qed.

Lemma stopMonitoring_consistent w :
  registry_consistent w -> registry_consistent (exec stopMonitoring w).
Proof.
  intros [Hreg Hfresh].
  destruct (stopMonitoring_world w) as (_ & Hm & _).
  assert (Hn : nextTimer (exec stopMonitoring w) = nextTimer w).
  { assert (K : keeps nextTimer stopMonitoring) by (unfold stopMonitoring; frame).
    apply K. }
  simpl in Hm. split.
  - intros u id. rewrite Hm, lookup_empty. discriminate.
  - intros id c. rewrite stopMonitoring_timers, Hn.
    destruct (decide _); [discriminate | apply Hfresh].
Qed.

Lemma step_consistent service op w :
  registry_consistent w -> registry_consistent (exec (step service op) w).
Proof.
  intros Hw. destruct op as [configs| |config|u|id r|dt]; simpl.
  - unfold startMonitoring. rewrite exec_bind. simpl.
    apply monitor_all_consistent. exact Hw.
  - apply stopMonitoring_consistent, Hw.
  - unfold addEndpoint. rewrite exec_bind. simpl.
    destruct (isRunning w); simpl; [apply monitorEndpoint_consistent, Hw | exact Hw].
  - apply removeEndpoint_consistent, Hw.
  - rewrite exec_bind. simpl. destruct (timers w !! id) as [config|]; [|exact Hw].
    destruct Hw as [Hreg Hfresh]. split.
    + intros u id'.
      rewrite (tick_keeps monitoringIntervals service config r) by reflexivity.
      rewrite (tick_keeps timers service config r) by reflexivity. apply Hreg.
    + intros id' c.
      rewrite (tick_keeps timers service config r) by reflexivity.
      rewrite (tick_keeps nextTimer service config r) by reflexivity. apply Hfresh.
  - exact Hw.
Qed.

Lemma run_consistent service ops w :
  registry_consistent w -> registry_consistent (run service ops w).
Proof.
  revert w. induction ops as [|op ops IH]; intros w Hw; [exact Hw|].
  simpl. apply IH, step_consistent, Hw.
Qed.

Lemma new_agent_consistent t : registry_consistent (new_agent t).
Proof.
  split; simpl; intros ? ?; rewrite lookup_empty; discriminate.
Qed.

(** X6.  Whatever has happened to an agent since its creation, every URL
    in its timer registry has a live timer whose callback probes that
    URL, and removing one URL leaves the registration and the timer of
    every other URL in place. *)
Theorem registry_stays_consistent service t ops :
  let w := run service ops (new_agent t) in
  registry_consistent w /\
  (forall u u' id',
      u' <> u ->
      monitoringIntervals w !! u' = Some id' ->
      monitoringIntervals (exec (removeEndpoint u) w) !! u' = Some id' /\
      exists config,
        timers (exec (removeEndpoint u) w) !! id' = Some config /\
        cfg_url config = u').
Proof.
  cbv zeta.
  pose proof (run_consistent service ops _ (new_agent_consistent t)) as Hw.
  split; [exact Hw|].
  intros u u' id' Hne Hu'.
  pose proof (removeEndpoint_consistent u _ Hw) as [Hreg' _].
  destruct (removeEndpoint_world u (run service ops (new_agent t)))
    as (_ & _ & _ & Hm & _).
  simpl in Hm.
  assert (H : monitoringIntervals (exec (removeEndpoint u) (run service ops (new_agent t)))
              !! u' = Some id').
  { rewrite Hm, lookup_delete_ne; [exact Hu' | congruence]. }
  split; [exact H | exact (Hreg' u' id' H)].
Qed.

(** X7.  Registering a URL that is already registered starts a second
    timer and forgets the handle of the first: after [removeEndpoint] the
    URL is gone from the registry, but the first timer is still live, and
    its next tick records a probe of the removed URL. *)
Theorem second_registration_leaks_timer service config r w :
  isRunning w = true ->
  let id := nextTimer w in
  let w' := exec (addEndpoint config ;; addEndpoint config ;;
                  removeEndpoint (cfg_url config)) w in
  result (addEndpoint config ;; addEndpoint config ;;
          removeEndpoint (cfg_url config)) w = Returned tt /\
  monitoringIntervals w' !! cfg_url config = None /\
  timers w' !! id = Some config /\
  timers w' !! S id = None /\
  endpointHistory (exec (step service (Tick id r)) w') !! cfg_url config
  = Some (recorded (default [] (endpointHistory w !! cfg_url config)) r).
Proof.
  intros Hrun. cbv zeta.
  unfold addEndpoint, monitorEndpoint, setInterval, removeEndpoint, clearInterval,
    result, exec, bind, gets, modify, ret. simpl.
  rewrite !Hrun. simpl. rewrite !Hrun. simpl. rewrite !lookup_insert_eq. simpl.
  assert (Ht : delete (S (nextTimer w))
                 (<[S (nextTimer w) := config]> (<[nextTimer w := config]> (timers w)))
               !! nextTimer w = Some config).
  { rewrite lookup_delete_ne by lia. rewrite lookup_insert_ne by lia.
    apply lookup_insert_eq. }
  split; [reflexivity|].
  split; [apply lookup_delete_eq|].
  split; [exact Ht|].
  split; [apply lookup_delete_eq|].
  match goal with |- context [snd (?m ?x)] => set (w1 := x) end.
  change (endpointHistory (exec (step service (Tick (nextTimer w) r)) w1)
          !! cfg_url config
          = Some (recorded (default [] (endpointHistory w !! cfg_url config)) r)).
  rewrite step_history.
  change (timers w1 !! nextTimer w)
    with (delete (S (nextTimer w))
            (<[S (nextTimer w) := config]> (<[nextTimer w := config]> (timers w)))
          !! nextTimer w).
  rewrite Ht, tick_history.
  change (isRunning w1) with (isRunning w). rewrite Hrun.
  apply lookup_insert_eq.
Qed.

(** *** The statistics of one target *)

Lemma filter_success_le (history : list EndpointCheckResult) :
  (length (List.filter success history) <= length history)%nat.
Proof. apply List.filter_length_le. Qed.

Lemma filter_success_all (history : list EndpointCheckResult) :
  length (List.filter success history) = length history
  <-> Forall (fun c => success c = true) history.
Proof.
  induction history as [|c l IH]; simpl.
  - split; [constructor | reflexivity].
  - pose proof (filter_success_le l) as Hle. destruct (success c) eqn:E; simpl.
    + split.
      * intros H. constructor; [exact E | apply IH; lia].
      * intros H. inversion H; subst. f_equal. apply IH. assumption.
    + split; [lia|]. intros H. inversion H; subst. congruence.
Qed.

Lemma percentage_bounds_Z (z : Z) (p : positive) :
  0 <= z <= Z.pos p ->
  (0 <= Js.div z (Z.pos p) * (100 # 1)
   /\ Js.div z (Z.pos p) * (100 # 1) <= 100 # 1
   /\ (Js.div z (Z.pos p) * (100 # 1) == 100 # 1 <-> z = Z.pos p))%Q.
Proof.
  intros Hz.
  unfold Js.div, Qdiv, Qinv, Qmult, Qle, Qeq, inject_Z. simpl.
  rewrite ?Pos2Z.inj_mul, ?Z.mul_1_r. repeat split; nia.
Qed.

Lemma percentage_bounds (k n : nat) :
  (0 < n)%nat -> (k <= n)%nat ->
  (0 <= Js.div (Z.of_nat k) (Z.of_nat n) * (100 # 1)
   /\ Js.div (Z.of_nat k) (Z.of_nat n) * (100 # 1) <= 100 # 1
   /\ (Js.div (Z.of_nat k) (Z.of_nat n) * (100 # 1) == 100 # 1 <-> k = n))%Q.
Proof.
  intros Hn Hk.
  destruct (Z.of_nat n) as [|pn|pn] eqn:En; try lia.
  destruct (percentage_bounds_Z (Z.of_nat k) pn) as (H0 & H1 & H2); [lia|].
  split; [exact H0|]. split; [exact H1|]. rewrite H2. lia.
Qed.

(** X8.  For a target with recorded history [getEndpointStats] reports
    the number of recorded results as [totalChecks], a success rate
    between 0 and 100 that is 100 exactly when every recorded probe
    succeeded, and as [statusCodes] every status code of the history
    once.  On an agent run from its creation [totalChecks] is at most
    100. *)
Theorem getEndpointStats_summary u w h :
  endpointHistory w !! u = Some h -> h <> [] ->
  exists st,
    getEndpointStats u w = Some st /\
    s_url st = u /\
    totalChecks st = length h /\
    (0 <= successRate st /\ successRate st <= 100 # 1)%Q /\
    ((successRate st == 100 # 1)%Q <-> Forall (fun c => success c = true) h) /\
    NoDup (statusCodes st) /\
    (forall code, code ∈ statusCodes st <-> exists c, c ∈ h /\ status c = code) /\
    (forall service t ops, w = run service ops (new_agent t) ->
       (totalChecks st <= 100)%nat).
Proof.
  intros Hh Hne. unfold getEndpointStats. rewrite Hh. simpl default.
  destruct (length h =? 0)%nat eqn:E.
  { apply Nat.eqb_eq in E. destruct h; [contradiction | discriminate]. }
  apply Nat.eqb_neq in E.
  eexists. split; [reflexivity|]. cbn [s_url totalChecks successRate statusCodes].
  destruct (percentage_bounds (length (List.filter success h)) (length h))
    as (H0 & H100 & Hall); [lia | apply filter_success_le |].
  split; [reflexivity|]. split; [reflexivity|].
  split; [split; assumption|].
  split; [rewrite Hall; apply filter_success_all|].
  split; [apply set_from_NoDup|].
  split.
  - intros code. rewrite set_from_elem_of, list_elem_of_fmap. split.
    + intros (c & -> & Hc). exists c. auto.
    + intros (c & Hc & <-). exists c. auto.
  - intros service t ops ->.
    exact (run_bounded service ops _ (new_agent_bounded t) u h Hh).
Qed.

(** *** A service that fails *)

Lemma pass_world_silent service u recentChecks l w :
  (forall n, answer (service n) = None) ->
  emitted (pass_world service u recentChecks l w) = emitted w.
Proof.
  intros Hs. revert w. induction l as [|c l IH]; intros w; [reflexivity|].
  rewrite pass_world_cons, IH. simpl. rewrite Hs. apply app_nil_r.
Qed.

(** X19.  When the service's replies cannot be used, a pass in which
    some rule holds emits no insight, yet it sends one request per rule
    that holds and resets the cooldown: the next pass for the target is
    suppressed as long as less than five minutes have gone by since the
    reset, although nothing was reported. *)
Theorem failed_generation_consumes_cooldown service config history w :
  (forall n, answer (service n) = None) ->
  (forall n, 0 <= elapsed (service n)) ->
  cooldownActive (insightCache w !! cfg_url config) (clock w) = false ->
  fired (Js.slice_last 10 history) <> [] ->
  let w' := exec (analyzeEndpointHealth service config history) w in
  emitted w' = emitted w /\
  length (new_requests w w') = length (fired (Js.slice_last 10 history)) /\
  exists t,
    insightCache w' !! cfg_url config = Some t /\
    clock w <= t <= clock w' /\
    forall history2,
      clock w' - t < 5 * 60 * 1000 ->
      analyzeEndpointHealth service config history2 w' = (Returned tt, w').
Proof.
  intros Hs Hpos E Hne. cbv zeta.
  rewrite (pass_new_requests _ _ _ _ E), length_map.
  assert (Hw' : exec (analyzeEndpointHealth service config history) w
                = pass_world service (cfg_url config) (Js.slice_last 10 history)
                    (fired (Js.slice_last 10 history)) w).
  { unfold exec. rewrite (analyzeEndpointHealth_expired _ _ _ _ E), for_each_fire.
    reflexivity. }
  rewrite Hw'. clear Hw'.
  split; [apply pass_world_silent, Hs|]. split; [reflexivity|].
  destruct (pass_world_cache service (cfg_url config) (Js.slice_last 10 history)
              _ w Hpos Hne) as (t & Ht & Hb).
  exists t. split; [exact Ht|]. split; [exact Hb|].
  intros history2 Hc. apply analyzeEndpointHealth_cooldown.
  rewrite Ht. simpl. apply Z.ltb_lt. exact Hc.
Qed.

(** *** One target at a time *)

(** X20.  A timer callback touches the state of its own target only: the
    histories and cooldown entries of all other URLs, the timer registry,
    the timers and the running flag are as before. *)
Theorem tick_touches_one_target service config r w :
  let w' := exec (tick service config r) w in
  (forall u', u' <> cfg_url config ->
     endpointHistory w' !! u' = endpointHistory w !! u' /\
     insightCache w' !! u' = insightCache w !! u') /\
  monitoringIntervals w' = monitoringIntervals w /\
  timers w' = timers w /\
  nextTimer w' = nextTimer w /\
  isRunning w' = isRunning w.
Proof.
  cbv zeta. split; [|repeat split; apply tick_keeps; reflexivity].
  intros u' Hne. split.
  - rewrite tick_history. destruct (isRunning w); [|reflexivity].
    apply lookup_insert_ne. congruence.
  - destruct (isRunning w) eqn:Hrun.
    + rewrite (tick_running _ _ _ _ Hrun).
      set (history := recorded _ _). set (w1 := with_emitted _ _).
      change (insightCache w) with (insightCache w1).
      destruct (cooldownActive (insightCache w1 !! cfg_url config) (clock w1)) eqn:E.
      * unfold exec. rewrite (analyzeEndpointHealth_cooldown _ _ _ _ E). reflexivity.
      * unfold exec. rewrite (analyzeEndpointHealth_expired _ _ _ _ E), for_each_fire.
        apply pass_world_cache_other. exact Hne.
    + unfold exec. rewrite (tick_stopped _ _ _ _ Hrun). reflexivity.
Qed.

(** *** The history is the tail of the probe results *)

Lemma slice_last_app_slice_last {A} (n : nat) (a b : list A) :
  Js.slice_last n (Js.slice_last n a ++ b) = Js.slice_last n (a ++ b).
Proof.
  destruct (decide (length a <= n)%nat) as [Hle|Hgt].
  - rewrite (JsFacts.slice_last_short n a Hle). reflexivity.
  - unfold Js.slice_last. rewrite !length_app, length_drop.
    replace (length a - (length a - n) + length b - n)%nat with (length b) by lia.
    replace (length a + length b - n)%nat with ((length a - n) + length b)%nat by lia.
    rewrite <- drop_drop.
    rewrite (drop_app_le a b (length a - n)) by lia. reflexivity.
Qed.

Lemma recorded_slice_last history r :
  (length history <= 100)%nat ->
  recorded history r = Js.slice_last 100 (history ++ [r]).
Proof.
  intros Hlen. unfold recorded, Js.push, Js.shift, Js.slice_last.
  rewrite length_app. simpl.
  destruct (100 <? length history + 1)%nat eqn:E.
  - apply Nat.ltb_lt in E.
    replace (length history + 1 - 100)%nat with 1%nat by lia.
    destruct history; reflexivity.
  - apply Nat.ltb_ge in E.
    replace (length history + 1 - 100)%nat with 0%nat by lia. reflexivity.
Qed.

Lemma ticks_cons service config r rs w :
  ticks service config (r :: rs) w
  = ticks service config rs (exec (tick service config r) w).
Proof. reflexivity. Qed.

Lemma ticks_history service config results w :
  isRunning w = true ->
  results <> [] ->
  (length (default [] (endpointHistory w !! cfg_url config)) <= 100)%nat ->
  endpointHistory (ticks service config results w) !! cfg_url config
  = Some (Js.slice_last 100
            (default [] (endpointHistory w !! cfg_url config) ++ results)).
Proof.
  revert w. induction results as [|r rs IH]; intros w Hrun Hne Hlen;
    [contradiction|].
  rewrite ticks_cons.
  set (w1 := exec (tick service config r) w).
  assert (Hh1 : endpointHistory w1 !! cfg_url config
                = Some (Js.slice_last 100
                          (default [] (endpointHistory w !! cfg_url config) ++ [r]))).
  { unfold w1. rewrite tick_history, Hrun, lookup_insert_eq.
    rewrite recorded_slice_last by exact Hlen. reflexivity. }
  destruct rs as [|r2 rs'].
  - exact Hh1.
  - assert (Hrun1 : isRunning w1 = true).
    { unfold w1. rewrite (tick_keeps isRunning) by reflexivity. exact Hrun. }
    rewrite IH.
    + rewrite Hh1. simpl default. rewrite slice_last_app_slice_last.
      rewrite <- app_assoc. reflexivity.
    + exact Hrun1.
    + discriminate.
    + rewrite Hh1. simpl default. rewrite JsFacts.length_slice_last. lia.
Qed.

Lemma slice_last_app {A} (n : nat) (a b : list A) :
  (n <= length b)%nat -> Js.slice_last n (a ++ b) = Js.slice_last n b.
Proof.
  intros H. unfold Js.slice_last. rewrite length_app.
  replace (length a + length b - n)%nat with (length a + (length b - n))%nat by lia.
  apply drop_app_add'. reflexivity.
Qed.

(** X21.  On a running agent, after the callbacks of a target's timer
    have recorded the results [results], the target's history is the
    last 100 entries of the earlier history followed by [results], in
    order of arrival: nothing but the oldest entries is ever dropped, and
    once 100 results have come in nothing of the earlier history is
    left. *)
Theorem history_holds_last_hundred service config results w :
  isRunning w = true ->
  results <> [] ->
  (length (default [] (endpointHistory w !! cfg_url config)) <= 100)%nat ->
  endpointHistory (ticks service config results w) !! cfg_url config
  = Some (Js.slice_last 100
            (default [] (endpointHistory w !! cfg_url config) ++ results)) /\
  ((100 <= length results)%nat ->
   endpointHistory (ticks service config results w) !! cfg_url config
   = Some (Js.slice_last 100 results)).
Proof.
  intros Hrun Hne Hlen.
  pose proof (ticks_history service config results w Hrun Hne Hlen) as H.
  split; [exact H|].
  intros H100. rewrite H, slice_last_app by exact H100. reflexivity.
Qed.

(** *** Events along a run *)

Lemma insight_count_app (a b : list Event) :
  insight_count (a ++ b) = (insight_count a + insight_count b)%nat.
Proof. unfold insight_count. rewrite List.filter_app, length_app. reflexivity. Qed.

Lemma check_count_app (a b : list Event) :
  check_count (a ++ b) = (check_count a + check_count b)%nat.
Proof. unfold check_count. rewrite List.filter_app, length_app. reflexivity. Qed.

Lemma count_insights (insights : list AnalyticsInsight) :
  insight_count (map InsightEvent insights) = length insights /\
  check_count (map InsightEvent insights) = 0%nat.
Proof.
  induction insights as [|i l [IH1 IH2]]; [split; reflexivity|].
  unfold insight_count, check_count in *. simpl. rewrite IH1, IH2.
  split; reflexivity.
Qed.

Lemma tick_emitted service config r w :
  isRunning w = true ->
  exists insights,
    emitted (exec (tick service config r) w)
    = emitted w ++ CheckCompleted r :: map InsightEvent insights /\
    (length insights <= 3)%nat.
Proof.
  intros Hrun. rewrite (tick_running _ _ _ _ Hrun).
  set (history := recorded _ _). set (w1 := with_emitted _ _).
  destruct (cooldownActive (insightCache w1 !! cfg_url config) (clock w1)) eqn:E.
  - exists []. unfold exec. rewrite (analyzeEndpointHealth_cooldown _ _ _ _ E).
    split; [reflexivity | simpl; lia].
  - unfold exec. rewrite (analyzeEndpointHealth_expired _ _ _ _ E), for_each_fire.
    destruct (pass_world_insights service (cfg_url config) (Js.slice_last 10 history)
                (fired (Js.slice_last 10 history)) w1) as (ins & He & Hle & _).
    exists ins. simpl snd. rewrite He. simpl. rewrite <- app_assoc.
    split; [reflexivity|].
    pose proof (fired_length (Js.slice_last 10 history)). lia.
Qed.

Lemma step_emitted service op w :
  exists events,
    emitted (exec (step service op) w) = emitted w ++ events /\
    (insight_count events <= 3 * check_count events)%nat /\
    (check_count events <= 1)%nat.
Proof.
  assert (Hnone : forall w', emitted w' = emitted w ->
            exists events, emitted w' = emitted w ++ events /\
              (insight_count events <= 3 * check_count events)%nat /\
              (check_count events <= 1)%nat).
  { intros w' H. exists []. rewrite app_nil_r.
    split; [exact H|]. split; [reflexivity | unfold check_count; simpl; lia]. }
  destruct op as [configs| |config|u|id r|dt]; simpl.
  - assert (K : keeps emitted (startMonitoring configs))
      by (unfold startMonitoring, monitorEndpoint; frame).
    apply Hnone, K.
  - assert (K : keeps emitted stopMonitoring) by (unfold stopMonitoring; frame).
    apply Hnone, K.
  - assert (K : keeps emitted (addEndpoint config))
      by (unfold addEndpoint, monitorEndpoint; frame).
    apply Hnone, K.
  - assert (K : keeps emitted (removeEndpoint u)) by (unfold removeEndpoint; frame).
    apply Hnone, K.
  - rewrite exec_bind. simpl. destruct (timers w !! id) as [config|];
      [|apply Hnone; reflexivity].
    destruct (isRunning w) eqn:Hrun.
    + destruct (tick_emitted service config r w Hrun) as (ins & He & Hle).
      exists (CheckCompleted r :: map InsightEvent ins). split; [exact He|].
      destruct (count_insights ins) as [Hi Hc].
      change (CheckCompleted r :: map InsightEvent ins)
        with ([CheckCompleted r] ++ map InsightEvent ins).
      rewrite insight_count_app, check_count_app, Hi, Hc.
      unfold insight_count, check_count. simpl. lia.
    + apply Hnone. unfold exec. rewrite (tick_stopped _ _ _ _ Hrun). reflexivity.
  - apply Hnone. reflexivity.
Qed.

Lemma run_emitted service ops w :
  exists events,
    emitted (run service ops w) = emitted w ++ events /\
    (insight_count events <= 3 * check_count events)%nat /\
    (check_count events <= length ops)%nat.
Proof.
  revert w. induction ops as [|op ops IH]; intros w.
  - exists []. simpl. rewrite app_nil_r.
    split; [reflexivity|]. split; [reflexivity | unfold check_count; simpl; lia].
  - destruct (step_emitted service op w) as (e1 & He1 & Hi1 & Hc1).
    destruct (IH (exec (step service op) w)) as (e2 & He2 & Hi2 & Hc2).
    exists (e1 ++ e2). simpl run. rewrite He2, He1, <- app_assoc.
    split; [reflexivity|].
    rewrite insight_count_app, check_count_app. simpl length. lia.
Qed.

(** X24.  Along any sequence of operations the events emitted so far are
    never changed, only extended; among the new events there are at most
    three insights for every completed probe, and at most one completed
    probe for every operation. *)
Theorem insights_bounded_by_probes service ops w :
  let events := new_events w (run service ops w) in
  emitted (run service ops w) = emitted w ++ events /\
  (insight_count events <= 3 * check_count events)%nat /\
  (check_count events <= length ops)%nat.
Proof.
  cbv zeta. destruct (run_emitted service ops w) as (events & He & Hi & Hc).
  rewrite (new_events_app _ _ _ He). split; [exact He|]. split; [exact Hi | exact Hc].
Qed.

(** *** A stopped agent, and a probe still in flight *)

Lemma probeReturns_exec service config r w :
  exec (probeReturns service config r) w
  = exec (analyzeEndpointHealth service config
            (recorded (default [] (endpointHistory w !! cfg_url config)) r))
      (with_emitted (fun l => l ++ [CheckCompleted r])
         (with_endpointHistory
            (insert (cfg_url config)
               (recorded (default [] (endpointHistory w !! cfg_url config)) r)) w)).
Proof.
  unfold probeReturns. repeat (rewrite exec_bind; simpl). reflexivity.
Qed.

Lemma probeReturns_recorded service config r w :
  let w' := exec (probeReturns service config r) w in
  isRunning w' = isRunning w /\
  endpointHistory w' !! cfg_url config
  = Some (recorded (default [] (endpointHistory w !! cfg_url config)) r) /\
  exists insights,
    new_events w w' = CheckCompleted r :: map InsightEvent insights.
Proof.
  cbv zeta. rewrite probeReturns_exec.
  set (history := recorded _ _). set (w1 := with_emitted _ _).
  split; [|split].
  - rewrite (analyzeEndpointHealth_keeps service isRunning) by reflexivity. reflexivity.
  - rewrite (analyzeEndpointHealth_keeps service endpointHistory) by reflexivity.
    apply lookup_insert_eq.
  - destruct (cooldownActive (insightCache w1 !! cfg_url config) (clock w1)) eqn:E.
    + exists []. unfold exec. rewrite (analyzeEndpointHealth_cooldown _ _ _ _ E).
      apply new_events_app. reflexivity.
    + unfold exec. rewrite (analyzeEndpointHealth_expired _ _ _ _ E), for_each_fire.
      destruct (pass_world_insights service (cfg_url config) (Js.slice_last 10 history)
                  (fired (Js.slice_last 10 history)) w1) as (ins & He & _).
      exists ins. simpl snd. apply new_events_app. rewrite He. simpl.
      rewrite <- app_assoc. reflexivity.
Qed.

Lemma happen_stopped service h s :
  isRunning (agent s) = false ->
  inflight s = [] ->
  (forall configs, h <> Call (StartMonitoring configs)) ->
  let s' := happen service h s in
  isRunning (agent s') = false /\
  inflight s' = [] /\
  endpointHistory (agent s') = endpointHistory (agent s) /\
  insightCache (agent s') = insightCache (agent s) /\
  emitted (agent s') = emitted (agent s) /\
  requests (agent s') = requests (agent s) /\
  (forall id config,
      timers (agent s') !! id = Some config -> timers (agent s) !! id = Some config).
Proof.
  intros Hrun Hfl Hh. destruct h as [op|id|k r]; simpl.
  - destruct (step_stopped service op (agent s) Hrun) as (H1 & H2 & H3 & H4 & H5 & H6).
    { intros configs ->. exact (Hh configs eq_refl). }
    repeat split; assumption.
  - destruct (timers (agent s) !! id); [rewrite Hrun; simpl|]; repeat split; auto.
  - rewrite Hfl. simpl. repeat split; auto.
Qed.

Lemma happenings_stopped service hs s :
  isRunning (agent s) = false ->
  inflight s = [] ->
  Forall (fun h => forall configs, h <> Call (StartMonitoring configs)) hs ->
  let s' := happenings service hs s in
  isRunning (agent s') = false /\
  inflight s' = [] /\
  endpointHistory (agent s') = endpointHistory (agent s) /\
  insightCache (agent s') = insightCache (agent s) /\
  emitted (agent s') = emitted (agent s) /\
  requests (agent s') = requests (agent s) /\
  (forall id config,
      timers (agent s') !! id = Some config -> timers (agent s) !! id = Some config).
Proof.
  intros Hrun Hfl Hhs. revert s Hrun Hfl.
  induction Hhs as [|h hs Hh _ IH]; intros s Hrun Hfl.
  - simpl. repeat split; auto.
  - destruct (happen_stopped service h s Hrun Hfl Hh) as (H1 & H0 & H2 & H3 & H4 & H5 & H6).
    destruct (IH _ H1 H0) as (I1 & I0 & I2 & I3 & I4 & I5 & I6).
    cbv zeta in *. simpl happenings.
    rewrite I2, I3, I4, I5, H2, H3, H4, H5.
    repeat split; auto.
Qed.


(** *** Reading back what a tick recorded *)

(** X25.  The probe a tick has just recorded is what [getEndpointStats]
    reports as [lastCheck] for the target, it is the last of the
    [recentChecks], and [totalChecks] has grown by one unless it had
    reached 100. *)
Theorem probe_is_reported_last service config r w :
  isRunning w = true ->
  (length (default [] (endpointHistory w !! cfg_url config)) <= 100)%nat ->
  exists st,
    getEndpointStats (cfg_url config) (exec (tick service config r) w) = Some st /\
    lastCheck st = Some r /\
    last (recentChecks st) = Some r /\
    totalChecks st
    = (S (length (default [] (endpointHistory w !! cfg_url config))) `min` 100)%nat.
Proof.
  intros Hrun Hlen. unfold getEndpointStats.
  rewrite tick_history, Hrun, lookup_insert_eq. simpl default.
  set (h := default [] (endpointHistory w !! cfg_url config)) in *.
  destruct (recorded_snoc h r) as [h' Hh'].
  assert (Hn : length (recorded h r) = (S (length h) `min` 100)%nat).
  { rewrite recorded_slice_last by exact Hlen.
    rewrite JsFacts.length_slice_last, length_app. simpl. lia. }
  destruct (length (recorded h r) =? 0)%nat eqn:E.
  { apply Nat.eqb_eq in E. lia. }
  eexists. split; [reflexivity|]. cbn [lastCheck recentChecks totalChecks].
  split; [|split; [|exact Hn]].
  - replace (length (recorded h r) - 1)%nat with (pred (length (recorded h r))) by lia.
    rewrite <- last_lookup, Hh'. apply last_snoc.
  - rewrite JsFacts.last_slice_last by lia. rewrite Hh'. apply last_snoc.
Qed.


(** *** The statements at sample inputs *)

Lemma slow_response_rule_witness :
  cooldownActive (insightCache (new_agent 5000) !! cfg_url sample_config)
    (clock (new_agent 5000)) = false /\
  In (the_request sample_url burst_history "Slow response time detected")
    (new_requests (new_agent 5000)
       (exec (analyzeEndpointHealth answering sample_config burst_history)
          (new_agent 5000))) /\
  ~ In (the_request sample_url (ten_checks 3) "Slow response time detected")
      (new_requests (new_agent 5000)
         (exec (analyzeEndpointHealth answering sample_config (ten_checks 3))
            (new_agent 5000))).
Proof.
  assert (H : cooldownActive (insightCache (new_agent 5000) !! cfg_url sample_config)
                (clock (new_agent 5000)) = false) by (vm_compute; reflexivity).
  split; [exact H|]. split.
  - apply (proj1 (slow_response_rule answering sample_config burst_history
                    (new_agent 5000) H)).
    vm_compute. reflexivity.
  - intros Hin.
    apply (proj1 (slow_response_rule answering sample_config (ten_checks 3)
                    (new_agent 5000) H)) in Hin.
    vm_compute in Hin. discriminate.
Defined.

Lemma unstable_status_rule_witness :
  cooldownActive (insightCache (new_agent 5000) !! cfg_url sample_config)
    (clock (new_agent 5000)) = false /\
  (3 < size (distinct_statuses (Js.slice_last 10 burst_history)))%nat /\
  In (the_request sample_url burst_history "Unstable status codes detected")
    (new_requests (new_agent 5000)
       (exec (analyzeEndpointHealth answering sample_config burst_history)
          (new_agent 5000))).
Proof.
  assert (H : cooldownActive (insightCache (new_agent 5000) !! cfg_url sample_config)
                (clock (new_agent 5000)) = false) by (vm_compute; reflexivity).
  assert (H4 : (3 < size (distinct_statuses (Js.slice_last 10 burst_history)))%nat)
    by (vm_compute; lia).
  split; [exact H|]. split; [exact H4|].
  exact (proj2 (unstable_status_rule answering sample_config burst_history
                  (new_agent 5000) H) H4).
Defined.

Lemma cooldown_after_alert_witness :
  (forall n, 0 <= elapsed (answering n)) /\
  cooldownActive (insightCache (new_agent 5000) !! cfg_url sample_config)
    (clock (new_agent 5000)) = false /\
  fired (Js.slice_last 10 burst_history) <> [] /\
  exists t,
    insightCache (exec (analyzeEndpointHealth answering sample_config burst_history)
                    (new_agent 5000)) !! sample_url = Some t /\
    5000 <= t.
Proof.
  assert (H0 : forall n, 0 <= elapsed (answering n)) by (intros n; simpl; lia).
  assert (H : cooldownActive (insightCache (new_agent 5000) !! cfg_url sample_config)
                (clock (new_agent 5000)) = false) by (vm_compute; reflexivity).
  assert (Hf : fired (Js.slice_last 10 burst_history) <> []) by (vm_compute; discriminate).
  split; [exact H0|]. split; [exact H|]. split; [exact Hf|].
  destruct (proj1 (proj2 (cooldown_after_alert answering sample_config burst_history
                            (new_agent 5000) H0 H)) Hf) as (t & Ht & Hb & _).
  exists t. split; [exact Ht | exact (proj1 Hb)].
Defined.

Lemma tick_events_witness :
  isRunning (after_probes 3) = true /\
  exists insights,
    new_events (after_probes 3)
      (exec (tick answering sample_config (failed_check 500 3000)) (after_probes 3))
    = CheckCompleted (failed_check 500 3000) :: map InsightEvent insights.
Proof.
  assert (H : isRunning (after_probes 3) = true) by (vm_compute; reflexivity).
  split; [exact H|].
  destruct (tick_events answering sample_config (failed_check 500 3000)
              (after_probes 3) H) as (ins & He & _).
  exists ins. exact He.
Defined.


Lemma registry_stays_consistent_witness :
  let w := run answering [StartMonitoring [sample_config; other_config]] (new_agent 5000) in
  other_url <> sample_url /\
  monitoringIntervals w !! other_url = Some 1%nat /\
  monitoringIntervals (exec (removeEndpoint sample_url) w) !! other_url = Some 1%nat /\
  exists config,
    timers (exec (removeEndpoint sample_url) w) !! 1%nat = Some config /\
    cfg_url config = other_url.
Proof.
  cbv zeta.
  assert (Hne : other_url <> sample_url) by discriminate.
  assert (H1 : monitoringIntervals
                 (run answering [StartMonitoring [sample_config; other_config]]
                    (new_agent 5000)) !! other_url = Some 1%nat)
    by (vm_compute; reflexivity).
  split; [exact Hne|]. split; [exact H1|].
  exact (proj2 (registry_stays_consistent answering 5000
                  [StartMonitoring [sample_config; other_config]])
           sample_url other_url 1%nat Hne H1).
Defined.

Lemma second_registration_leaks_timer_witness :
  isRunning (after_probes 0) = true /\
  monitoringIntervals
    (exec (addEndpoint sample_config ;; addEndpoint sample_config ;;
           removeEndpoint (cfg_url sample_config)) (after_probes 0))
    !! sample_url = None /\
  timers
    (exec (addEndpoint sample_config ;; addEndpoint sample_config ;;
           removeEndpoint (cfg_url sample_config)) (after_probes 0))
    !! nextTimer (after_probes 0) = Some sample_config.
Proof.
  assert (H : isRunning (after_probes 0) = true) by (vm_compute; reflexivity).
  split; [exact H|].
  destruct (second_registration_leaks_timer answering sample_config
              (ok_check 2000) (after_probes 0) H) as (_ & Hm & Ht & _).
  split; [exact Hm | exact Ht].
Defined.

Lemma getEndpointStats_summary_witness :
  endpointHistory (after_probes 3) !! sample_url = Some (replicate 3 (ok_check 2000)) /\
  replicate 3 (ok_check 2000) <> [] /\
  exists st,
    getEndpointStats sample_url (after_probes 3) = Some st /\
    totalChecks st = 3%nat /\
    (successRate st == 100 # 1)%Q.
Proof.
  assert (H1 : endpointHistory (after_probes 3) !! sample_url
               = Some (replicate 3 (ok_check 2000))) by (vm_compute; reflexivity).
  assert (H2 : replicate 3 (ok_check 2000) <> []) by discriminate.
  split; [exact H1|]. split; [exact H2|].
  destruct (getEndpointStats_summary sample_url (after_probes 3) _ H1 H2)
    as (st & Hst & _ & Ht & _ & Hall & _).
  exists st. split; [exact Hst|]. split; [exact Ht|].
  apply Hall. repeat constructor.
Defined.

Lemma probe_is_reported_last_witness :
  isRunning (after_probes 3) = true /\
  (length (default [] (endpointHistory (after_probes 3) !! cfg_url sample_config))
   <= 100)%nat /\
  exists st,
    getEndpointStats sample_url
      (exec (tick answering sample_config (failed_check 500 3000)) (after_probes 3))
    = Some st /\
    lastCheck st = Some (failed_check 500 3000).
Proof.
  assert (H1 : isRunning (after_probes 3) = true) by (vm_compute; reflexivity).
  assert (H3 : (length (default [] (endpointHistory (after_probes 3)
                                      !! cfg_url sample_config)) <= 100)%nat)
    by (vm_compute; lia).
  split; [exact H1|]. split; [exact H3|].
  destruct (probe_is_reported_last answering sample_config (failed_check 500 3000)
              (after_probes 3) H1 H3) as (st & Hst & Hlast & _).
  exists st. split; [exact Hst | exact Hlast].
Defined.

Lemma failed_generation_consumes_cooldown_witness :
  (forall n, answer (silent n) = None) /\
  (forall n, 0 <= elapsed (silent n)) /\
  cooldownActive (insightCache (new_agent 5000) !! cfg_url sample_config)
    (clock (new_agent 5000)) = false /\
  fired (Js.slice_last 10 burst_history) <> [] /\
  emitted (exec (analyzeEndpointHealth silent sample_config burst_history)
             (new_agent 5000)) = [] /\
  length (new_requests (new_agent 5000)
            (exec (analyzeEndpointHealth silent sample_config burst_history)
               (new_agent 5000))) = 3%nat.
Proof.
  assert (Hs : forall n, answer (silent n) = None) by (intros n; reflexivity).
  assert (H0 : forall n, 0 <= elapsed (silent n)) by (intros n; simpl; lia).
  assert (H : cooldownActive (insightCache (new_agent 5000) !! cfg_url sample_config)
                (clock (new_agent 5000)) = false) by (vm_compute; reflexivity).
  assert (Hf : fired (Js.slice_last 10 burst_history) <> []) by (vm_compute; discriminate).
  split; [exact Hs|]. split; [exact H0|]. split; [exact H|]. split; [exact Hf|].
  destruct (failed_generation_consumes_cooldown silent sample_config burst_history
              (new_agent 5000) Hs H0 H Hf) as (He & Hl & _).
  split; [exact He|]. rewrite Hl. vm_compute. reflexivity.
Defined.

Lemma tick_touches_one_target_witness :
  other_url <> cfg_url sample_config /\
  endpointHistory (exec (tick answering sample_config (failed_check 500 3000))
                     (after_probes 3)) !! other_url
  = endpointHistory (after_probes 3) !! other_url.
Proof.
  assert (Hne : other_url <> cfg_url sample_config) by discriminate.
  split; [exact Hne|].
  exact (proj1 (proj1 (tick_touches_one_target answering sample_config
                         (failed_check 500 3000) (after_probes 3))
                  other_url Hne)).
Defined.

Lemma history_holds_last_hundred_witness :
  isRunning (after_probes 3) = true /\
  [failed_check 500 3000; failed_check 502 4000] <> [] /\
  (length (default [] (endpointHistory (after_probes 3) !! cfg_url sample_config))
   <= 100)%nat /\
  endpointHistory
    (ticks answering sample_config [failed_check 500 3000; failed_check 502 4000]
       (after_probes 3)) !! sample_url
  = Some (replicate 3 (ok_check 2000)
          ++ [failed_check 500 3000; failed_check 502 4000]).
Proof.
  assert (H1 : isRunning (after_probes 3) = true) by (vm_compute; reflexivity).
  assert (H2 : [failed_check 500 3000; failed_check 502 4000] <> []) by discriminate.
  assert (H3 : (length (default [] (endpointHistory (after_probes 3)
                                      !! cfg_url sample_config)) <= 100)%nat)
    by (vm_compute; lia).
  split; [exact H1|]. split; [exact H2|]. split; [exact H3|].
  etransitivity.
  - exact (proj1 (history_holds_last_hundred answering sample_config
                    [failed_check 500 3000; failed_check 502 4000] (after_probes 3)
                    H1 H2 H3)).
  - vm_compute. reflexivity.
Defined.

End AgentMore.


(** * Properties of the alert rules and of the route handlers *)

Module ApiFacts.
Import Agent AgentFacts AgentMore.
Local Open Scope agent_scope.

(** *** The "ENDPOINT DOWN" rule *)

Lemma slice_last_slice_last {A} (m n : nat) (a : list A) :
  (m <= n)%nat -> Js.slice_last m (Js.slice_last n a) = Js.slice_last m a.
Proof.
  intros H. unfold Js.slice_last. rewrite drop_drop, length_drop. f_equal. lia.
Qed.

Lemma forallb_failed (l : list EndpointCheckResult) :
  forallb (fun check => negb (success check)) l = true
  <-> Forall (fun c => success c = false) l.
Proof.
  rewrite forallb_forall, List.Forall_forall. split; intros Hl c Hc.
  - apply negb_true_iff, Hl, Hc.
  - apply negb_true_iff, Hl, Hc.
Qed.

Lemma failures_all (l : list EndpointCheckResult) :
  Forall (fun c => success c = false) l ->
  length (List.filter (fun c => negb (success c)) l) = length l.
Proof.
  induction 1 as [|c l Hc _ IH]; simpl; [reflexivity|].
  rewrite Hc. simpl. f_equal. exact IH.
Qed.

(** X9.  The alert listener reports "ENDPOINT DOWN" for a probe exactly
    when the probed URL has at least five recorded results and the last
    five all failed; whenever it does, the high-error-rate condition of
    the health rules holds for the same history. *)
Theorem endpointDown_five_failures r w :
  (Scheduler.endpointDown r w = true <->
   exists h, endpointHistory w !! url r = Some h /\
     (5 <= length h)%nat /\
     Forall (fun c => success c = false) (Js.slice_last 5 h)) /\
  (Scheduler.endpointDown r w = true ->
   exists h, endpointHistory w !! url r = Some h /\
     Js.gt (errorRate (Js.slice_last 10 h)) (3 # 10) = true).
Proof.
  assert (Hiff :
    Scheduler.endpointDown r w = true <->
    exists h, endpointHistory w !! url r = Some h /\
      (5 <= length h)%nat /\
      Forall (fun c => success c = false) (Js.slice_last 5 h)).
  { unfold Scheduler.endpointDown, getEndpointStats.
    destruct (endpointHistory w !! url r) as [h|]; simpl default.
    - destruct (length h =? 0)%nat eqn:E.
      + apply Nat.eqb_eq in E. split; [discriminate|].
        intros (h' & [= <-] & Hlen & _). lia.
      + cbn [recentChecks]. cbv zeta.
        rewrite slice_last_slice_last by lia.
        rewrite andb_true_iff, forallb_failed, Nat.eqb_eq,
          JsFacts.length_slice_last.
        split.
        * intros [Hall Hlen]. exists h. split; [reflexivity|]. split; [lia | exact Hall].
        * intros (h' & [= <-] & Hlen & Hall). split; [exact Hall | lia].
    - simpl. split; [discriminate|]. intros (h' & Hh & _). discriminate. }
  split; [exact Hiff|].
  intros H. apply Hiff in H. destruct H as (h & Hh & Hlen & Hall).
  exists h. split; [exact Hh|].
  apply errorRate_gt.
  pose proof (JsFacts.length_slice_last 10 h) as Hn.
  pose proof (JsFacts.slice_last_suffix 5 (Js.slice_last 10 h)) as Hsplit.
  rewrite slice_last_slice_last in Hsplit by lia.
  rewrite <- Hsplit at 2. rewrite List.filter_app, length_app.
  rewrite (failures_all _ Hall), !JsFacts.length_slice_last. lia.
Qed.

Lemma endpointDown_spec r w :
  Scheduler.endpointDown r w = true <->
  exists h, endpointHistory w !! url r = Some h /\
    (5 <= length h)%nat /\
    Forall (fun c => success c = false) (Js.slice_last 5 h).
Proof.
  unfold Scheduler.endpointDown, getEndpointStats.
  destruct (endpointHistory w !! url r) as [h|]; simpl default.
  - destruct (length h =? 0)%nat eqn:E.
    + apply Nat.eqb_eq in E. split; [discriminate|].
      intros (h' & [= <-] & Hlen & _). lia.
    + cbn [recentChecks]. cbv zeta.
      rewrite slice_last_slice_last by lia.
      rewrite andb_true_iff, forallb_failed, Nat.eqb_eq,
        JsFacts.length_slice_last.
      split.
      * intros [Hall Hlen]. exists h. split; [reflexivity|]. split; [lia | exact Hall].
      * intros (h' & [= <-] & Hlen & Hall). split; [exact Hall | lia].
  - simpl. split; [discriminate|]. intros (h' & Hh & _). discriminate.
Qed.

(** X26.  Once a target's timer has delivered at least five results on a
    running agent, the alert listener reports "ENDPOINT DOWN" for the
    target exactly when the last five of them failed, whatever was
    recorded before. *)
Theorem five_failed_probes_raise_alarm service config results r w :
  isRunning w = true ->
  (length (default [] (endpointHistory w !! cfg_url config)) <= 100)%nat ->
  url r = cfg_url config ->
  (5 <= length results)%nat ->
  Scheduler.endpointDown r (ticks service config results w) = true
  <-> Forall (fun c => success c = false) (Js.slice_last 5 results).
Proof.
  intros Hrun Hlen Hurl H5.
  assert (Hne : results <> []) by (intros ->; simpl in H5; lia).
  pose proof (ticks_history service config results w Hrun Hne Hlen) as Hh.
  set (h := default [] (endpointHistory w !! cfg_url config)) in *.
  assert (Hs : Js.slice_last 5 (Js.slice_last 100 (h ++ results))
               = Js.slice_last 5 results).
  { rewrite slice_last_slice_last by lia. apply slice_last_app. exact H5. }
  rewrite endpointDown_spec, Hurl, Hh. split.
  - intros (h' & [= <-] & _ & Hall). rewrite Hs in Hall. exact Hall.
  - intros Hall. eexists. split; [reflexivity|]. split.
    + rewrite JsFacts.length_slice_last, length_app. lia.
    + rewrite Hs. exact Hall.
Qed.

(** *** The route handlers *)

Import Routes.

Lemma postMonitor_no_url b w :
  truthy_string (b_url b) = false ->
  postMonitor b w
  = (Returned {| code := 400; body := ErrorBody "URL is required" |}, w).
Proof. intros H. unfold postMonitor, try_catch. rewrite H. reflexivity. Qed.

Lemma truthy_string_Some u : u <> ""%string -> truthy_string (Some u) = true.
Proof. intros H. simpl. apply negb_true_iff, String.eqb_neq, H. Qed.

(** X10.  For a body whose fields, where present, have the expected
    JSON types, POST /api/ai-agent/monitor answers 400 "URL is required"
    when the body has no URL or an empty one; 500 with the agent's message
    when the agent is not running; in both cases nothing is registered.
    On a running agent it answers 200 and registers a timer for the URL,
    with interval 60000 when the body gives none or 0, and expected
    status [[200]] when the body gives none. *)
Theorem postMonitor_responses b w :
  (truthy_string (b_url b) = false ->
   postMonitor b w
   = (Returned {| code := 400; body := ErrorBody "URL is required" |}, w)) /\
  (forall u, b_url b = Some u -> u <> ""%string -> isRunning w = false ->
   postMonitor b w
   = (Returned {| code := 500;
                  body := ErrorBody "Agent is not running. Start monitoring first." |},
      w)) /\
  (forall u, b_url b = Some u -> u <> ""%string -> isRunning w = true ->
   let w' := exec (postMonitor b) w in
   result (postMonitor b) w
   = Returned {| code := 200; body := SuccessBody ("Started monitoring " ++ u) |} /\
   monitoringIntervals w' !! u = Some (nextTimer w) /\
   timers w' !! nextTimer w
   = Some {| cfg_url := u;
             interval := match b_interval b with
                         | Some n => if n =? 0 then 60000 else n
                         | None => 60000
                         end;
             expectedStatus := Some (default [200] (b_expectedStatus b));
             alertThreshold := None |}).
Proof.
  split; [apply postMonitor_no_url|]. split.
  - intros u Hu Hne Hrun. unfold postMonitor, try_catch.
    rewrite Hu, (truthy_string_Some u Hne). change (negb true) with false.
    cbv beta iota. unfold bind at 1.
    rewrite addEndpoint_stopped by exact Hrun. reflexivity.
  - intros u Hu Hne Hrun. cbv zeta. unfold postMonitor, try_catch, result, exec.
    rewrite Hu, (truthy_string_Some u Hne). change (negb true) with false.
    cbv beta iota.
    unfold addEndpoint, monitorEndpoint, setInterval, bind, gets,
      modify, ret. simpl. rewrite Hrun. simpl.
    split; [reflexivity|]. split; [apply lookup_insert_eq|].
    rewrite lookup_insert_eq. f_equal. f_equal.
    destruct (b_interval b) as [n|]; simpl; [|reflexivity].
    destruct (n =? 0); reflexivity.
Qed.

Lemma monitor_all_returns configs w :
  result (for_each configs monitorEndpoint) w = Returned tt.
Proof.
  revert w. induction configs as [|c configs IH]; intros w; [reflexivity|].
  simpl for_each. unfold result, bind. simpl. apply IH.
Qed.

Lemma monitor_all_world configs w :
  let w' := exec (for_each configs monitorEndpoint) w in
  nextTimer w' = (nextTimer w + length configs)%nat /\
  dom (monitoringIntervals w')
  = dom (monitoringIntervals w) ∪ list_to_set (map cfg_url configs) /\
  (forall id, (id < nextTimer w)%nat -> timers w' !! id = timers w !! id).
Proof.
  revert w. induction configs as [|c configs IH]; intros w.
  - unfold exec, ret. simpl. split; [lia|].
    split; [symmetry; apply union_empty_r_L | reflexivity].
  - simpl for_each. cbv zeta. rewrite exec_bind.
    change (result (monitorEndpoint c) w) with (@Returned unit tt). cbv beta iota.
    destruct (IH (exec (monitorEndpoint c) w)) as (Hn & Hd & Ht).
    rewrite Hn, Hd. unfold monitorEndpoint, setInterval, exec, bind, modify in *.
    simpl in *. split; [lia|]. split.
    + rewrite dom_insert_L. apply set_eq. intros x.
      rewrite !elem_of_union. tauto.
    + intros id Hid. rewrite Ht by lia. apply lookup_insert_ne. lia.
Qed.

Lemma startMonitoring_exec configs w :
  exec (startMonitoring configs) w
  = exec (for_each configs monitorEndpoint) (with_isRunning true w).
Proof. unfold startMonitoring. rewrite exec_bind. reflexivity. Qed.

Lemma postRestart_exec configs w :
  postRestart (Some configs) w
  = (Returned {| code := 200; body := SuccessBody "Monitoring restarted" |},
     exec (startMonitoring configs) (exec stopMonitoring w)).
Proof.
  unfold postRestart, try_catch.
  assert (Hs : stopMonitoring w = (Returned tt, exec stopMonitoring w)).
  { unfold exec. destruct (stopMonitoring w) as [o w1] eqn:E. simpl.
    assert (Hr : result stopMonitoring w = Returned tt).
    { unfold stopMonitoring, result, bind, modify, gets. simpl.
      pose proof (clear_all_returns (map_to_list (monitoringIntervals w))
                    (with_isRunning false w)) as R.
      unfold result in R.
      destruct (for_each _ _ _) as [o' w2]. simpl in R. subst o'. reflexivity. }
    unfold result in Hr. rewrite E in Hr. simpl in Hr. subst o. reflexivity. }
  unfold bind at 1. rewrite Hs. unfold bind at 1.
  assert (Hst : startMonitoring configs (exec stopMonitoring w)
                = (Returned tt, exec (startMonitoring configs) (exec stopMonitoring w))).
  { unfold exec at 2. destruct (startMonitoring configs _) as [o w1] eqn:E. simpl.
    assert (Hr : result (startMonitoring configs) (exec stopMonitoring w) = Returned tt).
    { unfold startMonitoring, result, bind, modify. simpl.
      apply (monitor_all_returns configs). }
    unfold result in Hr. rewrite E in Hr. simpl in Hr. subst o. reflexivity. }
  rewrite Hst. reflexivity.
Qed.

(** X11.  POST /api/ai-agent/restart without an [endpoints] array answers
    400 and changes nothing.  With one it answers 200 and leaves the
    agent running with exactly the URLs of the array registered, each
    with a live timer for that URL, one new timer per array entry, every
    timer registered before cancelled, and all histories and cooldown
    entries as they were. *)
Theorem postRestart_replaces_registry configs w :
  registry_consistent w ->
  let w' := exec (postRestart (Some configs)) w in
  postRestart None w
  = (Returned {| code := 400; body := ErrorBody "endpoints array is required" |}, w) /\
  result (postRestart (Some configs)) w
  = Returned {| code := 200; body := SuccessBody "Monitoring restarted" |} /\
  isRunning w' = true /\
  dom (monitoringIntervals w') = list_to_set (map cfg_url configs) /\
  registry_consistent w' /\
  nextTimer w' = (nextTimer w + length configs)%nat /\
  (forall u id, monitoringIntervals w !! u = Some id -> timers w' !! id = None) /\
  endpointHistory w' = endpointHistory w /\
  insightCache w' = insightCache w.
Proof.
  intros Hw. cbv zeta. unfold result, exec at 1 2 3 4 5 6 7.
  rewrite postRestart_exec. simpl fst. simpl snd.
  split; [reflexivity|]. split; [reflexivity|].
  rewrite startMonitoring_exec.
  set (w0 := exec stopMonitoring w).
  destruct (stopMonitoring_world w) as (_ & Hm & Hh & Hc & Hdead & _).
  fold w0 in Hm, Hh, Hc, Hdead. simpl in Hm, Hh, Hc, Hdead.
  assert (Hn0 : nextTimer w0 = nextTimer w).
  { assert (K : keeps nextTimer stopMonitoring) by (unfold stopMonitoring; frame).
    apply K. }
  destruct (monitor_all_world configs (with_isRunning true w0)) as (Hn & Hd & Ht).
  simpl in Hn, Hd, Ht.
  assert (K : forall {B} (f : World -> B),
             (forall w g, f (with_monitoringIntervals g w) = f w) ->
             (forall w g n, f (with_timers g n w) = f w) ->
             keeps f (for_each configs monitorEndpoint)).
  { intros B f H1 H2. apply keeps_for_each. intros c.
    unfold monitorEndpoint. apply keeps_bind.
    - intros x. unfold exec, setInterval. simpl. apply H2.
    - intros id. apply keeps_modify. intros x. apply H1. }
  split; [rewrite (K _ isRunning) by reflexivity; reflexivity|].
  split; [rewrite Hd, Hm, dom_empty_L; apply union_empty_l_L|].
  split.
  { apply monitor_all_consistent.
    destruct (stopMonitoring_consistent w Hw) as [H1 H2]. split; [exact H1 | exact H2]. }
  split; [rewrite Hn, Hn0; reflexivity|].
  split.
  { intros u id Hu. rewrite Ht.
    - exact (Hdead u id Hu).
    - rewrite Hn0. destruct Hw as [Hreg Hfresh].
      destruct (Hreg u id Hu) as (c & Hc' & _). exact (Hfresh id c Hc'). }
  split.
  - rewrite (K _ endpointHistory) by reflexivity. exact Hh.
  - rewrite (K _ insightCache) by reflexivity. exact Hc.
Qed.

Lemma getEndpointStats_None u w :
  getEndpointStats u w = None
  <-> endpointHistory w !! u = None \/ endpointHistory w !! u = Some [].
Proof.
  unfold getEndpointStats.
  destruct (endpointHistory w !! u) as [[|r h]|]; simpl; split;
    intros H; try reflexivity; try discriminate; auto;
    destruct H as [H|H]; discriminate.
Qed.

(** X12.  For a URL the agent holds nothing about, GET
    /api/ai-agent/endpoint/:url answers 404 "Endpoint not found", and it
    answers 404 only for URLs without recorded history; DELETE
    /api/ai-agent/monitor/:url answers 200 for every URL and changes
    nothing when the URL is not registered.  Once [decodeURIComponent]
    has returned the URL, neither handler answers 500. *)
Theorem unknown_url_responses u w :
  (result (getEndpoint u) w
   = Returned {| code := 404; body := ErrorBody "Endpoint not found" |}
   <-> endpointHistory w !! u = None \/ endpointHistory w !! u = Some []) /\
  exec (getEndpoint u) w = w /\
  (exists st, result (getEndpoint u) w = Returned st /\ code st <> 500) /\
  result (deleteMonitor u) w
  = Returned {| code := 200; body := SuccessBody ("Stopped monitoring " ++ u) |} /\
  (monitoringIntervals w !! u = None -> exec (deleteMonitor u) w = w).
Proof.
  split; [|split; [|split; [|split]]].
  - rewrite <- getEndpointStats_None.
    unfold getEndpoint, try_catch, result, bind, gets, ret. simpl.
    destruct (getEndpointStats u w); simpl; split; intros H;
      try reflexivity; discriminate.
  - unfold getEndpoint, try_catch, exec, bind, gets, ret. simpl.
    destruct (getEndpointStats u w); reflexivity.
  - unfold getEndpoint, try_catch, result, bind, gets, ret. simpl.
    destruct (getEndpointStats u w); simpl; eexists; (split; [reflexivity|]);
      simpl; lia.
  - unfold deleteMonitor, try_catch, removeEndpoint, result, bind, gets, ret,
      clearInterval, modify. simpl.
    destruct (monitoringIntervals w !! u); reflexivity.
  - intros H. unfold deleteMonitor, try_catch, removeEndpoint, exec, bind, gets, ret.
    simpl. rewrite H. reflexivity.
Qed.

(** *** Stopping, then adding a target *)

Lemma stopMonitoring_returns w :
  stopMonitoring w = (Returned tt, exec stopMonitoring w).
Proof.
  unfold exec. destruct (stopMonitoring w) as [o w1] eqn:E. simpl.
  assert (Hr : result stopMonitoring w = Returned tt).
  { unfold stopMonitoring, result, bind, modify, gets. simpl.
    pose proof (clear_all_returns (map_to_list (monitoringIntervals w))
                  (with_isRunning false w)) as R.
    unfold result in R.
    destruct (for_each _ _ _) as [o' w2]. simpl in R. subst o'. reflexivity. }
  unfold result in Hr. rewrite E in Hr. simpl in Hr. subst o. reflexivity.
Qed.

Lemma postStop_exec w :
  postStop w
  = (Returned {| code := 200; body := SuccessBody "All monitoring stopped" |},
     exec stopMonitoring w).
Proof.
  unfold postStop, try_catch. unfold bind at 1.
  rewrite stopMonitoring_returns. reflexivity.
Qed.

Lemma postMonitor_stopped b u w :
  b_url b = Some u -> u <> ""%string -> isRunning w = false ->
  postMonitor b w
  = (Returned {| code := 500;
                 body := ErrorBody "Agent is not running. Start monitoring first." |},
     w).
Proof.
  intros Hu Hne Hrun. unfold postMonitor, try_catch.
  rewrite Hu, (truthy_string_Some u Hne). change (negb true) with false.
  cbv beta iota. unfold bind at 1.
  rewrite addEndpoint_stopped by exact Hrun. reflexivity.
Qed.

(** X23.  POST /api/ai-agent/stop always answers 200 and empties the
    registry.  From then on POST /api/ai-agent/monitor with a URL is
    answered 500 and registers nothing, while GET
    /api/ai-agent/endpoint/:url answers as before the stop: the recorded
    statistics stay available. *)
Theorem monitor_after_stop_is_rejected b u w :
  b_url b = Some u -> u <> ""%string ->
  let w' := exec postStop w in
  result postStop w
  = Returned {| code := 200; body := SuccessBody "All monitoring stopped" |} /\
  monitoringIntervals w' = ∅ /\
  postMonitor b w'
  = (Returned {| code := 500;
                 body := ErrorBody "Agent is not running. Start monitoring first." |},
     w') /\
  (forall u', result (getEndpoint u') w' = result (getEndpoint u') w).
Proof.
  intros Hu Hne. cbv zeta. unfold result at 1, exec.
  rewrite postStop_exec. simpl fst. simpl snd.
  destruct (stopMonitoring_world w) as (Hrun & Hm & Hh & _).
  cbv zeta in Hrun, Hm, Hh.
  split; [reflexivity|]. split; [exact Hm|]. split.
  - apply (postMonitor_stopped b u); assumption.
  - intros u'. unfold getEndpoint, try_catch, result, bind, gets, ret,
      getEndpointStats. simpl. rewrite Hh.
    destruct (length (default [] (endpointHistory w !! u')) =? 0)%nat; reflexivity.
Qed.

(** *** The statements at sample inputs *)

Lemma endpointDown_five_failures_witness :
  Scheduler.endpointDown (failed_check 500 1000) (after_failures 5) = true /\
  exists h, endpointHistory (after_failures 5) !! sample_url = Some h /\
    Js.gt (errorRate (Js.slice_last 10 h)) (3 # 10) = true.
Proof.
  assert (H : Scheduler.endpointDown (failed_check 500 1000) (after_failures 5) = true)
    by (vm_compute; reflexivity).
  split; [exact H|].
  exact (proj2 (endpointDown_five_failures (failed_check 500 1000) (after_failures 5)) H).
Defined.

Lemma postMonitor_responses_witness :
  b_url sample_body = Some sample_url /\
  sample_url <> ""%string /\
  isRunning (new_agent 5000) = false /\
  postMonitor sample_body (new_agent 5000)
  = (Returned {| code := 500;
                 body := ErrorBody "Agent is not running. Start monitoring first." |},
     new_agent 5000).
Proof.
  assert (Hne : sample_url <> ""%string) by discriminate.
  split; [reflexivity|]. split; [exact Hne|]. split; [reflexivity|].
  exact (proj1 (proj2 (postMonitor_responses sample_body (new_agent 5000)))
           sample_url eq_refl Hne eq_refl).
Defined.

Lemma postRestart_replaces_registry_witness :
  registry_consistent (after_probes 3) /\
  dom (monitoringIntervals
         (exec (postRestart (Some [other_config])) (after_probes 3)))
  = list_to_set [other_url] /\
  endpointHistory (exec (postRestart (Some [other_config])) (after_probes 3))
  = endpointHistory (after_probes 3).
Proof.
  assert (H : registry_consistent (after_probes 3)).
  { split.
    - intros u id Hu. exists sample_config.
      destruct (decide (u = sample_url)) as [->|Hne].
      + vm_compute in Hu. injection Hu as <-. split; reflexivity.
      + exfalso. revert Hu.
        change (monitoringIntervals (after_probes 3))
          with (<[sample_url := 0%nat]> (∅ : gmap string nat)).
        rewrite lookup_insert_ne by congruence. rewrite lookup_empty. discriminate.
    - intros id config Hid.
      change (timers (after_probes 3))
        with (<[0%nat := sample_config]> (∅ : gmap nat EndpointMonitorConfig)) in Hid.
      change (nextTimer (after_probes 3)) with 1%nat.
      destruct (decide (id = 0%nat)) as [->|Hne]; [lia|].
      rewrite lookup_insert_ne in Hid by congruence.
      rewrite lookup_empty in Hid. discriminate. }
  split; [exact H|].
  destruct (postRestart_replaces_registry [other_config] (after_probes 3) H)
    as (_ & _ & _ & Hd & _ & _ & _ & Hh & _).
  split; [exact Hd | exact Hh].
Defined.

Lemma unknown_url_responses_witness :
  monitoringIntervals (after_probes 3) !! other_url = None /\
  exec (deleteMonitor other_url) (after_probes 3) = after_probes 3.
Proof.
  assert (H : monitoringIntervals (after_probes 3) !! other_url = None)
    by (vm_compute; reflexivity).
  split; [exact H|].
  exact (proj2 (proj2 (proj2 (proj2 (unknown_url_responses other_url (after_probes 3))))) H).
Defined.

Lemma five_failed_probes_raise_alarm_witness :
  isRunning (after_probes 3) = true /\
  (length (default [] (endpointHistory (after_probes 3) !! cfg_url sample_config))
   <= 100)%nat /\
  url (failed_check 500 1000) = cfg_url sample_config /\
  (5 <= length (replicate 5 (failed_check 500 1000)))%nat /\
  Scheduler.endpointDown (failed_check 500 1000)
    (ticks answering sample_config (replicate 5 (failed_check 500 1000))
       (after_probes 3)) = true.
Proof.
  assert (H1 : isRunning (after_probes 3) = true) by (vm_compute; reflexivity).
  assert (H2 : (length (default [] (endpointHistory (after_probes 3)
                                      !! cfg_url sample_config)) <= 100)%nat)
    by (vm_compute; lia).
  assert (H4 : (5 <= length (replicate 5 (failed_check 500 1000)))%nat)
    by (vm_compute; lia).
  split; [exact H1|]. split; [exact H2|]. split; [reflexivity|]. split; [exact H4|].
  apply (proj2 (five_failed_probes_raise_alarm answering sample_config
                  (replicate 5 (failed_check 500 1000)) (failed_check 500 1000)
                  (after_probes 3) H1 H2 eq_refl H4)).
  repeat constructor.
Defined.

Lemma monitor_after_stop_is_rejected_witness :
  b_url sample_body = Some sample_url /\
  sample_url <> ""%string /\
  postMonitor sample_body (exec postStop (after_probes 3))
  = (Returned {| code := 500;
                 body := ErrorBody "Agent is not running. Start monitoring first." |},
     exec postStop (after_probes 3)).
Proof.
  assert (Hne : sample_url <> ""%string) by discriminate.
  split; [reflexivity|]. split; [exact Hne|].
  exact (proj1 (proj2 (proj2 (monitor_after_stop_is_rejected sample_body sample_url
                                (after_probes 3) eq_refl Hne)))).
Defined.

End ApiFacts.

(** * Further properties of the detector and of the log storage *)

Module DetectorMore.
Import Detector DetectorFacts.

(** *** The error-rate signal *)

Lemma errorRate_gt_iff (w : list Metric) :
  Js.gt (errorRate w) (3 # 10) = true
  <-> 3 * Z.of_nat (length w) < 10 * Z.of_nat (errors w).
Proof.
  unfold errorRate, errors. destruct w as [|m w].
  - simpl. split; [discriminate | lia].
  - apply JsFacts.gt_div. simpl length. lia.
Qed.

Lemma analyze_high now metric w :
  let w' := pruneOld now (w ++ [metric]) in
  (10 <= length w')%nat /\
  3 * Z.of_nat (length w') < 10 * Z.of_nat (errors w') ->
  fst (analyze now metric w)
  = Some {| a_type := HIGH_ERROR_RATE; a_severity := critical;
            value := errorRate w'; baseline := None |}.
Proof.
  intros w' [Hlen Herr]. unfold analyze, Js.push. cbv zeta. fold w'.
  replace (length w' <? MIN_SAMPLES)%nat with false
    by (symmetry; apply Nat.ltb_ge; exact Hlen).
  apply errorRate_gt_iff in Herr. unfold errorRate in Herr. rewrite Herr.
  reflexivity.
Qed.

Lemma analyze_not_high now metric w :
  let w' := pruneOld now (w ++ [metric]) in
  ~ ((10 <= length w')%nat /\
     3 * Z.of_nat (length w') < 10 * Z.of_nat (errors w')) ->
  ~ is_high_error_rate (fst (analyze now metric w)).
Proof.
  intros w' Hn (a & Ha & Ht). apply Hn.
  unfold analyze, Js.push in Ha. cbv zeta in Ha. fold w' in Ha.
  destruct (length w' <? MIN_SAMPLES)%nat eqn:E1; [discriminate|].
  apply Nat.ltb_ge in E1. split; [exact E1|].
  apply errorRate_gt_iff. unfold errorRate.
  destruct (Js.gt _ _) eqn:E2; [reflexivity|]. exfalso.
  destruct (_ && _) in Ha; [|discriminate].
  destruct (responseTime metric) in Ha; [|discriminate].
  destruct (exceeds _ _ _) in Ha; [|discriminate].
  simpl in Ha. injection Ha as <-. discriminate.
Qed.

(** X13.  [analyze] returns the HIGH_ERROR_RATE signal exactly when the
    pruned window holds at least 10 samples and more than three tenths of
    them have a status of 500 or above; the signal is critical and carries
    that fraction.  The error-rate test comes first: when it holds no
    spike signal is returned, whatever the latencies. *)
Theorem high_error_rate_signal now metric w :
  let w' := pruneOld now (w ++ [metric]) in
  let high := (10 <= length w')%nat /\
              3 * Z.of_nat (length w') < 10 * Z.of_nat (errors w') in
  (is_high_error_rate (fst (analyze now metric w)) <-> high) /\
  (high ->
   fst (analyze now metric w)
   = Some {| a_type := HIGH_ERROR_RATE; a_severity := critical;
             value := errorRate w'; baseline := None |}) /\
  (high -> ~ is_spike (fst (analyze now metric w))).
Proof.
  cbv zeta.
  set (w' := pruneOld now (w ++ [metric])).
  pose proof (analyze_high now metric w) as Hhigh. cbv zeta in Hhigh. fold w' in Hhigh.
  split; [|split].
  - split.
    + intros (a & Ha & Ht). unfold analyze, Js.push in Ha. cbv zeta in Ha.
      fold w' in Ha.
      destruct (length w' <? MIN_SAMPLES)%nat eqn:E1; [discriminate|].
      apply Nat.ltb_ge in E1. split; [exact E1|].
      apply errorRate_gt_iff. unfold errorRate.
      destruct (Js.gt _ _) eqn:E2; [reflexivity|]. exfalso.
      destruct (_ && _) in Ha; [|discriminate].
      destruct (responseTime metric) in Ha; [|discriminate].
      destruct (exceeds _ _ _) in Ha; [|discriminate].
      simpl in Ha. injection Ha as <-. discriminate.
    + intros H. eexists. split; [apply Hhigh, H | reflexivity].
  - exact Hhigh.
  - intros H (a & Ha & Ht). rewrite (Hhigh H) in Ha. injection Ha as <-. discriminate.
Qed.

(** *** How far a sample can lie from the mean *)

Lemma Rsum_app (l1 l2 : list R) : Rsum (l1 ++ l2) = (Rsum l1 + Rsum l2)%R.
Proof. induction l1 as [|x l1 IH]; simpl; [lra | rewrite IH; lra]. Qed.

Lemma Rsum_squares_nonneg (l : list R) : (0 <= Rsum (map (fun x : R => (x * x)%R) l))%R.
Proof. induction l as [|x l IH]; simpl; [lra | nra]. Qed.

(** Cauchy-Schwarz against the constant sequence. *)
Lemma square_of_sum (l : list R) :
  (Rsum l * Rsum l <= INR (length l) * Rsum (map (fun x : R => (x * x)%R) l))%R.
Proof.
  induction l as [|a l IH].
  - simpl. lra.
  - change (length (a :: l)) with (S (length l)). rewrite S_INR.
    simpl Rsum. simpl map. simpl Rsum.
    set (s := Rsum l) in *. set (q := Rsum (map (fun x : R => (x * x)%R) l)) in *.
    set (k := INR (length l)) in *.
    assert (Hk : (0 <= k)%R) by apply pos_INR.
    assert (Hq : (0 <= q)%R) by apply Rsum_squares_nonneg.
    assert (Hmid : (2 * a * s <= k * (a * a) + q)%R).
    { destruct (Req_dec k 0) as [Hk0|Hk0].
      - rewrite Hk0 in IH.
        assert (Hs : (s = 0)%R).
        { apply Rsqr_0_uniq. pose proof (Rle_0_sqr s) as P.
          unfold Rsqr in *. lra. }
        rewrite Hs, Hk0. lra.
      - assert (Hkpos : (0 < k)%R) by lra.
        assert (H1 : (k * (2 * a * s) <= k * k * (a * a) + s * s)%R).
        { pose proof (Rle_0_sqr (k * a - s)) as P. unfold Rsqr in P.
          replace ((k * a - s) * (k * a - s))%R
            with (k * k * (a * a) - k * (2 * a * s) + s * s)%R in P by ring.
          lra. }
        assert (H2 : (k * (2 * a * s) <= k * (k * (a * a) + q))%R).
        { replace (k * (k * (a * a) + q))%R with (k * k * (a * a) + k * q)%R by ring.
          lra. }
        apply (Rmult_le_reg_l k); assumption. }
    nra.
Qed.

(** A member of a list with sum 0 has its square bounded by the other
    squares. *)
Lemma samuelson (ds : list R) (d : R) :
  In d ds -> Rsum ds = 0%R ->
  (d * d * INR (length ds)
   <= (INR (length ds) - 1) * Rsum (map (fun x : R => (x * x)%R) ds))%R.
Proof.
  intros Hin Hsum.
  destruct (in_split d ds Hin) as (l1 & l2 & ->).
  rewrite Rsum_app in Hsum. simpl in Hsum.
  rewrite map_app, Rsum_app. simpl map. simpl Rsum.
  rewrite length_app. simpl length.
  replace (length l1 + S (length l2))%nat with (S (length (l1 ++ l2)))
    by (rewrite length_app; lia).
  rewrite S_INR.
  pose proof (square_of_sum (l1 ++ l2)) as CS.
  rewrite map_app, !Rsum_app in CS.
  set (q1 := Rsum (map (fun x : R => (x * x)%R) l1)) in *.
  set (q2 := Rsum (map (fun x : R => (x * x)%R) l2)) in *.
  set (k := INR (length (l1 ++ l2))) in *.
  assert (Hd : (d = - (Rsum l1 + Rsum l2))%R) by lra.
  assert (Hdd : (d * d <= k * (q1 + q2))%R) by (rewrite Hd; nra).
  pose proof (pos_INR (length (l1 ++ l2))) as Hk. fold k in Hk.
  nra.
Qed.

Lemma Q2R_inject_Z (z : Z) : Q2R (inject_Z z) = IZR z.
Proof. unfold Q2R, inject_Z. simpl. lra. Qed.

Lemma Q2R_sum (values : list Q) (acc : Q) :
  Q2R (fold_left (fun a b => a + b)%Q values acc)
  = (Q2R acc + Rsum (map Q2R values))%R.
Proof.
  revert acc. induction values as [|v values IH]; intros acc; simpl.
  - lra.
  - rewrite IH, Q2R_plus. lra.
Qed.

Lemma Q2R_squares (values : list Q) (avg acc : Q) :
  Q2R (fold_left (fun sum v => sum + Qpower (v - avg) 2)%Q values acc)
  = (Q2R acc
     + Rsum (map (fun x : R => (x * x)%R) (map (fun v => (Q2R v - Q2R avg)%R) values)))%R.
Proof.
  revert acc. induction values as [|v values IH]; intros acc; simpl fold_left.
  - simpl. lra.
  - rewrite IH. simpl map. simpl Rsum.
    change (Qpower (v - avg) 2) with ((v - avg) * (v - avg))%Q.
    rewrite Q2R_plus, Q2R_mult, Q2R_minus. lra.
Qed.

Lemma Rsum_shift (xs : list R) (m : R) :
  Rsum (map (fun x : R => (x - m)%R) xs) = (Rsum xs - INR (length xs) * m)%R.
Proof.
  induction xs as [|x xs IH].
  - simpl. lra.
  - change (length (x :: xs)) with (S (length xs)). rewrite S_INR.
    simpl. rewrite IH. lra.
Qed.

(** Among [n] values, none lies more than [sqrt (n - 1)] standard
    deviations from the mean. *)
Lemma deviation_bound (values : list Q) (rt : Q) :
  In rt values ->
  let avg := exact_mean values in
  ((Q2R rt - Q2R avg) * (Q2R rt - Q2R avg)
   <= (INR (length values) - 1) * Q2R (exact_variance values avg))%R.
Proof.
  intros Hin avg.
  assert (Hlen : (0 < length values)%nat) by (destruct values; [contradiction | simpl; lia]).
  set (n := INR (length values)).
  assert (Hn : (0 < n)%R) by (apply lt_0_INR; exact Hlen).
  assert (Hnz : ~ (inject_Z (Z.of_nat (length values)) == 0)%Q).
  { unfold Qeq. simpl. lia. }
  assert (HIZR : Q2R (inject_Z (Z.of_nat (length values))) = n).
  { rewrite Q2R_inject_Z. unfold n. symmetry. apply INR_IZR_INZ. }
  assert (Havg : (Q2R avg * n = Rsum (map Q2R values))%R).
  { unfold avg, exact_mean. rewrite Q2R_div by exact Hnz. rewrite HIZR, Q2R_sum.
    replace (Q2R 0) with 0%R by (unfold Q2R; simpl; lra).
    field. lra. }
  assert (Hvar : (Q2R (exact_variance values avg) * n
                  = Rsum (map (fun x : R => (x * x)%R)
                            (map (fun v => (Q2R v - Q2R avg)%R) values)))%R).
  { unfold exact_variance. rewrite Q2R_div by exact Hnz. rewrite HIZR, Q2R_squares.
    replace (Q2R 0) with 0%R by (unfold Q2R; simpl; lra).
    field. lra. }
  set (ds := map (fun v => (Q2R v - Q2R avg)%R) values) in *.
  assert (Hds : ds = map (fun x : R => (x - Q2R avg)%R) (map Q2R values)).
  { unfold ds. rewrite map_map. reflexivity. }
  assert (Hzero : Rsum ds = 0%R).
  { rewrite Hds, Rsum_shift, length_map. fold n. lra. }
  assert (Hmem : In (Q2R rt - Q2R avg)%R ds).
  { unfold ds. apply (in_map (fun v => (Q2R v - Q2R avg)%R)). exact Hin. }
  pose proof (samuelson ds _ Hmem Hzero) as S.
  assert (Hl : length ds = length values) by (unfold ds; apply length_map).
  rewrite Hl in S. fold n in S. rewrite <- Hvar in S.
  assert (S' : (n * ((Q2R rt - Q2R avg) * (Q2R rt - Q2R avg))
                <= n * ((n - 1) * Q2R (exact_variance values avg)))%R) by nra.
  apply (Rmult_le_reg_l n); assumption.
Qed.

(** In exact arithmetic no member of a list of at most 10 values is above
    the mean plus three standard deviations of the list. *)
Lemma never_above_three_sigma (values : list Q) (x : Q) :
  In x values -> (length values <= 10)%nat -> ~ above_three_sigma values x.
Proof.
  intros Hin Hlen Habove. unfold above_three_sigma, exact_std in Habove.
  pose proof (deviation_bound values x Hin) as Hdev. cbv zeta in Hdev.
  pose proof (variance_nonneg values (exact_mean values)) as Hv.
  apply Qle_Rle in Hv.
  replace (Q2R 0) with 0%R in Hv by (unfold Q2R; simpl; lra).
  assert (H3 : (3 * sqrt (Q2R (exact_variance values (exact_mean values)))
                < Q2R x - Q2R (exact_mean values))%R) by lra.
  apply (three_sigma _ _ Hv) in H3. destruct H3 as [_ H9].
  assert (Hn : (INR (length values) <= 10)%R).
  { replace 10%R with (INR 10) by (simpl; lra). apply le_INR. exact Hlen. }
  nra.
Qed.

(** *** The window keeps the current sample *)

Lemma pruneOld_loop_snoc cutoff (w : list Metric) (m : Metric) :
  pruneOld_loop cutoff (w ++ [m]) = [] \/
  exists l, pruneOld_loop cutoff (w ++ [m]) = l ++ [m] /\
            exists k, l = drop k w.
Proof.
  induction w as [|x w IH]; simpl.
  - destruct (timestamp m <? cutoff); [left; reflexivity|].
    right. exists []. split; [reflexivity|]. exists 0%nat. reflexivity.
  - destruct (timestamp x <? cutoff).
    + destruct IH as [IH|(l & Hl & k & Hk)]; [left; exact IH|].
      right. exists l. split; [exact Hl|]. exists (S k). exact Hk.
    + right. exists (x :: w). split; [reflexivity|]. exists 0%nat. reflexivity.
Qed.

Lemma current_latency_in_window now (metric : Metric) (w : list Metric) rt :
  pruneOld now (w ++ [metric]) <> [] ->
  responseTime metric = Some rt ->
  In rt (responseTimes (pruneOld now (w ++ [metric]))).
Proof.
  intros Hne Hrt. unfold pruneOld in *.
  destruct (pruneOld_loop_snoc (now - WINDOW_MS) w metric) as [H|(l & Hl & _)];
    [contradiction|].
  rewrite Hl. unfold responseTimes. rewrite omap_app. simpl. rewrite Hrt.
  apply in_or_app. right. left. reflexivity.
Qed.

(** X14.  In exact arithmetic a spike needs at least 11 latencies: with
    10 or fewer in the window the current latency, being one of them,
    cannot lie more than three standard deviations above their mean, so
    the specification's spike condition never holds.  [analyze] computes
    in doubles and does return RESPONSE_TIME_SPIKE with 10 latencies: for
    nine latencies of 1 ms and a current one of 8 ms the exact bound is 8
    and the computed one is below 8. *)
Theorem spike_needs_eleven_latencies :
  (forall now metric w,
      pruneOld now (w ++ [metric]) <> [] ->
      (length (responseTimes (pruneOld now (w ++ [metric]))) <= 10)%nat ->
      ~ spike_condition metric (pruneOld now (w ++ [metric]))) /\
  (exists now metric w,
      length (responseTimes (pruneOld now (w ++ [metric]))) = 10%nat /\
      is_spike (fst (analyze now metric w))).
Proof.
  split.
  - intros now metric w Hne Hlen (_ & rt & Hrt & Habove).
    pose proof (current_latency_in_window now metric w rt Hne Hrt) as Hin.
    apply (never_above_three_sigma _ _ (in_map exact_value _ _ Hin));
      [rewrite length_map; exact Hlen | exact Habove].
  - exists 0, (sample 200 8 0), (replicate 9 (sample 200 1 0)).
    split; [vm_compute; reflexivity|].
    eexists. split; vm_compute; reflexivity.
Qed.

(** *** Warm-up over a sequence of calls *)

Lemma analyze_window_length now metric w :
  (length (snd (analyze now metric w)) <= length w + 1)%nat.
Proof.
  rewrite analyze_window. unfold pruneOld, Js.push.
  destruct (pruneOld_loop_drop (now - WINDOW_MS) (w ++ [metric])) as (k & -> & _).
  rewrite length_drop, length_app. simpl. lia.
Qed.

Lemma analyze_all_cons now metric rest w :
  analyze_all ((now, metric) :: rest) w
  = (fst (analyze now metric w) :: fst (analyze_all rest (snd (analyze now metric w))),
     snd (analyze_all rest (snd (analyze now metric w)))).
Proof.
  simpl. destruct (analyze now metric w) as [signal window]. simpl.
  destruct (analyze_all rest window). reflexivity.
Qed.

(** X15.  Each call of [analyze] lengthens the window by at most one
    sample, so from a window of [k] samples the first [9 - k] calls all
    answer [null], whatever the samples and the clock: from an empty
    window no signal comes before the tenth call. *)
Theorem warm_up_takes_ten_samples calls w :
  (length w + length calls < 10)%nat ->
  Forall (fun signal => signal = None) (fst (analyze_all calls w)) /\
  (length (snd (analyze_all calls w)) <= length w + length calls)%nat.
Proof.
  revert w. induction calls as [|[now metric] rest IH]; intros w Hlen.
  - simpl. split; [constructor | lia].
  - rewrite analyze_all_cons. simpl fst. simpl snd.
    pose proof (analyze_window_length now metric w) as Hw.
    change (length ((now, metric) :: rest)) with (S (length rest)) in *.
    destruct (IH (snd (analyze now metric w))) as [Hall Hfin]; [lia|].
    split; [|lia].
    constructor; [|exact Hall].
    apply analyze_warm_up. rewrite <- analyze_window. unfold MIN_SAMPLES. lia.
Qed.

(** *** The log storage *)

Section Logs.
Variable InsertHttpLog : Type.
Variable statusCode : InsertHttpLog -> Z.

Import Storage.

(** X16.  [addHttpLog] returns the log with the next free id, the given
    fields and the time of the call, stores it under that id without
    touching any other stored log, hands it to the listener when one is
    installed, and keeps ids fresh: no later call can overwrite it. *)
Theorem addHttpLog_stores_log t now (log : InsertHttpLog) (s : MemStorage InsertHttpLog) :
  ids_fresh s ->
  let httpLog := fst (addHttpLog statusCode t now log s) in
  let s' := snd (addHttpLog statusCode t now log s) in
  httpLog = {| fields := log; id := currentLogId s; timestamp := t |} /\
  httpLogs s !! currentLogId s = None /\
  httpLogs s' !! id httpLog = Some httpLog /\
  (forall k, k <> id httpLog -> httpLogs s' !! k = httpLogs s !! k) /\
  size (httpLogs s') = S (size (httpLogs s)) /\
  currentLogId s' = currentLogId s + 1 /\
  delivered s' = (if onNewLog s then delivered s ++ [httpLog] else delivered s) /\
  ids_fresh s'.
Proof.
  intros Hfresh. unfold addHttpLog.
  destruct (analyze now _ (metricsWindow s)) as [signal window]. cbn.
  assert (Hnone : httpLogs s !! currentLogId s = None).
  { destruct (httpLogs s !! currentLogId s) as [l|] eqn:E; [|reflexivity].
    destruct (Hfresh _ _ E). lia. }
  split; [reflexivity|]. split; [exact Hnone|].
  split; [apply lookup_insert_eq|].
  split; [intros k Hk; apply lookup_insert_ne; congruence|].
  split; [apply map_size_insert_None; exact Hnone|].
  split; [reflexivity|]. split; [reflexivity|].
  intros k l. cbn.
  destruct (decide (currentLogId s = k)) as [<-|Hne].
  - rewrite lookup_insert_eq. intros [= <-]. cbn. lia.
  - rewrite lookup_insert_ne by exact Hne. intros Hk.
    destruct (Hfresh _ _ Hk). split; [assumption | lia].
Qed.

Lemma chronological_snoc (w : list Metric) (m : Metric) :
  chronological w ->
  Forall (fun x => Detector.timestamp x <= Detector.timestamp m) w ->
  chronological (w ++ [m]).
Proof.
  unfold chronological. induction 1 as [|x w Hs IH Hx]; intros Hall; simpl.
  - repeat constructor.
  - inversion Hall as [|? ? Hxm Hrest]; subst.
    constructor; [apply IH; exact Hrest|].
    apply List.Forall_app. split; [exact Hx|]. repeat constructor. exact Hxm.
Qed.

Lemma chronological_drop (k : nat) (w : list Metric) :
  chronological w -> chronological (drop k w).
Proof.
  unfold chronological. revert w. induction k as [|k IH]; intros w Hw.
  - rewrite drop_0. exact Hw.
  - destruct w as [|x w]; [exact Hw|]. simpl. apply IH.
    inversion Hw; assumption.
Qed.

Lemma addHttpLog_window t now (log : InsertHttpLog) (s : MemStorage InsertHttpLog) :
  metricsWindow (snd (addHttpLog statusCode t now log s))
  = pruneOld now
      (metricsWindow s
       ++ [{| Detector.statusCode := statusCode log;
              Detector.responseTime := Some 0%float;
              Detector.timestamp := t |}]).
Proof.
  unfold addHttpLog.
  destruct (analyze now _ (metricsWindow s)) as [signal window] eqn:E. cbn.
  change window with (snd (signal, window)). rewrite <- E.
  apply analyze_window.
Qed.

Lemma addHttpLog_ordered c t now (log : InsertHttpLog) (s : MemStorage InsertHttpLog) :
  window_ordered c s -> c <= t -> t <= now ->
  window_ordered now (snd (addHttpLog statusCode t now log s)) /\
  no_stale_left now (metricsWindow (snd (addHttpLog statusCode t now log s))).
Proof.
  intros [Hc Hle] Hct Htn. unfold window_ordered. rewrite !addHttpLog_window.
  set (m := {| Detector.statusCode := statusCode log;
               Detector.responseTime := Some 0%float; Detector.timestamp := t |}).
  assert (Hc' : chronological (metricsWindow s ++ [m])).
  { apply chronological_snoc; [exact Hc|].
    eapply Forall_impl; [exact Hle|]. simpl. intros x Hx. lia. }
  assert (Hle' : Forall (fun x => Detector.timestamp x <= now) (metricsWindow s ++ [m])).
  { apply List.Forall_app. split.
    - eapply Forall_impl; [exact Hle|]. simpl. intros x Hx. lia.
    - repeat constructor. simpl. exact Htn. }
  unfold pruneOld.
  destruct (pruneOld_loop_drop (now - WINDOW_MS) (metricsWindow s ++ [m]))
    as (k & Hk & _).
  destruct (pruneOld_loop_chronological (now - WINDOW_MS) _ Hc') as [Hfresh _].
  rewrite Hk in *. split; [split|].
  - apply chronological_drop, Hc'.
  - apply Forall_drop, Hle'.
  - unfold no_stale_left, stale. eapply Forall_impl; [exact Hfresh|].
    simpl. intros x Hx. lia.
Qed.

Lemma addHttpLogs_snoc (calls : list (Z * Z * InsertHttpLog)) t now log s :
  addHttpLogs statusCode (calls ++ [(t, now, log)]) s
  = snd (addHttpLog statusCode t now log (addHttpLogs statusCode calls s)).
Proof. unfold addHttpLogs. rewrite fold_left_app. reflexivity. Qed.

(** X17.  As long as the clock never goes back, the detector's window
    stays in time order along any sequence of [addHttpLog] calls, and
    after every call it holds no sample older than 60 seconds at that
    call's clock reading. *)
Theorem log_window_holds_last_minute
    (calls : list (Z * Z * InsertHttpLog)) c (s : MemStorage InsertHttpLog) :
  window_ordered c s ->
  clock_never_back c calls ->
  window_ordered (final_clock c calls) (addHttpLogs statusCode calls s) /\
  (calls <> [] ->
   no_stale_left (final_clock c calls)
     (metricsWindow (addHttpLogs statusCode calls s))).
Proof.
  revert c s. induction calls as [|[[t now] log] rest IH]; intros c s Hs Hclock.
  - simpl. split; [exact Hs | contradiction].
  - destruct Hclock as (Hct & Htn & Hrest).
    destruct (addHttpLog_ordered c t now log s Hs Hct Htn) as [Ho Hn].
    change (addHttpLogs statusCode ((t, now, log) :: rest) s)
      with (addHttpLogs statusCode rest (snd (addHttpLog statusCode t now log s))).
    change (final_clock c ((t, now, log) :: rest)) with (final_clock now rest).
    destruct (IH now _ Ho Hrest) as [Ho' Hn'].
    split; [exact Ho'|]. intros _.
    destruct rest as [|call rest']; [exact Hn | apply Hn'; discriminate].
Qed.

(** X18.  [addHttpLog] broadcasts an alert exactly when, after its sample
    is added and old samples are pruned, the window holds at least 10
    samples of which more than three tenths have a status of 500 or
    above; the alert is the critical HIGH_ERROR_RATE signal with that
    fraction, stamped with the time of the log.  Otherwise nothing is
    broadcast. *)
Theorem addHttpLog_alerts t now (log : InsertHttpLog) (s : MemStorage InsertHttpLog) :
  let s' := snd (addHttpLog statusCode t now log s) in
  let w' := metricsWindow s' in
  let high := (10 <= length w')%nat /\
              3 * Z.of_nat (length w') < 10 * Z.of_nat (errors w') in
  (high ->
   broadcast s'
   = broadcast s ++
     [{| anomaly := {| a_type := HIGH_ERROR_RATE; a_severity := critical;
                       value := errorRate w'; baseline := None |};
         at_time := t |}]) /\
  (~ high -> broadcast s' = broadcast s).
Proof.
  cbv zeta. rewrite addHttpLog_window.
  set (m := {| Detector.statusCode := statusCode log;
               Detector.responseTime := Some 0%float; Detector.timestamp := t |}).
  assert (Hb : broadcast (snd (addHttpLog statusCode t now log s))
               = match fst (analyze now m (metricsWindow s)) with
                 | Some a => broadcast s ++ [{| anomaly := a; at_time := t |}]
                 | None => broadcast s
                 end).
  { unfold addHttpLog. fold m.
    change (metric_of statusCode {| fields := log; id := currentLogId s; timestamp := t |})
      with m.
    destruct (analyze now m (metricsWindow s)) as [signal window]. reflexivity. }
  rewrite Hb. split.
  - intros H. rewrite (analyze_high now m (metricsWindow s) H). reflexivity.
  - intros H.
    pose proof (analyze_not_high now m (metricsWindow s) H) as Hn.
    destruct (analyze_falsy_latency now m (metricsWindow s) eq_refl)
      as [E|(a & E & Ha)].
    + rewrite E. reflexivity.
    + exfalso. apply Hn. exists a. split; assumption.
Qed.

End Logs.

(** *** The statements at sample inputs *)

Lemma high_error_rate_signal_witness :
  let w := replicate 9 (sample 500 100 0) in
  let w' := pruneOld 0 (w ++ [sample 200 100 0]) in
  ((10 <= length w')%nat /\
   3 * Z.of_nat (length w') < 10 * Z.of_nat (errors w')) /\
  fst (analyze 0 (sample 200 100 0) w)
  = Some {| a_type := HIGH_ERROR_RATE; a_severity := critical;
            value := errorRate w'; baseline := None |}.
Proof.
  cbv zeta.
  assert (H : (10 <= length (pruneOld 0 (replicate 9 (sample 500 100 0)
                                          ++ [sample 200 100 0])))%nat /\
              3 * Z.of_nat (length (pruneOld 0 (replicate 9 (sample 500 100 0)
                                                 ++ [sample 200 100 0])))
              < 10 * Z.of_nat (errors (pruneOld 0 (replicate 9 (sample 500 100 0)
                                                    ++ [sample 200 100 0]))))
    by (vm_compute; split; [lia | reflexivity]).
  split; [exact H|].
  exact (proj1 (proj2 (high_error_rate_signal 0 (sample 200 100 0)
                         (replicate 9 (sample 500 100 0)))) H).
Defined.

Lemma spike_needs_eleven_latencies_witness :
  let w := replicate 9 (sample 200 1 0) in
  let metric := sample 200 8 0 in
  pruneOld 0 (w ++ [metric]) <> [] /\
  (length (responseTimes (pruneOld 0 (w ++ [metric]))) <= 10)%nat /\
  ~ spike_condition metric (pruneOld 0 (w ++ [metric])).
Proof.
  cbv zeta.
  assert (H0 : pruneOld 0 (replicate 9 (sample 200 1 0) ++ [sample 200 8 0]) <> [])
    by (vm_compute; discriminate).
  assert (H : (length (responseTimes
                         (pruneOld 0 (replicate 9 (sample 200 1 0)
                                      ++ [sample 200 8 0]))) <= 10)%nat)
    by (vm_compute; lia).
  split; [exact H0|]. split; [exact H|].
  exact (proj1 spike_needs_eleven_latencies 0 (sample 200 8 0)
           (replicate 9 (sample 200 1 0)) H0 H).
Defined.

Lemma warm_up_takes_ten_samples_witness :
  let calls := replicate 9 (0, sample 500 100 0) in
  (length (@nil Metric) + length calls < 10)%nat /\
  Forall (fun signal => signal = None) (fst (analyze_all calls [])).
Proof.
  cbv zeta.
  assert (H : (length (@nil Metric) + length (replicate 9 (0, sample 500 100 0)) < 10)%nat)
    by (vm_compute; lia).
  split; [exact H|].
  exact (proj1 (warm_up_takes_ten_samples (replicate 9 (0, sample 500 100 0)) [] H)).
Defined.

Lemma addHttpLog_stores_log_witness :
  let s' := snd (Storage.addHttpLog Storage.s_statusCode 1000 1000
                   Storage.server_error Storage.new_storage) in
  Storage.ids_fresh Storage.new_storage /\
  Storage.httpLogs s' !! 1
  = Some {| Storage.fields := Storage.server_error; Storage.id := 1;
            Storage.timestamp := 1000 |} /\
  Storage.currentLogId s' = 2 /\
  Storage.ids_fresh s'.
Proof.
  cbv zeta.
  assert (H : Storage.ids_fresh Storage.new_storage).
  { intros k log Hk. simpl in Hk. rewrite lookup_empty in Hk. discriminate. }
  split; [exact H|].
  destruct (addHttpLog_stores_log Storage.SampleLog Storage.s_statusCode 1000 1000
              Storage.server_error Storage.new_storage H)
    as (Hlog & _ & Hin & _ & _ & Hid & _ & Hfresh).
  rewrite Hlog in Hin. split; [exact Hin|]. split; [exact Hid | exact Hfresh].
Defined.

Lemma log_window_holds_last_minute_witness :
  let calls := [(1000, 1000, Storage.server_error);
                (70000, 70001, Storage.server_error)] in
  Storage.window_ordered 0 Storage.new_storage /\
  Storage.clock_never_back 0 calls /\
  no_stale_left 70001
    (Storage.metricsWindow
       (Storage.addHttpLogs Storage.s_statusCode calls Storage.new_storage)).
Proof.
  cbv zeta.
  assert (H1 : Storage.window_ordered 0 Storage.new_storage)
    by (split; constructor).
  assert (H2 : Storage.clock_never_back 0
                 [(1000, 1000, Storage.server_error);
                  (70000, 70001, Storage.server_error)])
    by (simpl; lia).
  split; [exact H1|]. split; [exact H2|].
  apply (proj2 (log_window_holds_last_minute Storage.SampleLog Storage.s_statusCode
                  [(1000, 1000, Storage.server_error);
                   (70000, 70001, Storage.server_error)]
                  0 Storage.new_storage H1 H2)).
  discriminate.
Defined.

Lemma addHttpLog_alerts_witness :
  let s' := snd (Storage.addHttpLog Storage.s_statusCode 1000 1000
                   Storage.server_error Storage.failing_storage) in
  let w' := Storage.metricsWindow s' in
  ((10 <= length w')%nat /\
   3 * Z.of_nat (length w') < 10 * Z.of_nat (errors w')) /\
  Storage.broadcast s'
  = [{| Storage.anomaly := {| a_type := HIGH_ERROR_RATE; a_severity := critical;
                              value := errorRate w'; baseline := None |};
        Storage.at_time := 1000 |}].
Proof.
  cbv zeta.
  assert (H : (10 <= length (Storage.metricsWindow
                 (snd (Storage.addHttpLog Storage.s_statusCode 1000 1000
                         Storage.server_error Storage.failing_storage))))%nat /\
              3 * Z.of_nat (length (Storage.metricsWindow
                 (snd (Storage.addHttpLog Storage.s_statusCode 1000 1000
                         Storage.server_error Storage.failing_storage))))
              < 10 * Z.of_nat (errors (Storage.metricsWindow
                 (snd (Storage.addHttpLog Storage.s_statusCode 1000 1000
                         Storage.server_error Storage.failing_storage))))).
  { rewrite addHttpLog_window. vm_compute. split; [lia | reflexivity]. }
  split; [exact H|].
  exact (proj1 (addHttpLog_alerts Storage.SampleLog Storage.s_statusCode 1000 1000
                  Storage.server_error Storage.failing_storage) H).
Defined.

End DetectorMore.

(** * Properties of the reply cleaning *)

Module FenceFacts.
Import Fence.
Local Open Scope N_scope.

Lemma starts_with_app (p t : list N) : starts_with p (p ++ t) = Some t.
Proof.
  induction p as [|a p IH]; simpl; [reflexivity|].
  rewrite N.eqb_refl. exact IH.
Qed.

Lemma starts_with_length (p s rest : list N) :
  starts_with p s = Some rest -> length s = (length p + length rest)%nat.
Proof.
  revert s. induction p as [|a p IH]; intros s H; simpl in H.
  - injection H as <-. reflexivity.
  - destruct s as [|b s]; [discriminate|].
    destruct (a =? b); [|discriminate].
    simpl. f_equal. apply IH, H.
Qed.

Lemma skip_newline_length (s : list N) : (length (skip_newline s) <= length s)%nat.
Proof.
  destruct s as [|c s]; simpl; [lia|].
  destruct (c =? newline); simpl; lia.
Qed.

(** More steps than code units change nothing. *)
Lemma replace_loop_fuel (p : list N) (f1 f2 : nat) (s : list N) :
  p <> [] -> (length s <= f1)%nat -> (length s <= f2)%nat ->
  replace_loop f1 p s = replace_loop f2 p s.
Proof.
  intros Hp. revert f2 s. induction f1 as [|f1 IH]; intros f2 s H1 H2.
  - destruct s; [|simpl in H1; lia]. destruct f2; reflexivity.
  - destruct f2 as [|f2].
    + destruct s; [reflexivity | simpl in H2; lia].
    + destruct s as [|c s]; [reflexivity|].
      cbn [replace_loop].
      destruct (starts_with p (c :: s)) as [rest|] eqn:E.
      * apply starts_with_length in E.
        pose proof (skip_newline_length rest).
        assert (0 < length p)%nat by (destruct p; [contradiction | simpl; lia]).
        simpl in E, H1, H2. apply IH; lia.
      * f_equal. simpl in H1, H2. apply IH; lia.
Qed.

Lemma replace_all_keep (p : list N) (c : N) (s : list N) :
  starts_with p (c :: s) = None ->
  replace_all p (c :: s) = c :: replace_all p s.
Proof.
  intros H. unfold replace_all. cbn [length replace_loop]. rewrite H. reflexivity.
Qed.

Lemma replace_all_match (p s rest : list N) :
  p <> [] -> starts_with p s = Some rest ->
  replace_all p s = replace_all p (skip_newline rest).
Proof.
  intros Hp H. unfold replace_all.
  pose proof (starts_with_length _ _ _ H) as Hlen.
  pose proof (skip_newline_length rest).
  assert (0 < length p)%nat by (destruct p; [contradiction | simpl; lia]).
  destruct s as [|c s]; [simpl in Hlen; lia|].
  cbn [length replace_loop]. rewrite H.
  simpl in Hlen. apply replace_loop_fuel; [exact Hp | lia | lia].
Qed.

(** Text without a backtick is copied. *)
Lemma replace_all_plain (p body t : list N) :
  Forall (fun c => c <> backtick) body ->
  replace_all (backtick :: p) (body ++ t) = body ++ replace_all (backtick :: p) t.
Proof.
  induction 1 as [|c body Hc _ IH]; [reflexivity|].
  simpl app. rewrite replace_all_keep.
  - f_equal. exact IH.
  - cbn [starts_with]. destruct (N.eqb_spec backtick c) as [E|_]; [|reflexivity].
    congruence.
Qed.

Lemma skip_newline_app (body t : list N) :
  head t <> Some newline ->
  skip_newline (body ++ t) = skip_newline body ++ t.
Proof.
  intros Ht. destruct body as [|c body]; simpl.
  - destruct t as [|c t]; [reflexivity|]. simpl.
    destruct (N.eqb_spec c newline) as [->|_]; [|reflexivity].
    simpl in Ht. congruence.
  - destruct (c =? newline); reflexivity.
Qed.

Lemma skip_newline_plain (body : list N) :
  Forall (fun c => c <> backtick) body ->
  Forall (fun c => c <> backtick) (skip_newline body).
Proof.
  intros H. destruct H as [|c body Hc H]; simpl; [constructor|].
  destruct (c =? newline); [exact H | constructor; assumption].
Qed.

Lemma trim_start_skip_newline (s : list N) :
  trim_start (skip_newline s) = trim_start s.
Proof.
  destruct s as [|c s]; [reflexivity|]. simpl.
  destruct (N.eqb_spec c newline) as [->|_]; reflexivity.
Qed.

Lemma trim_skip_newline (s : list N) : trim (skip_newline s) = trim s.
Proof. unfold trim. rewrite trim_start_skip_newline. reflexivity. Qed.

(** What [trim] returns neither starts nor ends with white space. *)
Lemma trim_start_head (s : list N) (c : N) :
  head (trim_start s) = Some c -> is_space c = false.
Proof.
  induction s as [|a s IH]; simpl; [discriminate|].
  destruct (is_space a) eqn:E; [exact IH|].
  simpl. intros [= <-]. exact E.
Qed.

Lemma trim_start_suffix (s : list N) : exists k, trim_start s = drop k s.
Proof.
  induction s as [|a s [k IH]]; simpl.
  - exists 0%nat. reflexivity.
  - destruct (is_space a).
    + exists (S k). exact IH.
    + exists 0%nat. reflexivity.
Qed.

Lemma trim_start_fixed (s : list N) :
  (forall c, head s = Some c -> is_space c = false) -> trim_start s = s.
Proof.
  destruct s as [|a s]; [reflexivity|]. simpl. intros H.
  rewrite (H a eq_refl). reflexivity.
Qed.

Lemma last_trim_start (s : list N) (c : N) :
  last (trim_start s) = Some c -> last s = Some c.
Proof.
  induction s as [|a s IH]; simpl trim_start; [discriminate|].
  destruct (is_space a); [|intros H; exact H].
  intros H. rewrite last_cons, (IH H). reflexivity.
Qed.

Lemma trim_start_snoc_space (s : list N) (c : N) :
  is_space c = true ->
  (trim_start (s ++ [c]) = [] /\ trim_start s = []) \/
  trim_start (s ++ [c]) = trim_start s ++ [c].
Proof.
  intros Hc. induction s as [|a s IH]; simpl.
  - rewrite Hc. left. split; reflexivity.
  - destruct (is_space a); [exact IH|]. right. reflexivity.
Qed.

Lemma trim_end_snoc_space (s : list N) (c : N) :
  is_space c = true -> trim_end (s ++ [c]) = trim_end s.
Proof.
  intros Hc. unfold trim_end. rewrite reverse_snoc. simpl. rewrite Hc. reflexivity.
Qed.

Lemma trim_newlines (body : list N) :
  trim (newline :: body ++ [newline]) = trim body.
Proof.
  unfold trim. change (trim_start (newline :: body ++ [newline]))
    with (trim_start (body ++ [newline])).
  destruct (trim_start_snoc_space body newline eq_refl) as [[-> ->]| ->].
  - reflexivity.
  - apply trim_end_snoc_space. reflexivity.
Qed.

(** Closing a body without backticks with a fence. *)
Lemma replace_all_closing (body : list N) :
  Forall (fun c => c <> backtick) body ->
  replace_all json_fence (body ++ fence) = body ++ fence /\
  replace_all fence (body ++ fence) = body.
Proof.
  intros H. split.
  - unfold json_fence. change 96 with backtick at 1.
    rewrite replace_all_plain by exact H. reflexivity.
  - unfold fence at 1. change 96 with backtick at 1.
    rewrite replace_all_plain by exact H.
    change (replace_all (backtick :: [96; 96]) fence) with (@nil N).
    apply app_nil_r.
Qed.

(** X22.  For a body without backticks, the text handed to [JSON.parse]
    is the trimmed body whether the reply is the bare body, the body
    between a [json] fence and a closing fence (with or without line
    feeds next to the fences), or the body between two plain fences
    (provided it does not start with the letter j).  That text neither
    starts nor ends with white space. *)
Theorem cleanedResponse_unwraps (body : list N) :
  Forall (fun c => c <> backtick) body ->
  cleanedResponse body = trim body /\
  cleanedResponse (json_fence ++ body ++ fence) = trim body /\
  cleanedResponse (json_fence ++ [newline] ++ body ++ [newline] ++ fence) = trim body /\
  (head body <> Some 106 ->
   cleanedResponse (fence ++ body ++ fence) = trim body) /\
  (forall c, head (trim body) = Some c \/ last (trim body) = Some c ->
             is_space c = false).
Proof.
  intros H.
  assert (Hplain : cleanedResponse body = trim body).
  { unfold cleanedResponse.
    rewrite <- (app_nil_r body) at 1.
    unfold json_fence. change 96 with backtick at 1.
    rewrite replace_all_plain by exact H.
    change (replace_all (backtick :: _) []) with (@nil N).
    unfold fence. change 96 with backtick at 1.
    rewrite replace_all_plain by exact H.
    change (replace_all (backtick :: _) []) with (@nil N).
    rewrite !app_nil_r. reflexivity. }
  assert (Hopen : forall b, Forall (fun c => c <> backtick) b ->
            cleanedResponse (json_fence ++ b ++ fence) = trim b).
  { intros b Hb. unfold cleanedResponse.
    rewrite (replace_all_match json_fence _ (b ++ fence));
      [|discriminate | apply starts_with_app].
    rewrite skip_newline_app by discriminate.
    destruct (replace_all_closing _ (skip_newline_plain b Hb)) as [-> ->].
    apply trim_skip_newline. }
  split; [exact Hplain|]. split; [apply Hopen, H|]. split; [|split].
  - change (json_fence ++ [newline] ++ body ++ [newline] ++ fence)
      with (json_fence ++ (newline :: body ++ [newline] ++ fence)).
    rewrite (app_assoc body [newline] fence).
    change (newline :: (body ++ [newline]) ++ fence)
      with ((newline :: body ++ [newline]) ++ fence).
    rewrite Hopen.
    + apply trim_newlines.
    + constructor; [discriminate|].
      apply Forall_app. split; [exact H|]. constructor; [discriminate | constructor].
  - intros Hj. unfold cleanedResponse.
    assert (H1 : replace_all json_fence (fence ++ body ++ fence)
                 = fence ++ body ++ fence).
    { destruct body as [|c b]; [reflexivity|].
      apply Forall_cons in H. destruct H as [Hc Hb].
      assert (Hc' : (96 =? c) = false) by (apply N.eqb_neq; intros <-; apply Hc; reflexivity).
      assert (Hj' : (106 =? c) = false)
        by (apply N.eqb_neq; intros <-; apply Hj; reflexivity).
      change (fence ++ (c :: b) ++ fence)
        with (96 :: 96 :: 96 :: (c :: b) ++ fence).
      rewrite !replace_all_keep.
      - do 3 f_equal.
        apply (replace_all_closing (c :: b)). constructor; assumption.
      - cbn [starts_with app json_fence]. rewrite N.eqb_refl, Hc'. reflexivity.
      - cbn [starts_with app json_fence]. rewrite !N.eqb_refl, Hc'. reflexivity.
      - cbn [starts_with app json_fence]. rewrite !N.eqb_refl, Hj'. reflexivity. }
    rewrite H1.
    rewrite (replace_all_match fence _ (body ++ fence));
      [|discriminate | apply starts_with_app].
    rewrite skip_newline_app by discriminate.
    destruct (replace_all_closing _ (skip_newline_plain body H)) as [_ ->].
    apply trim_skip_newline.
  - intros c [Hc|Hc].
    + unfold trim, trim_end in Hc. rewrite head_reverse in Hc.
      apply last_trim_start in Hc. rewrite last_reverse in Hc.
      apply (trim_start_head body). exact Hc.
    + unfold trim, trim_end in Hc. rewrite last_reverse in Hc.
      apply (trim_start_head _ _ Hc).
Qed.

(** *** The statement at a sample input *)

Lemma cleanedResponse_unwraps_witness :
  Forall (fun c => c <> backtick) sample_json /\
  cleanedResponse (json_fence ++ [newline] ++ sample_json ++ [newline] ++ fence)
  = sample_json.
Proof.
  assert (H : Forall (fun c => c <> backtick) sample_json)
    by (repeat (constructor; [discriminate|]); constructor).
  split; [exact H|].
  etransitivity.
  - exact (proj1 (proj2 (proj2 (cleanedResponse_unwraps sample_json H)))).
  - vm_compute. reflexivity.
Defined.

End FenceFacts.
